(** * Horarios: a shallow embedding of the shift scheduler

    Modelled modules: [utils/date_utils.py], [config/__init__.py],
    [config/settings.py], [utils/compensation.py], [core/worker.py],
    [core/schedule.py], [core/constraints.py], [algorithms/common.py],
    [algorithms/generator.py] (strictly_can_work_shift),
    [algorithms/balancer.py] (transfer_premium_shift),
    [algorithms/day_off_planner.py] (phase 1) and [algorithms/repair.py]
    (resolve_constraint_violations, replace_worker).

    Conventions.
    - A [datetime] of the schedule is a calendar day at midnight; it is
      represented by the number of days since 2025-01-01, the origin the
      code itself uses for its shift timeline ([datetime(2025, 1, 1)]).
    - Compensation factors are the floats 1.0, 1.5, 2.0, 2.5 and their
      1.25 multiples 2.5, 3.125: all are multiples of 1/8 and exact binary
      floats, so sums of them are exact. They are counted here in eighths.
    - Worker objects are shared (the same object sits in [schedule.workers],
      in the technologist/engineer lists and is passed to every function):
      they live in a store, a list of [Worker] records, and are named by
      their index in it. *)

From Stdlib Require Import ZArith Lia Bool List Ascii String Sorted Permutation.
From stdpp Require Import base list.
Import ListNotations.
Open Scope Z_scope.

(* ------------------------------------------------------------------ *)
(** ** config/settings.py *)

Inductive Shift := Manana | Tarde | Noche.

Definition shift_eqb (a b : Shift) : bool :=
  match a, b with
  | Manana, Manana | Tarde, Tarde | Noche, Noche => true
  | _, _ => false
  end.

Lemma shift_eqb_eq a b : shift_eqb a b = true <-> a = b.
Proof. destruct a, b; simpl; split; congruence. Qed.

#[global] Instance Shift_eq_dec : EqDecision Shift.
Proof. intros a b; destruct a, b; (left; reflexivity) || (right; discriminate). Defined.

(** [SHIFT_TYPES = ["Mañana", "Tarde", "Noche"]] *)
Definition SHIFT_TYPES : list Shift := [Manana; Tarde; Noche].

(** The shift names as Python strings (code points; ñ is U+00F1). *)
Definition enye : ascii := ascii_of_nat 241.
Definition shift_name (s : Shift) : string :=
  match s with
  | Manana => String "M" (String "a" (String enye "ana"))
  | Tarde => "Tarde"
  | Noche => "Noche"
  end.

(** [shift_indices = {"Mañana": 0, "Tarde": 1, "Noche": 2}] *)
Definition shift_index (s : Shift) : Z :=
  match s with Manana => 0 | Tarde => 1 | Noche => 2 end.

(** [TECHS_PER_SHIFT] *)
Definition TECHS_PER_SHIFT (s : Shift) : Z :=
  match s with Manana => 5 | Tarde => 5 | Noche => 2 end.

(** [COMPENSATION_RATES], in eighths. *)
Definition DIURNO : Z := 8.
Definition NOCTURNO : Z := 12.
Definition FIN_DE_SEMANA_DIURNO : Z := 16.
Definition FIN_DE_SEMANA_NOCTURNO : Z := 20.

(** [COLOMBIAN_HOLIDAYS_2025], as (month, day). *)
Definition COLOMBIAN_HOLIDAYS_2025 : list (Z * Z) :=
  [(1,1); (1,6); (3,24); (4,17); (4,18); (5,1); (6,2); (6,23); (6,30);
   (7,7); (7,20); (8,7); (8,18); (10,13); (11,3); (11,17); (12,8); (12,25)].

(* ------------------------------------------------------------------ *)
(** ** Calendar: [datetime] arithmetic *)

(** A date, in days since 2025-01-01. *)
Abbreviation Date := Z (only parsing).

(** Proleptic Gregorian (year, month, day) of a day number: the usual
    civil-from-days conversion, through days since 1970-01-01
    (2025-01-01 is day 20089 of the Unix epoch). *)
Definition civil_from_days (n : Date) : Z * Z * Z :=
  let z := n + 20089 + 719468 in
  let era := z / 146097 in
  let doe := z - era * 146097 in
  let yoe := (doe - doe / 1460 + doe / 36524 - doe / 146096) / 365 in
  let y := yoe + era * 400 in
  let doy := doe - (365 * yoe + yoe / 4 - yoe / 100) in
  let mp := (5 * doy + 2) / 153 in
  let d := doy - (153 * mp + 2) / 5 + 1 in
  let m := if mp <? 10 then mp + 3 else mp - 9 in
  ((if m <=? 2 then y + 1 else y), m, d).

(** [date.weekday()]: Monday is 0; 2025-01-01 was a Wednesday. *)
Definition weekday (n : Date) : Z := (n + 2) mod 7.

(** [config.is_colombian_holiday]: [date.strftime("%m-%d")] is looked up
    in the list of month-day strings, whatever the year. *)
Definition is_colombian_holiday (n : Date) : bool :=
  let '(_, m, d) := civil_from_days n in
  existsb (fun '(m', d') => (m =? m') && (d =? d')) COLOMBIAN_HOLIDAYS_2025.

(* ------------------------------------------------------------------ *)
(** ** utils/compensation.py *)

Definition calculate_compensation (date : Date) (shift_type : Shift) : Z :=
  let is_weekend := 5 <=? weekday date in
  let is_night := shift_eqb shift_type Noche in
  let base_rate :=
    if is_weekend && is_night then FIN_DE_SEMANA_NOCTURNO
    else if is_weekend then FIN_DE_SEMANA_DIURNO
    else if is_night then NOCTURNO
    else DIURNO in
  if is_colombian_holiday date then
    if is_weekend then base_rate * 5 / 4   (* base_rate *= 1.25 *)
    else if is_night then FIN_DE_SEMANA_NOCTURNO
    else FIN_DE_SEMANA_DIURNO
  else base_rate.

Example civil_2025_01_01 : civil_from_days 0 = (2025, 1, 1).
Proof. reflexivity. Qed.
Example civil_2024_02_29 : civil_from_days (-307) = (2024, 2, 29).
Proof. reflexivity. Qed.
Example civil_2025_12_25 : civil_from_days 358 = (2025, 12, 25).
Proof. reflexivity. Qed.
Example weekday_2025_01_04 : weekday 3 = 5.
Proof. reflexivity. Qed.

(* ------------------------------------------------------------------ *)
(** ** core/worker.py *)

Record Worker := mkWorker {
  id : Z;
  is_technologist : bool;
  shifts : list (Date * Shift);   (* list of (fecha, tipo_turno) *)
  earnings : Z;                   (* in eighths *)
  days_off : list Date
}.

(** Python's [x in l] on a list of ints / dates. *)
Definition memZ (x : Z) (l : list Z) : bool := existsb (Z.eqb x) l.

(** [Worker.add_shift] *)
Definition add_shift (w : Worker) (date : Date) (shift_type : Shift) : Worker :=
  {| id := id w; is_technologist := is_technologist w;
     shifts := shifts w ++ [(date, shift_type)];
     earnings := earnings w + calculate_compensation date shift_type;
     days_off := days_off w |}.

(** [Worker.add_day_off] *)
Definition add_day_off (w : Worker) (date : Date) : Worker :=
  if memZ date (days_off w) then w
  else {| id := id w; is_technologist := is_technologist w;
          shifts := shifts w; earnings := earnings w;
          days_off := days_off w ++ [date] |}.

(** [Worker.get_shift_types_count]: the count of Mañana, Tarde, Noche. *)
Definition count_shift (s : Shift) (l : list (Date * Shift)) : Z :=
  Z.of_nat (length (List.filter (fun p => shift_eqb (snd p) s) l)).
Definition get_shift_types_count (w : Worker) : list Z :=
  map (fun s => count_shift s (shifts w)) SHIFT_TYPES.

(** [Worker.get_shift_count] *)
Definition get_shift_count (w : Worker) : Z := Z.of_nat (length (shifts w)).

(** [Worker.get_formatted_id] is in the string section below. *)

(* ------------------------------------------------------------------ *)
(** ** core/constraints.py: the per-assignment checks *)

(** Timeline position [(date - datetime(2025,1,1)).days * 3 + shift_idx]. *)
Definition position (date : Date) (s : Shift) : Z := date * 3 + shift_index s.

(** [check_adequate_rest]: True when rest is adequate. *)
Definition check_adequate_rest (worker : Worker) (date : Date) (shift_type : Shift)
  : bool :=
  let new_pos := position date shift_type in
  forallb (fun '(work_date, work_shift) =>
             let diff := Z.abs (new_pos - position work_date work_shift) in
             negb ((0 <? diff) && (diff <=? 2)))
          (shifts worker).

(** [check_adequate_rest_relaxed] *)
Definition check_adequate_rest_relaxed (worker : Worker) (date : Date)
  (shift_type : Shift) : bool :=
  let new_pos := position date shift_type in
  forallb (fun '(work_date, work_shift) =>
             let diff := Z.abs (new_pos - position work_date work_shift) in
             negb (diff =? 1))
          (shifts worker).

(** [check_night_to_day_transition]: True on a violation. *)
Definition check_night_to_day_transition (worker : Worker) (date : Date)
  (shift_type : Shift) : bool :=
  if negb (shift_eqb shift_type Manana) then false
  else
    let prev_date := date - 1 in
    existsb (fun '(d, s) => (d =? prev_date) && shift_eqb s Noche) (shifts worker).

(** [check_consecutive_shifts]: True on a violation. *)
Definition check_consecutive_shifts (worker : Worker) (date : Date)
  (shift_type : Shift) : bool :=
  let current_idx := shift_index shift_type in
  existsb (fun '(work_date, work_shift) =>
             (work_date =? date) &&
             (Z.abs (current_idx - shift_index work_shift) =? 1))
          (shifts worker).

(** [Worker.can_work_shift] *)
Definition can_work_shift (w : Worker) (date : Date) (shift_type : Shift) : bool :=
  if memZ date (days_off w) then false
  else if check_consecutive_shifts w date shift_type then false
  else if check_night_to_day_transition w date shift_type then false
  else if negb (check_adequate_rest w date shift_type) then false
  else true.

(* ------------------------------------------------------------------ *)
(** ** core/schedule.py *)

(** One entry of [day_data["shifts"]]; the constant ["hours"] field is left out. *)
Record SlotData := mkSlot {
  technologists : list Z;
  engineer : option Z
}.

(** A schedule: its period and the slot of every (date, shift) of it.
    [_day_cache] holds exactly the dates of [date_range(start, end)]. *)
Record Schedule := mkSchedule {
  start_date : Date;
  end_date : Date;
  slots : Date -> Shift -> SlotData
}.

(** [Schedule.__init__]: every slot starts empty. *)
Definition empty_schedule (start end_ : Date) : Schedule :=
  {| start_date := start; end_date := end_;
     slots := fun _ _ => {| technologists := []; engineer := None |} |}.

Definition in_range (sc : Schedule) (d : Date) : bool :=
  (start_date sc <=? d) && (d <=? end_date sc).

(** [self._day_cache.get(date)] *)
Definition day_cache (sc : Schedule) (d : Date) : option (Shift -> SlotData) :=
  if in_range sc d then Some (slots sc d) else None.

(** Writing [shift_data] of one slot (the dicts are mutated in place). *)
Definition set_slot (sc : Schedule) (d : Date) (s : Shift) (v : SlotData) : Schedule :=
  {| start_date := start_date sc; end_date := end_date sc;
     slots := fun d' s' => if (d' =? d) && shift_eqb s' s then v else slots sc d' s' |}.

(** Python's [list.remove(x)]: drops the first occurrence (only called
    after an [x in l] test). *)
Fixpoint remove_first (x : Z) (l : list Z) : list Z :=
  match l with
  | [] => []
  | y :: l' => if y =? x then l' else y :: remove_first x l'
  end.

(** [[(d, s) for d, s in worker.shifts if not (d == date and s == shift_type)]] *)
Definition drop_shift (date : Date) (shift_type : Shift) (l : list (Date * Shift))
  : list (Date * Shift) :=
  List.filter (fun '(d, s) => negb ((d =? date) && shift_eqb s shift_type)) l.

Definition set_shifts (w : Worker) (l : list (Date * Shift)) : Worker :=
  {| id := id w; is_technologist := is_technologist w; shifts := l;
     earnings := earnings w; days_off := days_off w |}.

Definition set_earnings (w : Worker) (e : Z) : Worker :=
  {| id := id w; is_technologist := is_technologist w; shifts := shifts w;
     earnings := e; days_off := days_off w |}.

(** [Schedule.assign_worker] on the schedule and the worker object. *)
Definition assign_worker_obj (sc : Schedule) (worker : Worker) (date : Date)
  (shift_type : Shift) : bool * Schedule * Worker :=
  match day_cache sc date with
  | None => (false, sc, worker)              (* fecha fuera del rango *)
  | Some day_data =>
      let shift_data := day_data shift_type in
      if is_technologist worker then
        if memZ (id worker) (technologists shift_data) then
          (false, sc, worker)                (* evitando duplicación *)
        else
          (true,
           set_slot sc date shift_type
             {| technologists := technologists shift_data ++ [id worker];
                engineer := engineer shift_data |},
           add_shift worker date shift_type)
      else
        (* overwrites (and only logs) a previous engineer *)
        (true,
         set_slot sc date shift_type
           {| technologists := technologists shift_data;
              engineer := Some (id worker) |},
         add_shift worker date shift_type)
  end.

(** [Schedule.remove_worker_from_shift] on the schedule and the worker object. *)
Definition remove_worker_from_shift_obj (sc : Schedule) (worker : Worker)
  (date : Date) (shift_type : Shift) : bool * Schedule * Worker :=
  match day_cache sc date with
  | None => (false, sc, worker)
  | Some day_data =>
      let shift_data := day_data shift_type in
      if is_technologist worker then
        if memZ (id worker) (technologists shift_data) then
          (true,
           set_slot sc date shift_type
             {| technologists := remove_first (id worker) (technologists shift_data);
                engineer := engineer shift_data |},
           set_shifts worker (drop_shift date shift_type (shifts worker)))
        else (false, sc, worker)
      else
        match engineer shift_data with
        | Some e =>
            if e =? id worker then
              (true,
               set_slot sc date shift_type
                 {| technologists := technologists shift_data; engineer := None |},
               set_shifts worker (drop_shift date shift_type (shifts worker)))
            else (false, sc, worker)
        | None => (false, sc, worker)
        end
  end.

(** The whole program state: the schedule and the store of worker objects. *)
Record State := mkState {
  sched : Schedule;
  store : list Worker
}.

Abbreviation WorkerRef := nat (only parsing).

Definition set_worker (st : State) (h : WorkerRef) (w : Worker) : State :=
  {| sched := sched st; store := <[h := w]> (store st) |}.

(** [schedule.assign_worker(worker, date, shift_type)] *)
Definition assign_worker (st : State) (h : WorkerRef) (date : Date)
  (shift_type : Shift) : bool * State :=
  match store st !! h with
  | None => (false, st)
  | Some w =>
      let '(b, sc', w') := assign_worker_obj (sched st) w date shift_type in
      (b, {| sched := sc'; store := <[h := w']> (store st) |})
  end.

(** [schedule.remove_worker_from_shift(worker, date, shift_type)] *)
Definition remove_worker_from_shift (st : State) (h : WorkerRef) (date : Date)
  (shift_type : Shift) : bool * State :=
  match store st !! h with
  | None => (false, st)
  | Some w =>
      let '(b, sc', w') := remove_worker_from_shift_obj (sched st) w date shift_type in
      (b, {| sched := sc'; store := <[h := w']> (store st) |})
  end.

(** A sequence of calls of the two mutators (the schedule API). *)
Inductive Op :=
  | OpAssign (h : WorkerRef) (date : Date) (s : Shift)
  | OpRemove (h : WorkerRef) (date : Date) (s : Shift).

Definition run_op (st : State) (o : Op) : State :=
  match o with
  | OpAssign h d s => snd (assign_worker st h d s)
  | OpRemove h d s => snd (remove_worker_from_shift st h d s)
  end.

Definition run_ops (st : State) (os : list Op) : State := fold_left run_op os st.

(** A fresh program state: [Schedule(start, end, workers)] over new workers. *)
Definition new_worker (i : Z) (tech : bool) : Worker :=
  {| id := i; is_technologist := tech; shifts := []; earnings := 0; days_off := [] |}.

Definition initial_state (start end_ : Date) (ws : list Worker) : State :=
  {| sched := empty_schedule start end_; store := ws |}.

(* ------------------------------------------------------------------ *)
(** ** The compensation rule as the specification words it *)

(** The weekend day/night rate and the regular day/night rate. *)
Definition weekend_rate (s : Shift) : Z :=
  if shift_eqb s Noche then FIN_DE_SEMANA_NOCTURNO else FIN_DE_SEMANA_DIURNO.
Definition regular_rate (s : Shift) : Z :=
  if shift_eqb s Noche then NOCTURNO else DIURNO.

(** Rule precedence: holiday and weekend: weekend rate times 1.25;
    holiday only: weekend rate; weekend only: weekend rate; otherwise the
    regular rate. *)
Definition compensation_by_precedence (date : Date) (s : Shift) : Z :=
  let hol := is_colombian_holiday date in
  let wkend := 5 <=? weekday date in
  if hol && wkend then weekend_rate s * 5 / 4
  else if hol then weekend_rate s
  else if wkend then weekend_rate s
  else regular_rate s.

(* ------------------------------------------------------------------ *)
(** ** Schedule-level properties stated by the specification *)

(** Slot/worker mirror: for every in-range slot, a technologist's id is in
    the slot's list iff the slot is in its shifts; an engineer's id is the
    slot's engineer iff the slot is in its shifts. *)
Definition mirror_consistent (st : State) : Prop :=
  forall (h : WorkerRef) (w : Worker) (d : Date) (s : Shift),
    store st !! h = Some w -> in_range (sched st) d = true ->
    if is_technologist w
    then (In (id w) (technologists (slots (sched st) d s)) <-> In (d, s) (shifts w))
    else (engineer (slots (sched st) d s) = Some (id w) <-> In (d, s) (shifts w)).

(** [|{ s : (d, s) in w.shifts }|] *)
Definition count_on_date (d : Date) (l : list (Date * Shift)) : nat :=
  length (List.filter (fun p => fst p =? d) l).

(** [earnings = sum of calculate_compensation(d, s) over shifts] *)
Definition shifts_value (l : list (Date * Shift)) : Z :=
  fold_right (fun '(d, s) acc => calculate_compensation d s + acc) 0 l.

Definition earnings_consistent (st : State) : Prop :=
  forall (h : WorkerRef) (w : Worker),
    store st !! h = Some w -> earnings w = shifts_value (shifts w).

(** A one-week schedule (2025-01-01 .. 2025-01-07) over the technologist
    T1 and the engineers I1 and I2 (ids are per class, as in [main.py]). *)
Definition week_state : State :=
  initial_state 0 6 [new_worker 1 true; new_worker 1 false; new_worker 2 false].

(* ------------------------------------------------------------------ *)
(** ** Python helpers: [str(int)] and [list.sort(key=...)] *)

Definition digit_char (n : Z) : ascii := ascii_of_nat (48 + Z.to_nat n).

Fixpoint digits_aux (fuel : nat) (n : Z) (acc : string) : string :=
  match fuel with
  | O => acc
  | S f =>
      let acc' := String (digit_char (n mod 10)) acc in
      if n <? 10 then acc' else digits_aux f (n / 10) acc'
  end.

(** [str(n)] for an int: its decimal digits (a number below [2^(k+1)]
    has at most [k+1] digits, hence the fuel). *)
Definition str_of_Z (n : Z) : string :=
  let fuel := S (Z.to_nat (Z.log2 (Z.abs n))) in
  if n <? 0 then String "-" (digits_aux fuel (- n) EmptyString)
  else digits_aux fuel n EmptyString.

(** [l.sort(key=key)]: Python's sort is stable; an element is inserted
    after every element whose key is not greater. [reverse=True] keeps
    stability and equals sorting on the negated key. *)
Fixpoint insert_by {A} (key : A -> Z) (x : A) (l : list A) : list A :=
  match l with
  | [] => [x]
  | y :: l' => if key x <? key y then x :: l else y :: insert_by key x l'
  end.

Definition sort_by {A} (key : A -> Z) (l : list A) : list A :=
  fold_left (fun acc x => insert_by key x acc) l [].

(* ------------------------------------------------------------------ *)
(** ** algorithms/common.py and algorithms/generator.py *)

(** [get_recent_shifts(worker, date, days)] *)
Definition get_recent_shifts (worker : Worker) (date : Date) (days : Z)
  : list (Date * Shift) :=
  List.filter (fun '(d, _) => (0 <=? date - d) && (date - d <? days)) (shifts worker).

Definition list_max (l : list Z) : Z := fold_left Z.max (tail l) (hd 0 l).
Definition list_min (l : list Z) : Z := fold_left Z.min (tail l) (hd 0 l).

(** [strictly_can_work_shift(worker, date, shift_type, schedule)] *)
Definition strictly_can_work_shift (worker : Worker) (date : Date)
  (shift_type : Shift) (schedule : Schedule) : bool :=
  if negb (can_work_shift worker date shift_type) then false
  else if 3 <=? Z.of_nat (length (get_recent_shifts worker date 3)) then false
  else
    let shift_counts := get_shift_types_count worker in
    let max_count := list_max shift_counts in
    let min_count := list_min shift_counts in
    if (5 <? max_count - min_count) &&
       (count_shift shift_type (shifts worker) =? max_count) then false
    else if shift_eqb shift_type Tarde &&
            existsb (fun '(d, s) => (d =? date + 1) && shift_eqb s Noche)
                    (shifts worker) then false
    else if existsb (fun '(d, _) => d =? date) (shifts worker) then false
    else if negb (check_adequate_rest worker date shift_type) then false
    else if check_night_to_day_transition worker date shift_type then false
    else if check_consecutive_shifts worker date shift_type then false
    else true.

(** [impact_score] is an int, or [float('inf')] on the blocking case. *)
Inductive Score := Finite (z : Z) | Infinity.

Definition worker_at (st : State) (h : WorkerRef) (dflt : Worker) : Worker :=
  default dflt (store st !! h).

(** The top-level names [algorithms/selector.py] defines. *)
Definition selector_names : list string := ["select_workers_for_shift"%string].

(** The lazy [from algorithms.generator import strictly_can_work_shift]
    executes [algorithms/generator.py]. Its imports of lines 6-12 name
    things that exist; line 13 is [from algorithms.selector import
    select_workers_proactively], which raises ImportError when selector.py
    does not define that name. A failed import leaves no module in
    [sys.modules], so every execution of the statement fails again.
    [None]: the import succeeds; [Some msg]: ImportError(msg). *)
Definition import_strictly_can_work_shift : option string :=
  if existsb (String.eqb "select_workers_proactively") selector_names then None
  else Some "cannot import name 'select_workers_proactively' from 'algorithms.selector'"%string.

(** The message of that [ImportError]. *)
Definition import_error_msg : string :=
  "cannot import name 'select_workers_proactively' from 'algorithms.selector'"%string.

(** One simulated assignment of the 3-day lookahead:
    [original_shifts = worker.shifts.copy(); worker.shifts.append(...);
     from algorithms.generator import strictly_can_work_shift;
     can_work_future = strictly_can_work_shift(...);
     worker.shifts = original_shifts]. [inl msg]: the ImportError raised by
    the import, with the state as it stands at that point. *)
Definition simulate_future (st : State) (h : WorkerRef) (w0 : Worker) (date : Date)
  (shift_type : Shift) (future_date : Date) (future_shift : Shift)
  : (string + bool) * State :=
  let original_shifts := shifts (worker_at st h w0) in
  let st1 := set_worker st h (set_shifts (worker_at st h w0)
                                         (original_shifts ++ [(date, shift_type)])) in
  match import_strictly_can_work_shift with
  | Some err => (inl err, st1)
  | None =>
      let can_work_future :=
        strictly_can_work_shift (worker_at st1 h w0) future_date future_shift (sched st1) in
      let st2 := set_worker st1 h (set_shifts (worker_at st1 h w0) original_shifts) in
      (inr can_work_future, st2)
  end.

Definition shift_criticality (s : Shift) : Z :=
  match s with Noche => 3 | Tarde => 2 | Manana => 1 end.

(** The loop [for future_days in range(1, 4): ... for future_shift in
    SHIFT_TYPES: ...], threading [(impact_score, future_blocking)] and the
    state; once an exception is raised ([inl]) the rest of the loop is
    skipped. *)
Definition lookahead (st : State) (h : WorkerRef) (w0 : Worker) (date : Date)
  (shift_type : Shift) (impact0 : Z) : (string + Z * Z) * State :=
  fold_left
    (fun '(acc, st) future_days =>
       match acc with
       | inl _ => (acc, st)
       | inr _ =>
       let future_date := date + future_days in
       if end_date (sched st) <? future_date then (acc, st)
       else
         fold_left
           (fun '(acc, st) future_shift =>
              match acc with
              | inl _ => (acc, st)
              | inr (impact, blocking) =>
              let '(r, st') :=
                simulate_future st h w0 date shift_type future_date future_shift in
              match r with
              | inl err => (inl err, st')
              | inr can_work_future =>
              if can_work_future then (inr (impact, blocking), st')
              else
                let is_critical_day :=
                  (5 <=? weekday future_date) || is_colombian_holiday future_date in
                let day_proximity := 4 - future_days in
                let future_impact := day_proximity * shift_criticality future_shift *
                                     (if is_critical_day then 2 else 1) in
                (inr (impact + future_impact, blocking + 1), st')
              end
              end)
           SHIFT_TYPES (acc, st)
       end)
    [1; 2; 3] (inr (impact0, 0), st).

(** Longest run of consecutive calendar days in a date-sorted list. *)
Fixpoint max_run_aux (prev : Date) (run best : Z) (l : list (Date * Shift)) : Z :=
  match l with
  | [] => best
  | (d, _) :: l' =>
      if d - prev =? 1 then max_run_aux d (run + 1) (Z.max best (run + 1)) l'
      else max_run_aux d 1 best l'
  end.

Definition max_consecutive_days (l : list (Date * Shift)) : Z :=
  match l with [] => 1 | (d, _) :: l' => max_run_aux d 1 1 l' end.

Definition str_Descanso : string := "Descanso inadecuado".

(** [predict_assignment_impact(schedule, worker, date, shift_type)]:
    returns [(can_assign, violations, impact_score)] ([inr]) or raises
    ([inl msg]), with the state after the call. *)
Definition predict_assignment_impact (st : State) (h : WorkerRef) (date : Date)
  (shift_type : Shift) : (string + bool * list string * Score) * State :=
  match store st !! h with
  | None => (inr (false, [], Finite 0), st)
  | Some w0 =>
      let worker := w0 in
      let v1 := if memZ date (days_off worker) then ["Viola d" ++ String (ascii_of_nat 237) "a libre"]%string else [] in
      let i1 := if memZ date (days_off worker) then 40 else 0 in
      if existsb (fun '(d, _) => d =? date) (shifts worker) then
        (inr (false, v1 ++ ["Ya tiene asignaci" ++ String (ascii_of_nat 243) "n ese d" ++
                        String (ascii_of_nat 237) "a"]%string, Infinity), st)
      else
        let ntd := check_night_to_day_transition worker date shift_type in
        let cons := check_consecutive_shifts worker date shift_type in
        let rest := check_adequate_rest worker date shift_type in
        let v2 := v1 ++ (if ntd then ["Transici" ++ String (ascii_of_nat 243) "n noche a d" ++
                                      String (ascii_of_nat 237) "a"]%string else [])
                     ++ (if cons then ["Turnos consecutivos"%string] else [])
                     ++ (if rest then [] else [str_Descanso]) in
        let i2 := i1 + (if ntd then 30 else 0) + (if cons then 20 else 0)
                     + (if rest then 0 else 15) in
        let '(r, st') := lookahead st h w0 date shift_type i2 in
        match r with
        | inl err => (inl err, st')
        | inr (i3, future_blocking) =>
        let worker' := worker_at st' h w0 in
        let v3 := v2 ++ (if 0 <? future_blocking
                         then [("Bloquea " ++ str_of_Z future_blocking ++
                                " asignaciones futuras")%string] else []) in
        let temp_shifts := sort_by fst (get_recent_shifts worker' date 5 ++ [(date, shift_type)]) in
        let max_consecutive := max_consecutive_days temp_shifts in
        let '(i4, v4) :=
          if 3 <? max_consecutive
          then (i3 + (max_consecutive - 3) * 5,
                v3 ++ [("Crear" ++ String (ascii_of_nat 237) "a " ++ str_of_Z max_consecutive ++
                        " d" ++ String (ascii_of_nat 237) "as consecutivos de trabajo")%string])
          else (i3, v3) in
        let shift_counts :=
          map (fun s => count_shift s (shifts worker') + (if shift_eqb s shift_type then 1 else 0))
              SHIFT_TYPES in
        let diff := list_max shift_counts - list_min shift_counts in
        let '(i5, v5) :=
          if 3 <=? diff
          then (i4 + diff * 2,
                v4 ++ [("Aumenta desequilibrio de tipos de turno a " ++ str_of_Z diff)%string])
          else (i4, v4) in
        let can_assign := (i5 <? 20) || ((i5 <? 40) && shift_eqb shift_type Noche) in
        (inr (can_assign, v5, Finite i5), st')
        end
  end.

(* ------------------------------------------------------------------ *)
(** ** algorithms/balancer.py: transfer_premium_shift *)

(** [is_weekend or is_night or is_holiday] *)
Definition is_premium (date : Date) (shift_type : Shift) : bool :=
  (5 <=? weekday date) || shift_eqb shift_type Noche || is_colombian_holiday date.

(** The slot update of the transfer:
    [if from_worker.is_technologist: if id in list: list.remove(id)
     else: if engineer == id: engineer = None]. *)
Definition take_out_of_slot (sc : Schedule) (worker : Worker) (date : Date)
  (shift_type : Shift) (shift_data : SlotData) : Schedule :=
  if is_technologist worker then
    if memZ (id worker) (technologists shift_data) then
      set_slot sc date shift_type
        {| technologists := remove_first (id worker) (technologists shift_data);
           engineer := engineer shift_data |}
    else sc
  else
    match engineer shift_data with
    | Some e => if e =? id worker
                then set_slot sc date shift_type
                       {| technologists := technologists shift_data; engineer := None |}
                else sc
    | None => sc
    end.

(** The successful iteration: take [from_worker] out of the slot and out of
    its shifts, [schedule.assign_worker(to_worker, ...)], then overwrite
    both earnings with the projected values. *)
Definition commit_premium_transfer (st : State) (hf ht : WorkerRef)
  (from_worker to_worker : Worker) (date : Date) (shift_type : Shift)
  (shift_data : SlotData) : State :=
  let compensation_value := calculate_compensation date shift_type in
  let from_worker_new_earnings := earnings from_worker - compensation_value in
  let to_worker_new_earnings := earnings to_worker + compensation_value in
  let st1 :=
    {| sched := take_out_of_slot (sched st) from_worker date shift_type shift_data;
       store := <[hf := set_shifts from_worker
                          (drop_shift date shift_type (shifts from_worker))]>
                  (store st) |} in
  let st2 := snd (assign_worker st1 ht date shift_type) in
  let st3 := set_worker st2 hf
               (set_earnings (worker_at st2 hf from_worker) from_worker_new_earnings) in
  set_worker st3 ht (set_earnings (worker_at st3 ht to_worker) to_worker_new_earnings).

(** The loop [for date, shift_type in premium_shifts: ...] of
    [transfer_premium_shift]; [from_worker] and [to_worker] are read before
    any mutation, which only happens on the successful iteration. *)
Fixpoint try_premium_transfers (st : State) (hf ht : WorkerRef)
  (from_worker to_worker : Worker) (l : list (Date * Shift)) : bool * State :=
  match l with
  | [] => (false, st)
  | (date, shift_type) :: l' =>
      if memZ date (days_off to_worker) then
        try_premium_transfers st hf ht from_worker to_worker l'
      else if existsb (fun '(d, _) => d =? date) (shifts to_worker) then
        try_premium_transfers st hf ht from_worker to_worker l'
      else if check_night_to_day_transition to_worker date shift_type ||
              check_consecutive_shifts to_worker date shift_type then
        try_premium_transfers st hf ht from_worker to_worker l'
      else
        let compensation_value := calculate_compensation date shift_type in
        let from_worker_new_earnings := earnings from_worker - compensation_value in
        let to_worker_new_earnings := earnings to_worker + compensation_value in
        if from_worker_new_earnings <? to_worker_new_earnings then
          try_premium_transfers st hf ht from_worker to_worker l'
        else
          match day_cache (sched st) date with
          | None => try_premium_transfers st hf ht from_worker to_worker l'
          | Some day_data =>
              (true, commit_premium_transfer st hf ht from_worker to_worker
                       date shift_type (day_data shift_type))
          end
  end.

(** [transfer_premium_shift(schedule, from_worker, to_worker)] *)
Definition transfer_premium_shift (st : State) (hf ht : WorkerRef) : bool * State :=
  match store st !! hf, store st !! ht with
  | Some from_worker, Some to_worker =>
      let premium_shifts :=
        List.filter (fun '(d, s) => is_premium d s) (shifts from_worker) in
      (* premium_shifts.sort(key=premium_value, reverse=True) *)
      let premium_shifts :=
        sort_by (fun '(d, s) => - calculate_compensation d s) premium_shifts in
      try_premium_transfers st hf ht from_worker to_worker premium_shifts
  | _, _ => (false, st)
  end.

(** The tests a premium shift must pass to be transferred. *)
Definition premium_transfer_guard (st : State) (from_worker to_worker : Worker)
  (date : Date) (shift_type : Shift) : bool :=
  negb (memZ date (days_off to_worker)) &&
  negb (existsb (fun '(d, _) => d =? date) (shifts to_worker)) &&
  negb (check_night_to_day_transition to_worker date shift_type ||
        check_consecutive_shifts to_worker date shift_type) &&
  negb (earnings from_worker - calculate_compensation date shift_type <?
        earnings to_worker + calculate_compensation date shift_type) &&
  in_range (sched st) date.

(** Technologist T1 holds 2025-01-01 Noche (holiday), 2025-01-04 Mañana
    (Saturday) and 2025-01-06 Mañana (holiday); T2 holds 2025-01-02 Mañana,
    one shift-slot after 2025-01-01 Noche. *)
Definition premium_state : State :=
  run_ops (initial_state 0 6 [new_worker 1 true; new_worker 2 true])
    [OpAssign 0 0 Noche; OpAssign 0 3 Manana; OpAssign 0 5 Manana; OpAssign 1 1 Manana].

(* ------------------------------------------------------------------ *)
(** ** algorithms/day_off_planner.py: ensure_weekly_days_off, phase 1 *)

(** [get_week_start(date)] and [get_week_end(start)] *)
Definition get_week_start (date : Date) : Date := date - weekday date.
Definition get_week_end (start : Date) : Date := start + 6.

(** The [while current_date <= schedule.end_date] loop collecting
    [(week_start, week_end, effective_start, effective_end)]; the fuel is
    the number of iterations of the loop. *)
Fixpoint weeks_from (fuel : nat) (current start end_ : Date)
  : list (Date * Date * Date * Date) :=
  match fuel with
  | O => []
  | S f =>
      if current <=? end_ then
        let week_end := get_week_end current in
        let rest := weeks_from f (current + 7) start end_ in
        if negb ((week_end <? start) || (end_ <? current))
        then (current, week_end, Z.max current start, Z.min week_end end_) :: rest
        else rest
      else []
  end.

Definition schedule_weeks (sc : Schedule) : list (Date * Date * Date * Date) :=
  let first := get_week_start (start_date sc) in
  weeks_from (S (Z.to_nat ((end_date sc - first) / 7))) first (start_date sc) (end_date sc).

(** The inner [for night_date, _ in night_shifts: ...] loop: the first
    night (in the sorted order) whose next day is in the effective range
    and free of shifts. *)
Fixpoint first_post_night_day (worker : Worker) (effective_start effective_end : Date)
  (night_shifts : list (Date * Shift)) : option Date :=
  match night_shifts with
  | [] => None
  | (night_date, _) :: l =>
      let next_day := night_date + 1 in
      if (effective_start <=? next_day) && (next_day <=? effective_end) &&
         negb (existsb (fun '(d, _) => d =? next_day) (shifts worker))
      then Some next_day
      else first_post_night_day worker effective_start effective_end l
  end.

(** The body of phase 1 for one worker and one week; the boolean says
    whether [worker.id] is added to [workers_with_days_off]. *)
Definition phase1_week (worker : Worker) (effective_start effective_end : Date)
  : Worker * bool :=
  if existsb (fun d => (effective_start <=? d) && (d <=? effective_end)) (days_off worker)
  then (worker, true)
  else
    let night_shifts :=
      List.filter (fun '(d, s) => shift_eqb s Noche && (effective_start <=? d) &&
                                  (d <=? effective_end)) (shifts worker) in
    match night_shifts with
    | [] => (worker, false)
    | _ =>
        match first_post_night_day worker effective_start effective_end
                (sort_by fst night_shifts) with
        | Some next_day => (add_day_off worker next_day, true)
        | None => (worker, false)
        end
    end.

(** Phase 1 over [all_workers = technologists + engineers] (references into
    the store) and every week; returns the state and the ids put in
    [workers_with_days_off] (a set: membership is what the code uses). *)
Definition ensure_weekly_days_off_phase1 (st : State) (all_workers : list WorkerRef)
  : State * list Z :=
  let weeks := schedule_weeks (sched st) in
  fold_left
    (fun '(st, with_off) h =>
       fold_left
         (fun '(st, with_off) '(_, _, effective_start, effective_end) =>
            match store st !! h with
            | None => (st, with_off)
            | Some w =>
                let '(w', added) := phase1_week w effective_start effective_end in
                (set_worker st h w', if added then with_off ++ [id w] else with_off)
            end)
         weeks (st, with_off))
    all_workers (st, []).

(** 2025-01-06 (Monday) .. 2025-01-12 (Sunday): technologist T1 works the
    nights of Monday 6 and Wednesday 8. *)
Definition night_worker : Worker :=
  {| id := 1; is_technologist := true; shifts := [(5, Noche); (7, Noche)];
     earnings := 32; days_off := [] |}.

Definition night_week_state : State :=
  run_ops (initial_state 5 11 [new_worker 1 true])
    [OpAssign 0 5 Noche; OpAssign 0 7 Noche].

(* ------------------------------------------------------------------ *)
(** ** Python strings: formatting, [in], [split] and the three regexes *)

(** Strings are sequences of Latin-1 code points (one [ascii] each). *)
Definition o_acute : ascii := ascii_of_nat 243.
Definition i_acute : ascii := ascii_of_nat 237.

Definition str_eqb (a b : string) : bool := if string_dec a b then true else false.

(** [sub in s] *)
Definition str_contains (sub s : string) : bool :=
  match String.index 0 sub s with Some _ => true | None => false end.

(** [date.strftime('%Y-%m-%d')]: the year unpadded (glibc), month and day
    on two digits. *)
Definition pad2 (n : Z) : string :=
  if n <? 10 then String "0" (str_of_Z n) else str_of_Z n.
Definition fmt_date (n : Date) : string :=
  let '(y, m, d) := civil_from_days n in
  (str_of_Z y ++ "-" ++ pad2 m ++ "-" ++ pad2 d)%string.

(** Inverse of [civil_from_days]: the day number of (y, m, d). *)
Definition days_from_civil (y m d : Z) : Date :=
  let y' := if m <=? 2 then y - 1 else y in
  let era := y' / 400 in
  let yoe := y' - era * 400 in
  let mp := if 2 <? m then m - 3 else m + 9 in
  let doy := (153 * mp + 2) / 5 + d - 1 in
  let doe := yoe * 365 + yoe / 4 - yoe / 100 + doy in
  era * 146097 + doe - 719468 - 20089.

Definition is_digit (c : ascii) : bool :=
  let n := nat_of_ascii c in (48 <=? n)%nat && (n <=? 57)%nat.
Definition digit_val (c : ascii) : Z := Z.of_nat (nat_of_ascii c) - 48.

(** [datetime.strptime(s, "%Y-%m-%d")] on the strings [fmt_date] produces
    for four-digit years; anything else raises ([None]). *)
Definition parse_date (s : string) : option Date :=
  match list_ascii_of_string s with
  | [y1; y2; y3; y4; "-"%char; m1; m2; "-"%char; d1; d2] =>
      if forallb is_digit [y1; y2; y3; y4; m1; m2; d1; d2] then
        let y := digit_val y1 * 1000 + digit_val y2 * 100 + digit_val y3 * 10 + digit_val y4 in
        let m := digit_val m1 * 10 + digit_val m2 in
        let d := digit_val d1 * 10 + digit_val d2 in
        if (1 <=? m) && (m <=? 12) && (1 <=? d) && (d <=? 31) &&
           (snd (civil_from_days (days_from_civil y m d)) =? d)
        then Some (days_from_civil y m d) else None
      else None
  | _ => None
  end.

(** Python's [str.split()] (runs of whitespace) and [str.split(sep)]. *)
Definition is_space (c : ascii) : bool :=
  let n := nat_of_ascii c in ((n =? 32) || (9 <=? n) && (n <=? 13))%nat.

Fixpoint split_ws_aux (l : list ascii) (cur : list ascii) : list string :=
  match l with
  | [] => match cur with [] => [] | _ => [string_of_list_ascii (rev cur)] end
  | c :: l' =>
      if is_space c then
        match cur with
        | [] => split_ws_aux l' []
        | _ => string_of_list_ascii (rev cur) :: split_ws_aux l' []
        end
      else split_ws_aux l' (c :: cur)
  end.
Definition split_ws (s : string) : list string := split_ws_aux (list_ascii_of_string s) [].

Fixpoint split_on_aux (fuel : nat) (sep s : string) : list string :=
  match fuel with
  | O => [s]
  | S f =>
      match String.index 0 sep s with
      | None => [s]
      | Some i =>
          substring 0 i s ::
          split_on_aux f sep (substring (i + String.length sep) (String.length s) s)
      end
  end.
(** [s.split(sep)] for a non-empty [sep]. *)
Definition split_on (sep s : string) : list string :=
  split_on_aux (String.length s) sep s.

(** [l[i]], raising ([None]) out of range. *)
Definition py_index {A} (l : list A) (i : nat) : option A := nth_error l i.

(** [\w] on Latin-1: [str.isalnum()] or ['_']. *)
Definition is_word (c : ascii) : bool :=
  let n := nat_of_ascii c in
  ((48 <=? n) && (n <=? 57) || (65 <=? n) && (n <=? 90) || (97 <=? n) && (n <=? 122)
   || (n =? 95) || (n =? 170) || (n =? 178) || (n =? 179) || (n =? 181)
   || (n =? 185) || (n =? 186) || (188 <=? n) && (n <=? 190)
   || (192 <=? n) && (n <=? 214) || (216 <=? n) && (n <=? 246) || (248 <=? n))%nat.

Fixpoint word_run (l : list ascii) : list ascii * list ascii :=
  match l with
  | c :: l' => if is_word c then let '(w, r) := word_run l' in (c :: w, r) else ([], l)
  | [] => ([], [])
  end.

(** [re.search(r'y (\w+)\.', s).group(1)]: at the leftmost start where it
    matches. Once ["y "] is read, [\w+] must stop right before the ["."]
    and ["."] is not a word character, so the run is the maximal one. *)
Fixpoint search_y_word_dot (l : list ascii) : option string :=
  match l with
  | [] => None
  | c :: l' =>
      let here :=
        match l' with
        | c2 :: rest =>
            if Ascii.eqb c "y" && Ascii.eqb c2 " " then
              match word_run rest with
              | (x :: w, d :: _) =>
                  if Ascii.eqb d "." then Some (string_of_list_ascii (x :: w)) else None
              | _ => None
              end
            else None
        | [] => None
        end in
      match here with Some g => Some g | None => search_y_word_dot l' end
  end.
Definition re_y_word_dot (s : string) : option string :=
  search_y_word_dot (list_ascii_of_string s).

(** [re.search(r'\d{4}-\d{2}-\d{2}', s).group(0)] *)
Fixpoint search_iso_date (l : list ascii) : option string :=
  match l with
  | [] => None
  | c :: l' =>
      match l with
      | y1 :: y2 :: y3 :: y4 :: "-"%char :: m1 :: m2 :: "-"%char :: d1 :: d2 :: _ =>
          if forallb is_digit [y1; y2; y3; y4; m1; m2; d1; d2]
          then Some (string_of_list_ascii [y1; y2; y3; y4; "-"%char; m1; m2; "-"%char; d1; d2])
          else search_iso_date l'
      | _ => search_iso_date l'
      end
  end.
Definition re_iso_date (s : string) : option string :=
  search_iso_date (list_ascii_of_string s).

(** [re.findall(r'(Mañana|Tarde|Noche)', s)] *)
Fixpoint findall_shifts_aux (fuel : nat) (s : string) : list Shift :=
  match fuel with
  | O => []
  | S f =>
      match s with
      | EmptyString => []
      | String _ s' =>
          if String.prefix (shift_name Manana) s then
            Manana :: findall_shifts_aux f (substring 6 (String.length s) s)
          else if String.prefix (shift_name Tarde) s then
            Tarde :: findall_shifts_aux f (substring 5 (String.length s) s)
          else if String.prefix (shift_name Noche) s then
            Noche :: findall_shifts_aux f (substring 5 (String.length s) s)
          else findall_shifts_aux f s'
      end
  end.
Definition findall_shifts (s : string) : list Shift :=
  findall_shifts_aux (String.length s) s.

(** [SHIFT_TYPES] lookup by name ([day_data["shifts"][name]]). *)
Definition shift_of_name (s : string) : option Shift :=
  if str_eqb s (shift_name Manana) then Some Manana
  else if str_eqb s (shift_name Tarde) then Some Tarde
  else if str_eqb s (shift_name Noche) then Some Noche
  else None.

(** [Worker.get_formatted_id] *)
Definition get_formatted_id (w : Worker) : string :=
  ((if is_technologist w then "T" else "I") ++ str_of_Z (id w))%string.

(* ------------------------------------------------------------------ *)
(** ** core/constraints.py: [validate_schedule] and its messages *)

Definition key_rest : string := "no tiene descanso adecuado".
Definition key_night_day : string :=
  ("tiene transici" ++ String o_acute "n de noche a d" ++ String i_acute "a")%string.
Definition key_consec : string := "tiene turnos consecutivos".

Definition coverage_msgs (sc : Schedule) (date : Date) (shift_type : Shift)
  : list string :=
  let shift := slots sc date shift_type in
  let date_str := fmt_date date in
  let required_techs := TECHS_PER_SHIFT shift_type in
  let actual_techs := Z.of_nat (length (technologists shift)) in
  (if negb (actual_techs =? required_techs) then
     [("Error en " ++ date_str ++ " " ++ shift_name shift_type ++ ": " ++
       str_of_Z actual_techs ++ " tecn" ++ String o_acute "logos " ++
       "cuando deber" ++ String i_acute "an ser " ++ str_of_Z required_techs)%string]
   else []) ++
  (match engineer shift with
   | None => [("Error en " ++ date_str ++ " " ++ shift_name shift_type ++
               ": Falta ingeniero asignado")%string]
   | Some _ => []
   end).

(** [schedule.days], in order. *)
Definition schedule_dates (sc : Schedule) : list Date :=
  map (fun i => start_date sc + Z.of_nat i)
      (seq 0 (Z.to_nat (end_date sc - start_date sc + 1))).

Definition consec_msg (w : Worker) (date1 : Date) (shift1 shift2 : Shift) : string :=
  (get_formatted_id w ++ " " ++ key_consec ++ " el " ++ fmt_date date1 ++ ": " ++
   shift_name shift1 ++ " y " ++ shift_name shift2)%string.
Definition night_day_msg (w : Worker) (date1 date2 : Date) : string :=
  (get_formatted_id w ++ " " ++ key_night_day ++ ": " ++ fmt_date date1 ++
   " Noche -> " ++ fmt_date date2 ++ " " ++ shift_name Manana)%string.
Definition rest_msg (w : Worker) (date1 : Date) (shift1 : Shift) (date2 : Date)
  (shift2 : Shift) : string :=
  (get_formatted_id w ++ " " ++ key_rest ++ " entre " ++ fmt_date date1 ++ " " ++
   shift_name shift1 ++ " y " ++ fmt_date date2 ++ " " ++ shift_name shift2)%string.

(** The checks on one pair [shifts[i], shifts[i + 1]]. *)
Definition pair_msgs (w : Worker) (p1 p2 : Date * Shift) : list string :=
  let '(date1, shift1) := p1 in
  let '(date2, shift2) := p2 in
  (if (date1 =? date2) &&
      (Z.abs (shift_index shift1 - shift_index shift2) =? 1)
   then [consec_msg w date1 shift1 shift2] else []) ++
  (if shift_eqb shift1 Noche && shift_eqb shift2 Manana && (date2 - date1 =? 1)
   then [night_day_msg w date1 date2] else []) ++
  (let idx1 := position date1 shift1 in
   let idx2 := position date2 shift2 in
   if (0 <? idx2 - idx1) && (idx2 - idx1 <=? 2)
   then [rest_msg w date1 shift1 date2 shift2] else []).

Fixpoint adjacent_msgs (w : Worker) (l : list (Date * Shift)) : list string :=
  match l with
  | p1 :: ((p2 :: _) as l') => pair_msgs w p1 p2 ++ adjacent_msgs w l'
  | _ => []
  end.

(** [sorted(worker.shifts, key=lambda x: (x[0], idx[x[1]]))]: the pair
    order is the order of [position]. *)
Definition worker_msgs (w : Worker) : list string :=
  adjacent_msgs w (sort_by (fun '(d, s) => position d s) (shifts w)).

(** [validate_schedule(schedule)]; [schedule.get_all_workers()] is the store. *)
Definition validate_schedule (st : State) : list string :=
  flat_map (fun d => flat_map (coverage_msgs (sched st) d) SHIFT_TYPES)
           (schedule_dates (sched st)) ++
  flat_map worker_msgs (store st).

(* ------------------------------------------------------------------ *)
(** ** algorithms/repair.py: [replace_worker] and
       [resolve_constraint_violations] *)

(** A stable sort on the key [(primary, secondary)], compared as tuples. *)
Fixpoint insert_by2 {A} (k1 k2 : A -> Z) (x : A) (l : list A) : list A :=
  match l with
  | [] => [x]
  | y :: l' =>
      if (k1 x <? k1 y) || (k1 x =? k1 y) && (k2 x <? k2 y) then x :: l
      else y :: insert_by2 k1 k2 x l'
  end.
Definition sort_by2 {A} (k1 k2 : A -> Z) (l : list A) : list A :=
  fold_left (fun acc x => insert_by2 k1 k2 x acc) l [].

(** The filters of the two candidate passes of [replace_worker]; [strict]
    adds [check_adequate_rest]. *)
Definition replacement_ok (strict : bool) (shift_data : SlotData)
  (removed : Worker) (date : Date) (shift_type : Shift) (w : Worker) : bool :=
  negb (id w =? id removed) &&
  negb (if is_technologist w then memZ (id w) (technologists shift_data)
        else match engineer shift_data with Some e => e =? id w | None => false end) &&
  negb (existsb (fun '(d, _) => d =? date) (shifts w)) &&
  negb (memZ date (days_off w)) &&
  negb (check_night_to_day_transition w date shift_type) &&
  negb (check_consecutive_shifts w date shift_type) &&
  (negb strict || check_adequate_rest w date shift_type).

Definition workers_of (st : State) (hs : list WorkerRef) : list (WorkerRef * Worker) :=
  flat_map (fun h => match store st !! h with Some w => [(h, w)] | None => [] end) hs.

(** [replace_worker(schedule, date, shift_type, removed_worker,
    available_workers)]: the boolean result is not used by its caller. *)
Definition replace_worker (st : State) (date : Date) (shift_type : Shift)
  (removed : Worker) (available : list WorkerRef) : State :=
  match day_cache (sched st) date with
  | None => st
  | Some day_data =>
      let shift_data := day_data shift_type in
      let needed :=
        if is_technologist removed
        then TECHS_PER_SHIFT shift_type - Z.of_nat (length (technologists shift_data))
        else 1 - (if engineer shift_data then 1 else 0) in
      if needed <=? 0 then st
      else
        let cands := workers_of st available in
        let pass1 := List.filter (fun hw => replacement_ok true shift_data removed
                                              date shift_type (snd hw)) cands in
        let suitable :=
          match pass1 with
          | [] => List.filter (fun hw => replacement_ok false shift_data removed
                                           date shift_type (snd hw)) cands
          | _ => pass1
          end in
        match sort_by2 (fun hw => get_shift_count (snd hw))
                       (fun hw => count_shift shift_type (shifts (snd hw))) suitable with
        | (h, _) :: _ => snd (assign_worker st h date shift_type)
        | [] => st
        end
  end.

(** Dict grouping with insertion order: [d.setdefault(k, []).append(v)]. *)
Fixpoint group_add {K V} (eqb : K -> K -> bool) (k : K) (v : V)
  (g : list (K * list V)) : list (K * list V) :=
  match g with
  | [] => [(k, [v])]
  | (k', vs) :: g' => if eqb k k' then (k', vs ++ [v]) :: g'
                      else (k', vs) :: group_add eqb k v g'
  end.

Definition opt_bind {A B} (o : option A) (f : A -> option B) : option B :=
  match o with Some a => f a | None => None end.

(** The second line [date.split()[0]] of a [" X "] separated pair, parsed;
    both dates are parsed, the second one is returned. [None] is an
    exception, caught by the loop. *)
Definition second_date_of (parts : list string) : option Date :=
  opt_bind (py_index parts 0) (fun p0 =>
  opt_bind (py_index parts 1) (fun p1 =>
  opt_bind (py_index (split_ws p0) 0) (fun d1s =>
  opt_bind (py_index (split_ws p1) 0) (fun d2s =>
  opt_bind (parse_date d1s) (fun _ =>
  parse_date d2s))))).

(** The date a violation is filed under; [None] when the [try] block
    raises (the violation is then skipped). *)
Definition violation_date (v : string) : option Date :=
  if str_contains key_night_day v then
    opt_bind (py_index (split_on ": " v) 1) (fun rest =>
    second_date_of (split_on " -> " rest))
  else if str_contains key_rest v then
    opt_bind (py_index (split_on "entre " v) 1) (fun rest =>
    second_date_of (split_on " y " rest))
  else if str_contains key_consec v then
    opt_bind (re_iso_date v) parse_date
  else None.

(** The shift names one violation contributes to [shifts_to_change]; a
    raising extraction contributes nothing. *)
Definition violation_shifts (v : string) : list string :=
  if str_contains key_night_day v then [shift_name Manana]
  else if str_contains key_rest v then
    match re_y_word_dot v with Some name => [name] | None => [] end
  else if str_contains key_consec v then
    let l := findall_shifts v in
    if (2 <=? length l)%nat then map shift_name l else []
  else [].

(** [list(set(shifts_to_change))]: one copy of each name. Python does not
    fix the iteration order of a set of strings; here the first occurrences
    are kept in order. *)
Fixpoint dedup_strings (l : list string) : list string :=
  match l with
  | [] => []
  | x :: l' => x :: List.filter (fun y => negb (str_eqb x y)) (dedup_strings l')
  end.

Definition shifts_to_change (vs : list string) : list string :=
  dedup_strings (flat_map violation_shifts vs).

(** The body of [for shift_type in shifts_to_change]. [None]: the
    [day_data["shifts"][shift_type]] lookup raises [KeyError], which no
    [try] catches. *)
Definition repair_shift (techs engs : list WorkerRef) (h : WorkerRef)
  (date : Date) (st : State) (name : string) : option State :=
  match day_cache (sched st) date with
  | None => Some st
  | Some day_data =>
      match shift_of_name name with
      | None => None
      | Some shift_type =>
          match store st !! h with
          | None => Some st
          | Some worker =>
              let shift_data := day_data shift_type in
              let is_assigned :=
                if is_technologist worker then memZ (id worker) (technologists shift_data)
                else match engineer shift_data with
                     | Some e => e =? id worker | None => false end in
              if negb is_assigned then Some st
              else
                let sd' := if is_technologist worker
                           then {| technologists := remove_first (id worker) (technologists shift_data);
                                   engineer := engineer shift_data |}
                           else {| technologists := technologists shift_data;
                                   engineer := None |} in
                let worker' := set_shifts worker (drop_shift date shift_type (shifts worker)) in
                let st' := {| sched := set_slot (sched st) date shift_type sd';
                              store := <[h := worker']> (store st) |} in
                Some (replace_worker st' date shift_type worker'
                        (if is_technologist worker then techs else engs))
          end
      end
  end.

Fixpoint fold_opt {A B} (f : B -> A -> option B) (l : list A) (b : B) : option B :=
  match l with
  | [] => Some b
  | x :: l' => match f b x with Some b' => fold_opt f l' b' | None => None end
  end.

Definition is_constraint_violation (v : string) : bool :=
  str_contains key_rest v || str_contains key_night_day v || str_contains key_consec v.

Definition find_worker (st : State) (hs : list WorkerRef) (worker_id : string)
  : option WorkerRef :=
  option_map fst (List.find (fun hw => str_eqb (get_formatted_id (snd hw)) worker_id)
                            (workers_of st hs)).

(** The work done for one worker id. *)
Definition repair_worker (techs engs : list WorkerRef) (st : State)
  (g : string * list string) : option State :=
  let '(worker_id, worker_violations) := g in
  match find_worker st (techs ++ engs) worker_id with
  | None => Some st
  | Some h =>
      let by_date :=
        fold_left (fun acc v => match violation_date v with
                                | Some d => group_add Z.eqb d v acc
                                | None => acc end)
                  worker_violations [] in
      fold_opt (fun st1 '(date, dvs) =>
                  fold_opt (repair_shift techs engs h date) (shifts_to_change dvs) st1)
               by_date st
  end.

(** [resolve_constraint_violations(schedule, technologists, engineers)]:
    the final re-validation only prints. [None]: an uncaught exception. *)
Definition resolve_constraint_violations (st : State) (techs engs : list WorkerRef)
  : option State :=
  let constraint_violations := List.filter is_constraint_violation (validate_schedule st) in
  match constraint_violations with
  | [] => Some st
  | _ =>
      let by_worker :=
        fold_left (fun acc v => match split_ws v with
                                | wid :: _ => group_add str_eqb wid v acc
                                | [] => acc end)
                  constraint_violations [] in
      if existsb (fun v => match split_ws v with [] => true | _ => false end)
                 constraint_violations
      then None                                   (* [split()[0]] raises *)
      else fold_opt (repair_worker techs engs) by_worker st
  end.

(** A technologist T1 working 2025-01-01 Tarde and 2025-01-02 Mañana:
    positions 1 and 3, two apart. *)
Definition rest_state : State :=
  run_ops (initial_state 0 6 [new_worker 1 true; new_worker 2 true])
          [OpAssign 0 0 Tarde; OpAssign 0 1 Manana].

(* ------------------------------------------------------------------ *)
(** ** More of core/worker.py and utils/date_utils.py *)

(** [Worker.worked_night_shift_on] *)
Definition worked_night_shift_on (w : Worker) (date : Date) : bool :=
  existsb (fun '(d, s) => (d =? date) && shift_eqb s Noche) (shifts w).

(** [Worker.get_shifts_in_week] *)
Definition get_shifts_in_week (w : Worker) (week_start : Date) : list (Date * Shift) :=
  let week_end := get_week_end week_start in
  List.filter (fun '(d, _) => (week_start <=? d) && (d <=? week_end)) (shifts w).

(** [Worker.get_days_off_in_week] *)
Definition get_days_off_in_week (w : Worker) (week_start : Date) : list Date :=
  let week_end := get_week_end week_start in
  List.filter (fun d => (week_start <=? d) && (d <=? week_end)) (days_off w).

(** [range(a, b)] on ints. *)
Definition Z_range (a b : Z) : list Z :=
  map (fun k => a + Z.of_nat k) (seq 0 (Z.to_nat (b - a))).

(** [date_range(start_date, end_date)]: the generator, as the list it yields. *)
Definition date_range (start_date end_date : Date) : list Date :=
  Z_range start_date (end_date + 1).

(** [is_weekend(date)] *)
Definition is_weekend (date : Date) : bool := 5 <=? weekday date.

(** [get_nearby_dates(date, days_before, days_after)] *)
Definition get_nearby_dates (date : Date) (days_before days_after : Z) : list Date :=
  flat_map (fun i => if i =? 0 then [] else [date + i])
           (Z_range (- days_before) (days_after + 1)).

(* ------------------------------------------------------------------ *)
(** ** Python sets *)

(** [list(s)] for a set [s] built by adding the elements of [l] in order:
    the elements of [l], each once, in an order Python does not fix. Every
    function below that goes through a set takes this order as an argument
    [set_list]; the properties proved about them hold for any [set_list]
    with these two properties. *)
Definition is_set_list {A} (set_list : list A -> list A) : Prop :=
  (forall l, List.NoDup (set_list l)) /\ (forall l x, In x (set_list l) <-> In x l).

(** [identify_critical_days(start_date, end_date)] (generator.py). *)
Definition identify_critical_days (set_list : list Date -> list Date)
  (start_date end_date : Date) : list Date :=
  set_list (flat_map (fun current_date =>
                        (if 5 <=? weekday current_date then [current_date] else []) ++
                        (if is_colombian_holiday current_date then [current_date] else []))
                     (date_range start_date end_date)).

(* ------------------------------------------------------------------ *)
(** ** More of core/schedule.py *)

(** [str(list_of_ints)] *)
Definition py_list_repr (l : list Z) : string :=
  ("[" ++ String.concat ", " (map str_of_Z l) ++ "]")%string.

(** The [(date, shift_type)] pairs of [for day in self.days: for shift_type
    in SHIFT_TYPES]. *)
Definition schedule_slots (sc : Schedule) : list (Date * Shift) :=
  flat_map (fun d => map (fun s => (d, s)) SHIFT_TYPES) (schedule_dates sc).

(** [Schedule.verify_unique_assignments()]: the errors and the schedule
    after the in-place corrections. *)
Definition verify_unique_step (set_list : list Z -> list Z)
  (acc : list string * Schedule) (slot : Date * Shift) : list string * Schedule :=
  let '(errors, sc) := acc in
  let '(date, shift_type) := slot in
  let shift := slots sc date shift_type in
  let tech_ids := technologists shift in
  let unique_techs := set_list tech_ids in
  if (length unique_techs <? length tech_ids)%nat then
    (errors ++ [("Tecn" ++ String o_acute "logos duplicados en " ++ fmt_date date ++
                 " " ++ shift_name shift_type ++ ": " ++ py_list_repr tech_ids)%string],
     set_slot sc date shift_type
       {| technologists := unique_techs; engineer := engineer shift |})
  else (errors, sc).

Definition verify_unique_assignments (set_list : list Z -> list Z) (sc : Schedule)
  : list string * Schedule :=
  fold_left (verify_unique_step set_list) (schedule_slots sc) ([], sc).

(** [Schedule.get_shift_coverage(date, shift_type)]: [complete] and the
    assigned counts. *)
Definition get_shift_coverage (sc : Schedule) (date : Date) (shift_type : Shift)
  : bool * Z * Z :=
  match day_cache sc date with
  | None => (false, 0, 0)
  | Some day_data =>
      let shift_data := day_data shift_type in
      let techs_required := TECHS_PER_SHIFT shift_type in
      let techs_assigned := Z.of_nat (length (technologists shift_data)) in
      let eng_required := 1 in
      let eng_assigned := if engineer shift_data then 1 else 0 in
      ((techs_required <=? techs_assigned) && (eng_required <=? eng_assigned),
       techs_assigned, eng_assigned)
  end.

(** All worker handles, in the order of [schedule.workers]. *)
Definition all_refs (st : State) : list WorkerRef := seq 0 (length (store st)).

(** [remove_assignments(schedule, date, shift_type)] (generator.py). *)
Definition remove_assignments (st : State) (date : Date) (shift_type : Shift) : State :=
  match day_cache (sched st) date with
  | None => st
  | Some day_data =>
      let shift_data := day_data shift_type in
      let tech_ids := technologists shift_data in
      let tech_workers :=
        List.filter (fun h => match store st !! h with
                              | Some w => is_technologist w && memZ (id w) tech_ids
                              | None => false end) (all_refs st) in
      let eng_id := engineer shift_data in
      let eng_workers :=
        List.filter (fun h => match store st !! h with
                              | Some w => negb (is_technologist w) &&
                                          match eng_id with
                                          | Some e => id w =? e | None => false end
                              | None => false end) (all_refs st) in
      let st1 := {| sched := set_slot (sched st) date shift_type
                               {| technologists := []; engineer := None |};
                    store := store st |} in
      fold_left (fun st h => match store st !! h with
                             | Some w => set_worker st h
                                           (set_shifts w (drop_shift date shift_type (shifts w)))
                             | None => st end)
                (tech_workers ++ eng_workers) st1
  end.

(* ------------------------------------------------------------------ *)
(** ** More of algorithms/balancer.py *)

(** The loop of [transfer_shift_safely] over the sorted shifts of
    [from_worker]; the two workers are read before the only mutation,
    which ends the loop. *)
Fixpoint try_safe_transfers (st : State) (hf ht : WorkerRef)
  (from_worker to_worker : Worker) (l : list (Date * Shift)) : bool * State :=
  match l with
  | [] => (false, st)
  | (date, shift_type) :: l' =>
      if memZ date (days_off to_worker) then
        try_safe_transfers st hf ht from_worker to_worker l'
      else if existsb (fun '(d, _) => d =? date) (shifts to_worker) then
        try_safe_transfers st hf ht from_worker to_worker l'
      else if check_night_to_day_transition to_worker date shift_type ||
              check_consecutive_shifts to_worker date shift_type ||
              negb (check_adequate_rest to_worker date shift_type) then
        try_safe_transfers st hf ht from_worker to_worker l'
      else
        match day_cache (sched st) date with
        | None => try_safe_transfers st hf ht from_worker to_worker l'
        | Some day_data =>
            let st1 :=
              {| sched := take_out_of_slot (sched st) from_worker date shift_type
                            (day_data shift_type);
                 store := <[hf := set_shifts from_worker
                                    (drop_shift date shift_type (shifts from_worker))]>
                            (store st) |} in
            (true, snd (assign_worker st1 ht date shift_type))
        end
  end.

(** [transfer_shift_safely(schedule, from_worker, to_worker)]; the shifts
    are tried by date, latest first ([reverse=True] keeps the order of equal
    dates). *)
Definition transfer_shift_safely (st : State) (hf ht : WorkerRef) : bool * State :=
  match store st !! hf, store st !! ht with
  | Some from_worker, Some to_worker =>
      try_safe_transfers st hf ht from_worker to_worker
        (sort_by (fun '(d, _) => - d) (shifts from_worker))
  | _, _ => (false, st)
  end.

(* ------------------------------------------------------------------ *)
(** ** More of algorithms/day_off_planner.py *)

(** [liberate_day_for_worker(schedule, worker, day, shift_type)]. *)
Definition liberate_day_for_worker (st : State) (h : WorkerRef) (day : Date)
  (shift_type : Shift) : bool * State :=
  match day_cache (sched st) day, store st !! h with
  | Some day_data, Some worker =>
      let shift_data := day_data shift_type in
      let st1 := {| sched := take_out_of_slot (sched st) worker day shift_type shift_data;
                    store := <[h := set_shifts worker
                                      (drop_shift day shift_type (shifts worker))]>
                               (store st) |} in
      let current := Z.of_nat (length (technologists (slots (sched st1) day shift_type))) in
      let available_replacements (tech : bool) :=
        sort_by2 (fun hw => get_shift_count (snd hw))
                 (fun hw => count_shift shift_type (shifts (snd hw)))
          (List.filter (fun hw => let t := snd hw in
                                  Bool.eqb (is_technologist t) tech &&
                                  negb (id t =? id worker) &&
                                  negb (existsb (fun '(d, _) => d =? day) (shifts t)) &&
                                  negb (memZ day (days_off t)))
                       (workers_of st1 (all_refs st1))) in
      let try_replace (tech : bool) :=
        match available_replacements tech with
        | (h', _) :: _ => (true, snd (assign_worker st1 h' day shift_type))
        | [] => (false, st1)
        end in
      if is_technologist worker then
        if current <? TECHS_PER_SHIFT shift_type then try_replace true else (false, st1)
      else try_replace false
  | _, _ => (false, st)
  end.

(** [while first_date.weekday() != 0: first_date -= timedelta(days=1)]:
    at most six steps back. *)
Fixpoint back_to_monday (fuel : nat) (d : Date) : Date :=
  match fuel with
  | O => d
  | S f => if weekday d =? 0 then d else back_to_monday f (d - 1)
  end.

(** The [while current_monday <= end_date] loop of [verify_weekly_days_off]:
    [(current_monday, week_days)] for the weeks with a day in range. *)
Fixpoint verify_weeks (fuel : nat) (current_monday start_date end_date : Date)
  : list (Date * list Date) :=
  match fuel with
  | O => []
  | S f =>
      if current_monday <=? end_date then
        let week_days :=
          List.filter (fun day => (start_date <=? day) && (day <=? end_date))
                      (map (fun i => current_monday + Z.of_nat i) (seq 0 7)) in
        (match week_days with [] => [] | _ => [(current_monday, week_days)] end) ++
        verify_weeks f (current_monday + 7) start_date end_date
      else []
  end.

(** [verify_weekly_days_off(schedule, technologists, engineers)] *)
Definition verify_weekly_days_off (st : State) (techs engs : list WorkerRef) : bool :=
  let start_date := start_date (sched st) in
  let end_date := end_date (sched st) in
  let first_date := back_to_monday 6 start_date in
  let weeks := verify_weeks (S (Z.to_nat ((end_date - first_date) / 7)))
                            first_date start_date end_date in
  forallb (fun hw =>
             forallb (fun '(_, week_days) =>
                        existsb (fun day => memZ day week_days) (days_off (snd hw)))
                     weeks)
          (workers_of st (techs ++ engs)).

(* ------------------------------------------------------------------ *)
(** ** More of algorithms/generator.py *)

(** The loop body of [find_additional_eligible_workers]: the worker goes
    to [medium_priority], to [low_priority] or nowhere. *)
Definition classify_step (date : Date) (shift_type : Shift)
  (acc : list (WorkerRef * Worker) * list (WorkerRef * Worker))
  (hw : WorkerRef * Worker) : list (WorkerRef * Worker) * list (WorkerRef * Worker) :=
  let '(medium, low) := acc in
  let '(h, worker) := hw in
  let has_day_off := memZ date (days_off worker) in
  let night_to_day := check_night_to_day_transition worker date shift_type in
  let consecutive := check_consecutive_shifts worker date shift_type in
  let already_assigned := existsb (fun '(d, _) => d =? date) (shifts worker) in
  if has_day_off || already_assigned then (medium, low)
  else if night_to_day then
    (medium, if shift_eqb shift_type Noche then low ++ [(h, worker)] else low)
  else if consecutive then (medium, low ++ [(h, worker)])
  else if check_adequate_rest_relaxed worker date shift_type
  then (medium ++ [(h, worker)], low)
  else (medium, low ++ [(h, worker)]).

(** [find_additional_eligible_workers(workers, date, shift_type,
    already_eligible, schedule)]; [w not in already_eligible] compares
    objects, that is handles. *)
Definition find_additional_eligible_workers (st : State) (workers : list WorkerRef)
  (date : Date) (shift_type : Shift) (already_eligible : list WorkerRef)
  : list WorkerRef :=
  let not_eligible :=
    List.filter (fun hw => negb (existsb (Nat.eqb (fst hw)) already_eligible))
                (workers_of st workers) in
  let classify := fold_left (classify_step date shift_type) not_eligible ([], []) in
  let sorting := sort_by2 (fun hw => get_shift_count (snd hw))
                          (fun hw => count_shift shift_type (shifts (snd hw))) in
  let medium_priority := sorting (fst classify) in
  let low_priority := sorting (snd classify) in
  if shift_eqb shift_type Noche &&
     (length already_eligible + length medium_priority + length low_priority <? 2)%nat
  then
    let last_resort :=
      List.filter (fun hw => negb (existsb (fun x => Nat.eqb (fst x) (fst hw)) medium_priority) &&
                             negb (existsb (fun x => Nat.eqb (fst x) (fst hw)) low_priority) &&
                             memZ date (days_off (snd hw)) &&
                             negb (existsb (fun '(d, _) => d =? date) (shifts (snd hw))))
                  not_eligible in
    let last_resort :=
      sort_by2 (fun hw => - Z.of_nat (length (days_off (snd hw))))
               (fun hw => get_shift_count (snd hw)) last_resort in
    already_eligible ++ map fst medium_priority ++ map fst low_priority ++ map fst last_resort
  else already_eligible ++ map fst medium_priority ++ map fst low_priority.

(* ------------------------------------------------------------------ *)
(** ** More of algorithms/repair.py *)

(** The message [validate_schedule] writes for a wrong technologist count. *)
Definition tech_count_msg (date : Date) (shift_type : Shift) (actual required : Z)
  : string :=
  ("Error en " ++ fmt_date date ++ " " ++ shift_name shift_type ++ ": " ++
   str_of_Z actual ++ " tecn" ++ String o_acute "logos " ++
   "cuando deber" ++ String i_acute "an ser " ++ str_of_Z required)%string.

Definition key_tech_count : list ascii :=
  list_ascii_of_string (" tecn" ++ String o_acute "logos cuando")%string.

Fixpoint list_prefix (k l : list ascii) : bool :=
  match k, l with
  | [], _ => true
  | c :: k', c' :: l' => Ascii.eqb c c' && list_prefix k' l'
  | _ :: _, [] => false
  end.

Fixpoint digit_run (l : list ascii) : list ascii * list ascii :=
  match l with
  | c :: l' => if is_digit c then let '(w, r) := digit_run l' in (c :: w, r) else ([], l)
  | [] => ([], [])
  end.

(** [re.search(r'(\d+) tecnólogos cuando', issue).group(1)]: at the leftmost
    start, [\d+] must end right before the space, so it is the maximal run. *)
Fixpoint search_tech_count (l : list ascii) : option (list ascii) :=
  match l with
  | [] => None
  | _ :: l' =>
      match digit_run l with
      | (x :: ds, rest) =>
          if list_prefix key_tech_count rest then Some (x :: ds)
          else search_tech_count l'
      | ([], _) => search_tech_count l'
      end
  end.

(** [int(s)] on a string of decimal digits. *)
Definition py_int (l : list ascii) : Z :=
  fold_left (fun acc c => acc * 10 + digit_val c) l 0.

(** [extract_tech_count(issue)] *)
Definition extract_tech_count (issue : string) : Z :=
  match search_tech_count (list_ascii_of_string issue) with
  | Some ds => py_int ds
  | None => 999
  end.

(* ------------------------------------------------------------------ *)
(** ** Helpers for the properties of the functions above *)

(** The correction [verify_unique_assignments] makes to one slot. *)
Definition unique_fix (set_list : list Z -> list Z) (t : SlotData) : SlotData :=
  if (length (set_list (technologists t)) <? length (technologists t))%nat
  then {| technologists := set_list (technologists t); engineer := engineer t |}
  else t.

(** The tests a shift [(date, shift_type)] of [from_worker] passes in the
    loop of [transfer_shift_safely] before it is moved to [to_worker]. *)
Definition safe_transfer_target (st : State) (to_worker : Worker) (date : Date)
  (shift_type : Shift) : bool :=
  negb (memZ date (days_off to_worker)) &&
  negb (existsb (fun '(d, _) => d =? date) (shifts to_worker)) &&
  negb (check_night_to_day_transition to_worker date shift_type ||
        check_consecutive_shifts to_worker date shift_type ||
        negb (check_adequate_rest to_worker date shift_type)) &&
  in_range (sched st) date.

(** The workers [find_additional_eligible_workers] puts in one of its two
    priority groups: no day off and no shift on the date, and no night
    before a morning unless the shift is the night. *)
Definition classify_ok (date : Date) (shift_type : Shift) (hw : WorkerRef * Worker) : bool :=
  negb (memZ date (days_off (snd hw))) &&
  negb (existsb (fun '(d, _) => d =? date) (shifts (snd hw))) &&
  (negb (check_night_to_day_transition (snd hw) date shift_type) ||
   shift_eqb shift_type Noche).

(** The workers [remove_assignments] picks for a slot: a technologist whose
    id is listed there, or an engineer whose id is its engineer. *)
Definition in_slot (t : SlotData) (w : Worker) : bool :=
  if is_technologist w then memZ (id w) (technologists t)
  else match engineer t with Some e => id w =? e | None => false end.

(** The order [sort_by2 k1 k2] sorts by: [k1] first, then [k2]. *)
Definition lex_le {A : Type} (k1 k2 : A -> Z) (a b : A) : Prop :=
  k1 a < k1 b \/ (k1 a = k1 b /\ k2 a <= k2 b).

(** A decision procedure for [mirror_consistent]: every worker of the
    store is compared, slot by slot over the period, with the slot lists. *)
Definition mirror_check (st : State) : bool :=
  forallb (fun w =>
    forallb (fun d =>
      forallb (fun s =>
        Bool.eqb (in_slot (slots (sched st) d s) w)
                 (existsb (fun '(d', s') => (d' =? d) && shift_eqb s' s) (shifts w)))
        SHIFT_TYPES)
      (schedule_dates (sched st)))
    (store st).

(** [week_state] after the engineer I1 took Wednesday's morning and
    Friday's afternoon shifts. *)
Definition engineer_shift_state : State :=
  run_ops week_state [OpAssign 1 2 Manana; OpAssign 1 4 Tarde].

(* ================================================================== *)
(** * Claims *)

Lemma forallb_false_iff {A} (f : A -> bool) (l : list A) :
  forallb f l = false <-> exists x, In x l /\ f x = false.
Proof.
  induction l as [|a l IH]; simpl.
  - split; [discriminate | intros (x & [] & _)].
  - destruct (f a) eqn:Ha; simpl.
    + rewrite IH. split.
      * intros (x & Hx & Hf). eauto.
      * intros (x & [<-|Hx] & Hf); [congruence | eauto].
    + split; [intros _; eauto | reflexivity].
Qed.

(** C5. [check_adequate_rest] rejects (returns False) exactly when some
    existing shift at timeline position [p = day_offset*3 + shift_index]
    satisfies [0 < |new_position - p| <= 2]; the relaxed check rejects
    exactly when some existing shift has [|new_position - p| = 1]. *)
Theorem check_adequate_rest_rejects_iff (w : Worker) (date : Date) (s : Shift) :
  (check_adequate_rest w date s = false <->
     exists d' s', In (d', s') (shifts w) /\
       0 < Z.abs ((date * 3 + shift_index s) - (d' * 3 + shift_index s')) <= 2) /\
  (check_adequate_rest_relaxed w date s = false <->
     exists d' s', In (d', s') (shifts w) /\
       Z.abs ((date * 3 + shift_index s) - (d' * 3 + shift_index s')) = 1).
Proof.
  unfold check_adequate_rest, check_adequate_rest_relaxed, position.
  split; rewrite forallb_false_iff; split.
  - intros ([d' s'] & Hin & Hf). exists d', s'. split; [exact Hin|].
    apply negb_false_iff, andb_true_iff in Hf as [H1 H2].
    apply Z.ltb_lt in H1; apply Z.leb_le in H2; lia.
  - intros (d' & s' & Hin & H). exists (d', s'). split; [exact Hin|].
    apply negb_false_iff, andb_true_iff; split; [apply Z.ltb_lt | apply Z.leb_le]; lia.
  - intros ([d' s'] & Hin & Hf). exists d', s'. split; [exact Hin|].
    apply negb_false_iff, Z.eqb_eq in Hf. exact Hf.
  - intros (d' & s' & Hin & H). exists (d', s'). split; [exact Hin|].
    apply negb_false_iff, Z.eqb_eq. exact H.
Qed.

(** C6. [calculate_compensation] is a (pure, deterministic) function equal
    to the precedence rule: holiday on a weekend gives the weekend
    day/night rate times 1.25, holiday on a weekday the weekend rate, a
    non-holiday Saturday/Sunday the weekend rate, any other day the regular
    day/night rate. *)
Theorem calculate_compensation_precedence (date : Date) (s : Shift) :
  calculate_compensation date s = compensation_by_precedence date s.
Proof.
  unfold calculate_compensation, compensation_by_precedence, weekend_rate, regular_rate.
  destruct (is_colombian_holiday date), (5 <=? weekday date), s; reflexivity.
Qed.

(** The fresh schedule satisfies the mirror and the earnings equation. *)
Lemma week_state_mirror : mirror_consistent week_state.
Proof.
  intros h w d s Hh _.
  destruct h as [|[|[|h]]]; simpl in Hh; inversion Hh; subst; simpl;
    split; intros H; (contradiction || discriminate).
Qed.

Lemma week_state_earnings : earnings_consistent week_state.
Proof.
  intros h w Hh.
  destruct h as [|[|[|h]]]; simpl in Hh; inversion Hh; subst; reflexivity.
Qed.

(** C1 (code_bug). Assigning engineer I2 to a slot that engineer I1 holds
    overwrites the slot's engineer but leaves the slot in I1's shifts: the
    mirror holds before the two calls and is broken after them. *)
Theorem assign_worker_displaced_engineer_breaks_mirror :
  mirror_consistent week_state /\
  let st := run_ops week_state [OpAssign 1 0 Manana; OpAssign 2 0 Manana] in
  engineer (slots (sched st) 0 Manana) = Some 2 /\
  store st !! 1%nat = Some {| id := 1; is_technologist := false;
                              shifts := [(0, Manana)]; earnings := 16;
                              days_off := [] |} /\
  ~ mirror_consistent st.
Proof.
  split; [exact week_state_mirror|].
  simpl. split; [reflexivity|]. split; [reflexivity|].
  intros Hm. specialize (Hm 1%nat _ 0 Manana eq_refl eq_refl).
  simpl in Hm. destruct Hm as [_ H]. specialize (H (or_introl eq_refl)).
  discriminate H.
Qed.

(** C2 counterexample: two calls of [assign_worker] give technologist T1
    two shifts on 2025-01-01 (Mañana and Noche); both calls succeed. *)
Lemma assign_worker_two_shifts_same_date :
  let r1 := assign_worker week_state 0 0 Manana in
  let r2 := assign_worker (snd r1) 0 0 Noche in
  fst r1 = true /\ fst r2 = true /\
  exists w, store (snd r2) !! 0%nat = Some w /\ count_on_date 0 (shifts w) = 2%nat.
Proof.
  simpl. split; [reflexivity|]. split; [reflexivity|].
  eexists. split; reflexivity.
Qed.

(** C3 (code_bug). After [assign_worker] then [remove_worker_from_shift]
    of the same slot, T1 has no shift left but keeps the earnings of the
    removed one: the earnings equation holds before and fails after. *)
Theorem remove_worker_from_shift_keeps_earnings :
  earnings_consistent week_state /\
  let st := run_ops week_state [OpAssign 0 0 Manana; OpRemove 0 0 Manana] in
  store st !! 0%nat = Some {| id := 1; is_technologist := true; shifts := [];
                              earnings := 16; days_off := [] |} /\
  ~ earnings_consistent st.
Proof.
  split; [exact week_state_earnings|].
  simpl. split; [reflexivity|].
  intros He. specialize (He 0%nat _ eq_refl). simpl in He. discriminate He.
Qed.

(** C4 (code_bug). A second identical [assign_worker] of engineer I1 is
    accepted: the shift is recorded twice and its compensation (2.0, i.e.
    16 eighths, on the holiday 2025-01-01) is counted twice. For
    technologist T1 the duplicate is rejected as a no-op. *)
Theorem assign_worker_twice_engineer_double_counts :
  let r1 := assign_worker week_state 1 0 Manana in
  let r2 := assign_worker (snd r1) 1 0 Manana in
  fst r2 = true /\
  option_map earnings (store (snd r1) !! 1%nat) = Some 16 /\
  option_map earnings (store (snd r2) !! 1%nat) = Some 32 /\
  let t1 := assign_worker week_state 0 0 Manana in
  let t2 := assign_worker (snd t1) 0 0 Manana in
  fst t2 = false /\ snd t2 = snd t1.
Proof. simpl. repeat split; reflexivity. Qed.

Lemma count_on_date_app (d : Date) (l1 l2 : list (Date * Shift)) :
  count_on_date d (l1 ++ l2) = (count_on_date d l1 + count_on_date d l2)%nat.
Proof. unfold count_on_date. rewrite List.filter_app, List.length_app. reflexivity. Qed.

Lemma count_on_date_drop (d d0 : Date) (s0 : Shift) (l : list (Date * Shift)) :
  (count_on_date d (drop_shift d0 s0 l) <= count_on_date d l)%nat.
Proof.
  unfold count_on_date, drop_shift.
  induction l as [|[d1 s1] l IH]; simpl; [lia|].
  destruct (negb ((d1 =? d0) && shift_eqb s1 s0)); simpl; destruct (d1 =? d); simpl; lia.
Qed.

Lemma assign_worker_obj_cases sc w d s b sc' w' :
  assign_worker_obj sc w d s = (b, sc', w') -> w' = w \/ w' = add_shift w d s.
Proof.
  unfold assign_worker_obj. destruct (day_cache sc d); [|injection 1; auto].
  destruct (is_technologist w); [destruct (memZ _ _)|]; injection 1; auto.
Qed.

Lemma remove_worker_from_shift_obj_cases sc w d s b sc' w' :
  remove_worker_from_shift_obj sc w d s = (b, sc', w') ->
  w' = w \/ w' = set_shifts w (drop_shift d s (shifts w)).
Proof.
  unfold remove_worker_from_shift_obj. destruct (day_cache sc d); [|injection 1; auto].
  destruct (is_technologist w); [destruct (memZ _ _)|destruct (engineer _) as [e|];
    [destruct (e =? id w)|]]; injection 1; auto.
Qed.

(** The store after one call: only the called object may change. *)
Lemma store_insert_lookup (l : list Worker) (h h0 : WorkerRef) (w0 w1 w' : Worker) :
  l !! h0 = Some w0 -> <[h0 := w1]> l !! h = Some w' ->
  (h = h0 /\ w' = w1) \/ l !! h = Some w'.
Proof.
  intros H0 Hl. destruct (decide (h = h0)) as [->|Hne].
  - left. split; [reflexivity|].
    assert (Hlt : (h0 < length l)%nat) by (apply lookup_lt_is_Some_1; rewrite H0; eauto).
    rewrite list_lookup_insert_eq in Hl by exact Hlt. congruence.
  - right. rewrite list_lookup_insert_ne in Hl by congruence. exact Hl.
Qed.

(** The store after one call: only the called object may change. *)
Lemma run_op_lookup (st : State) (o : Op) (h : WorkerRef) (w' : Worker) :
  store (run_op st o) !! h = Some w' ->
  match o with
  | OpAssign h0 d0 s0 =>
      store st !! h = Some w' \/
      (h = h0 /\ exists w, store st !! h = Some w /\ w' = add_shift w d0 s0)
  | OpRemove h0 d0 s0 =>
      store st !! h = Some w' \/
      (h = h0 /\ exists w, store st !! h = Some w /\
                 w' = set_shifts w (drop_shift d0 s0 (shifts w)))
  end.
Proof.
  destruct o as [h0 d0 s0|h0 d0 s0]; simpl.
  - unfold assign_worker.
    destruct (store st !! h0) as [w0|] eqn:H0; [|simpl; auto].
    destruct (assign_worker_obj _ w0 d0 s0) as [[b sc'] w1] eqn:Ha.
    apply assign_worker_obj_cases in Ha. simpl. intros Hl.
    destruct (store_insert_lookup _ _ _ _ _ _ H0 Hl) as [[-> ->]|Hs]; [|left; exact Hs].
    destruct Ha as [ -> | -> ]; [left; exact H0|right; eauto].
  - unfold remove_worker_from_shift.
    destruct (store st !! h0) as [w0|] eqn:H0; [|simpl; auto].
    destruct (remove_worker_from_shift_obj _ w0 d0 s0) as [[b sc'] w1] eqn:Ha.
    apply remove_worker_from_shift_obj_cases in Ha. simpl. intros Hl.
    destruct (store_insert_lookup _ _ _ _ _ _ H0 Hl) as [[-> ->]|Hs]; [|left; exact Hs].
    destruct Ha as [ -> | -> ]; [left; exact H0|right; eauto].
Qed.

(** One call keeps the number of stored worker objects, and leaves every
    object but the called one in place. *)
Lemma run_op_frame (st : State) (o : Op) :
  length (store (run_op st o)) = length (store st) /\
  forall h', h' <> (match o with OpAssign h0 _ _ => h0 | OpRemove h0 _ _ => h0 end) ->
    store (run_op st o) !! h' = store st !! h'.
Proof.
  destruct o as [h0 d0 s0|h0 d0 s0]; cbn [run_op];
    [unfold assign_worker|unfold remove_worker_from_shift];
    destruct (store st !! h0) as [w0|]; try (split; [reflexivity|reflexivity]).
  - destruct (assign_worker_obj _ w0 d0 s0) as [[b sc'] w1]. cbn [snd store].
    split; [apply length_insert|]. intros h' Hne. apply list_lookup_insert_ne. congruence.
  - destruct (remove_worker_from_shift_obj _ w0 d0 s0) as [[b sc'] w1]. cbn [snd store].
    split; [apply length_insert|]. intros h' Hne. apply list_lookup_insert_ne. congruence.
Qed.

(** C2 (amended). [assign_worker] and [remove_worker_from_shift] do not
    enforce one shift per date by themselves: a call changes only the
    called worker (every other stored worker object is left as it was),
    [remove_worker_from_shift] never raises the number of shifts a worker
    holds on any date, and [assign_worker] raises it by at most one, on the
    assigned date only. *)
Theorem per_date_count_step (st : State) (o : Op) (h : WorkerRef) (w : Worker) :
  store st !! h = Some w ->
  (forall h', h' <> (match o with OpAssign h0 _ _ => h0 | OpRemove h0 _ _ => h0 end) ->
     store (run_op st o) !! h' = store st !! h') /\
  exists w',
    store (run_op st o) !! h = Some w' /\
    forall d,
      (count_on_date d (shifts w') <=
         count_on_date d (shifts w) +
         match o with
         | OpAssign h0 d0 _ => if Nat.eqb h h0 && Z.eqb d0 d then 1 else 0
         | OpRemove _ _ _ => 0
         end)%nat.
Proof.
  intros Hw. destruct (run_op_frame st o) as [Hlen Hframe].
  split; [exact Hframe|].
  assert (Hs : is_Some (store (run_op st o) !! h)).
  { apply lookup_lt_is_Some_2. rewrite Hlen.
    apply lookup_lt_is_Some_1. rewrite Hw. eauto. }
  destruct Hs as [w' Hw']. exists w'. split; [exact Hw'|]. intros d.
  apply run_op_lookup in Hw'.
  destruct o as [h0 d0 s0|h0 d0 s0].
  - destruct Hw' as [Hs|(-> & w1 & H1 & ->)].
    + rewrite Hw in Hs; injection Hs as ->. lia.
    + rewrite Hw in H1; injection H1 as <-. rewrite Nat.eqb_refl. simpl.
      rewrite count_on_date_app. unfold count_on_date at 2. simpl.
      destruct (d0 =? d); simpl; lia.
  - destruct Hw' as [Hs|(-> & w1 & H1 & ->)].
    + rewrite Hw in Hs; injection Hs as ->. lia.
    + rewrite Hw in H1; injection H1 as <-. simpl.
      pose proof (count_on_date_drop d d0 s0 (shifts w)). lia.
Qed.

(** T1 already works 2025-01-01 Mañana and is given 2025-01-01 Tarde too:
    its count on that date rises from one to two, and the engineers' objects
    are untouched. *)
Lemma per_date_count_step_witness :
  let st := run_ops week_state [OpAssign 0 0 Manana] in
  store st !! 0%nat = Some (add_shift (new_worker 1 true) 0 Manana) /\
  count_on_date 0 (shifts (add_shift (add_shift (new_worker 1 true) 0 Manana) 0 Tarde)) = 2%nat /\
  ((forall h', h' <> 0%nat -> store (run_op st (OpAssign 0 0 Tarde)) !! h' = store st !! h') /\
   exists w',
     store (run_op st (OpAssign 0 0 Tarde)) !! 0%nat = Some w' /\
     forall d,
       (count_on_date d (shifts w') <=
          count_on_date d (shifts (add_shift (new_worker 1 true) 0 Manana)) +
          (if Nat.eqb 0 0 && Z.eqb 0 d then 1 else 0))%nat).
Proof.
  cbv zeta. split; [reflexivity|]. split; [reflexivity|].
  exact (per_date_count_step (run_ops week_state [OpAssign 0 0 Manana])
           (OpAssign 0 0 Tarde) 0 _ eq_refl).
Defined.

Lemma set_shifts_restore (w : Worker) (l : list (Date * Shift)) :
  set_shifts (set_shifts w l) (shifts w) = w.
Proof. destruct w; reflexivity. Qed.

Lemma fold_left_invariant {A B : Type} (f : A -> B -> A) (Q : A -> Prop)
  (l : list B) (a : A) :
  Q a -> (forall x b, Q x -> Q (f x b)) -> Q (fold_left f l a).
Proof.
  intros Ha Hf. revert a Ha. induction l as [|b l IH]; intros a Ha; [exact Ha|].
  apply IH, Hf, Ha.
Qed.

(** One simulated assignment raises at the import, after the append. *)
Lemma simulate_future_error (st : State) (h : WorkerRef) (w0 w : Worker)
  (date : Date) (s : Shift) (fd : Date) (fs : Shift) :
  store st !! h = Some w ->
  simulate_future st h w0 date s fd fs =
    (inl import_error_msg, set_worker st h (set_shifts w (shifts w ++ [(date, s)]))).
Proof. intros Hw. unfold simulate_future, worker_at. rewrite Hw. reflexivity. Qed.

(** A simulated assignment that completes leaves the whole state as it
    found it. *)
Lemma simulate_future_inr (st st' : State) (h : WorkerRef) (w0 w : Worker)
  (date : Date) (s : Shift) (fd : Date) (fs : Shift) (b : bool) :
  store st !! h = Some w ->
  simulate_future st h w0 date s fd fs = (inr b, st') -> st' = st.
Proof.
  intros Hw. unfold simulate_future.
  destruct import_strictly_can_work_shift; [discriminate|].
  intros E. injection E as _ <-.
  assert (Hlt : (h < length (store st))%nat)
    by (apply lookup_lt_is_Some_1; rewrite Hw; eauto).
  unfold worker_at, set_worker; simpl.
  rewrite Hw; simpl.
  rewrite list_lookup_insert_eq by exact Hlt; simpl.
  rewrite list_insert_insert_eq, set_shifts_restore, list_insert_id by exact Hw.
  destruct st; reflexivity.
Qed.

(** The lookahead, when it completes, leaves the state as it found it. *)
Lemma lookahead_inr (st st' : State) (h : WorkerRef) (w0 w : Worker) (date : Date)
  (s : Shift) (i : Z) (r : Z * Z) :
  store st !! h = Some w ->
  lookahead st h w0 date s i = (inr r, st') -> st' = st.
Proof.
  intros Hw. unfold lookahead.
  set (Q := fun p : (string + Z * Z) * State =>
              match fst p with inl _ => True | inr _ => snd p = st end).
  match goal with |- fold_left ?F ?l ?a = _ -> _ =>
    assert (HQ : Q (fold_left F l a)) end.
  { apply fold_left_invariant; [reflexivity|].
    intros [[e|[im bl]] st0] fd HQ0; [exact I|]. cbn in HQ0. subst st0.
    cbv beta iota. destruct (end_date (sched st) <? date + fd); [reflexivity|].
    apply fold_left_invariant; [reflexivity|].
    intros [[e|[im2 bl2]] st2] fs HQ2; [exact I|]. cbn in HQ2. subst st2.
    cbv beta iota.
    destruct (simulate_future st h w0 date s (date + fd) fs) as [[e|c] st3] eqn:Es;
      [exact I|].
    apply (simulate_future_inr _ _ _ _ _ _ _ _ _ _ Hw) in Es.
    destruct c; exact Es. }
  intros E. rewrite E in HQ. exact HQ.
Qed.

(** With a date of the period after [date], the lookahead raises at its
    first simulated assignment. *)
Lemma lookahead_error (st : State) (h : WorkerRef) (w : Worker) (date : Date)
  (s : Shift) (i : Z) :
  store st !! h = Some w -> date + 1 <= end_date (sched st) ->
  lookahead st h w date s i =
    (inl import_error_msg, set_worker st h (set_shifts w (shifts w ++ [(date, s)]))).
Proof.
  intros Hw Hd. unfold lookahead. cbn [fold_left].
  replace (end_date (sched st) <? date + 1) with false by (symmetry; apply Z.ltb_ge; lia).
  cbn [fold_left SHIFT_TYPES].
  rewrite (simulate_future_error st h w w date s (date + 1) Manana Hw).
  reflexivity.
Qed.

(** C10 (code bug). Whenever the lookahead runs (the worker has no shift on
    [date] and the day after [date] lies in the period), the lazy import of
    [strictly_can_work_shift] raises ImportError after [(date, shift_type)]
    has been appended to the worker's shifts and before the restore: the
    call ends with that pair left in the live worker's shifts. *)
Theorem predict_assignment_impact_import_error (st : State) (h : WorkerRef) (w : Worker)
  (date : Date) (s : Shift) :
  store st !! h = Some w ->
  existsb (fun '(d, _) => d =? date) (shifts w) = false ->
  date + 1 <= end_date (sched st) ->
  predict_assignment_impact st h date s =
    (inl import_error_msg, set_worker st h (set_shifts w (shifts w ++ [(date, s)]))).
Proof.
  intros Hw Hex Hd. unfold predict_assignment_impact. rewrite Hw. cbv zeta.
  rewrite Hex. rewrite lookahead_error by assumption. reflexivity.
Qed.

(** The failing input run on the code: a fresh technologist T1 of a
    2025-01-01 .. 2025-01-07 schedule, evaluated for 2025-01-02 Tarde. *)
Lemma predict_assignment_impact_import_error_witness :
  store week_state !! 0%nat = Some (new_worker 1 true) /\
  existsb (fun '(d, _) => d =? 1) (shifts (new_worker 1 true)) = false /\
  1 + 1 <= end_date (sched week_state) /\
  predict_assignment_impact week_state 0 1 Tarde =
    (inl import_error_msg,
     set_worker week_state 0 (set_shifts (new_worker 1 true) (shifts (new_worker 1 true) ++ [(1, Tarde)]))).
Proof.
  split; [reflexivity|]. split; [reflexivity|]. split; [cbn; lia|].
  apply predict_assignment_impact_import_error; [reflexivity|reflexivity|cbn; lia].
Defined.

(** *** Stable insertion sort *)
Section SortBy.
Context {A : Type} (key : A -> Z).

Lemma insert_by_perm (x : A) (l : list A) : Permutation (insert_by key x l) (x :: l).
Proof.
  induction l as [|y l IH]; simpl; [reflexivity|].
  destruct (key x <? key y); [reflexivity|].
  rewrite IH. apply perm_swap.
Qed.

Lemma sort_by_fold_perm (l acc : list A) :
  Permutation (fold_left (fun acc x => insert_by key x acc) l acc) (l ++ acc).
Proof.
  revert acc. induction l as [|x l IH]; intros acc; simpl; [reflexivity|].
  rewrite IH, insert_by_perm. apply Permutation_sym, Permutation_middle.
Qed.

Lemma sort_by_In (x : A) (l : list A) : In x (sort_by key l) <-> In x l.
Proof.
  unfold sort_by. split; intros H.
  - eapply Permutation_in in H; [|apply sort_by_fold_perm]. rewrite app_nil_r in H. exact H.
  - eapply Permutation_in; [apply Permutation_sym, sort_by_fold_perm|].
    rewrite app_nil_r. exact H.
Qed.

Definition key_le (a b : A) : Prop := key a <= key b.

Lemma insert_by_sorted (x : A) (l : list A) :
  StronglySorted key_le l -> StronglySorted key_le (insert_by key x l).
Proof.
  induction l as [|y l IH]; intros Hs; simpl.
  - repeat constructor.
  - apply StronglySorted_inv in Hs as [Hl Hy].
    destruct (key x <? key y) eqn:E.
    + apply Z.ltb_lt in E. constructor; [constructor; assumption|].
      constructor; [unfold key_le; lia|].
      eapply Forall_impl; [exact Hy|]. unfold key_le; intros z Hz; lia.
    + apply Z.ltb_ge in E. constructor; [apply IH, Hl|].
      apply List.Forall_forall. intros z Hz.
      eapply Permutation_in in Hz; [|apply insert_by_perm].
      destruct Hz as [<-|Hz]; [unfold key_le; lia|].
      rewrite List.Forall_forall in Hy. apply Hy, Hz.
Qed.

Lemma sort_by_sorted (l : list A) : StronglySorted key_le (sort_by key l).
Proof.
  unfold sort_by. assert (H : StronglySorted key_le (@nil A)) by constructor.
  revert H. generalize (@nil A) as acc.
  induction l as [|x l IH]; intros acc Hacc; simpl; [exact Hacc|].
  apply IH, insert_by_sorted, Hacc.
Qed.

Lemma sorted_after (pre post : list A) (x y : A) :
  StronglySorted key_le (pre ++ x :: post) -> In y post -> key x <= key y.
Proof.
  induction pre as [|z pre IH]; simpl; intros Hs Hy.
  - apply StronglySorted_inv in Hs as [_ Hf]. rewrite List.Forall_forall in Hf. apply Hf, Hy.
  - apply StronglySorted_inv in Hs as [Hs _]. apply IH; assumption.
Qed.
End SortBy.

(** *** transfer_premium_shift *)

Lemma memZ_In x l : memZ x l = true <-> In x l.
Proof.
  unfold memZ; rewrite existsb_exists; split.
  - intros [y [Hy E]]; apply Z.eqb_eq in E; subst; exact Hy.
  - intros H; exists x; split; [exact H | apply Z.eqb_refl].
Qed.

Lemma remove_first_In x y l : In x (remove_first y l) -> In x l.
Proof.
  induction l as [|z l IH]; cbn [remove_first]; [tauto|].
  destruct (z =? y); [intros H; right; exact H|].
  intros [<-|H]; [left; reflexivity | right; apply IH, H].
Qed.

Lemma take_out_of_slot_range sc w d s t x :
  in_range (take_out_of_slot sc w d s t) x = in_range sc x.
Proof.
  unfold take_out_of_slot.
  destruct (is_technologist w); [destruct (memZ _ _); reflexivity|].
  destruct (engineer t) as [e|]; [destruct (e =? id w)|]; reflexivity.
Qed.

Lemma take_out_of_slot_techs sc w d s x :
  In x (technologists (slots (take_out_of_slot sc w d s (slots sc d s)) d s)) ->
  In x (technologists (slots sc d s)).
Proof.
  unfold take_out_of_slot.
  destruct (is_technologist w); [destruct (memZ _ _)|].
  - cbn [slots set_slot]. rewrite Z.eqb_refl.
    replace (shift_eqb s s) with true by (symmetry; apply shift_eqb_eq; reflexivity).
    cbn [andb technologists]. apply remove_first_In.
  - tauto.
  - destruct (engineer (slots sc d s)) as [e|]; [destruct (e =? id w)|]; [|tauto|tauto].
    cbn [slots set_slot]. rewrite Z.eqb_refl.
    replace (shift_eqb s s) with true by (symmetry; apply shift_eqb_eq; reflexivity).
    cbn [andb technologists]. tauto.
Qed.

Lemma assign_worker_store_ne st h d s h' :
  h' <> h -> store (snd (assign_worker st h d s)) !! h' = store st !! h'.
Proof.
  intros Hne. unfold assign_worker. destruct (store st !! h) as [w|]; [|reflexivity].
  destruct (assign_worker_obj (sched st) w d s) as [[b sc'] w'].
  cbn [snd store]. apply list_lookup_insert_ne. congruence.
Qed.

Lemma assign_worker_fresh_store st h w d s :
  store st !! h = Some w -> in_range (sched st) d = true ->
  (is_technologist w = true -> ~ In (id w) (technologists (slots (sched st) d s))) ->
  store (snd (assign_worker st h d s)) !! h = Some (add_shift w d s).
Proof.
  intros Hw Hr Hn. unfold assign_worker. rewrite Hw.
  unfold assign_worker_obj, day_cache. rewrite Hr.
  assert (Hlen : (h < length (store st))%nat) by (apply lookup_lt_Some in Hw; exact Hw).
  destruct (is_technologist w) eqn:Et.
  - destruct (memZ (id w) _) eqn:Em.
    + apply memZ_In in Em. exfalso. apply (Hn eq_refl), Em.
    + cbn [snd store]. apply list_lookup_insert_eq. exact Hlen.
  - cbn [snd store]. apply list_lookup_insert_eq. exact Hlen.
Qed.


Lemma calculate_compensation_pos (date : Date) (s : Shift) :
  8 <= calculate_compensation date s.
Proof.
  unfold calculate_compensation.
  unfold FIN_DE_SEMANA_NOCTURNO, FIN_DE_SEMANA_DIURNO, NOCTURNO, DIURNO; cbv zeta.
  destruct (is_colombian_holiday date), (5 <=? weekday date), s; simpl; apply Z.leb_le; reflexivity.
Qed.

Lemma try_premium_transfers_success (st st' : State) (hf ht : WorkerRef)
  (fw tw : Worker) (l : list (Date * Shift)) :
  try_premium_transfers st hf ht fw tw l = (true, st') ->
  exists pre d s post,
    l = pre ++ (d, s) :: post /\
    Forall (fun p => premium_transfer_guard st fw tw (fst p) (snd p) = false) pre /\
    premium_transfer_guard st fw tw d s = true /\
    st' = commit_premium_transfer st hf ht fw tw d s (slots (sched st) d s).
Proof.
  induction l as [|[d s] l IH]; simpl; [discriminate|].
  intros H.
  assert (Hnext : try_premium_transfers st hf ht fw tw l = (true, st') ->
                  premium_transfer_guard st fw tw d s = false ->
                  exists pre d0 s0 post,
                    (d, s) :: l = pre ++ (d0, s0) :: post /\
                    Forall (fun p => premium_transfer_guard st fw tw (fst p) (snd p) = false) pre /\
                    premium_transfer_guard st fw tw d0 s0 = true /\
                    st' = commit_premium_transfer st hf ht fw tw d0 s0 (slots (sched st) d0 s0)).
  { intros Ht Hg. destruct (IH Ht) as (pre & d0 & s0 & post & -> & Hpre & Hg0 & ->).
    exists ((d, s) :: pre), d0, s0, post. repeat split; try assumption.
    constructor; assumption. }
  unfold premium_transfer_guard in *.
  destruct (memZ d (days_off tw)) eqn:E1; [apply Hnext; [exact H|rewrite ?E1; reflexivity]|].
  destruct (existsb _ (shifts tw)) eqn:E2; [apply Hnext; [exact H|rewrite ?E1, ?E2, ?E3, ?E4, ?E5; reflexivity]|].
  destruct (_ || _) eqn:E3;
    [apply Hnext; [exact H|rewrite ?E1, ?E2, ?E3, ?E4, ?E5; reflexivity]|].
  destruct (_ <? _) eqn:E4;
    [apply Hnext; [exact H|rewrite ?E1, ?E2, ?E3, ?E4, ?E5; reflexivity]|].
  unfold day_cache in H. destruct (in_range (sched st) d) eqn:E5; simpl in H.
  - injection H as <-. exists [], d, s, l.
    split; [reflexivity|]. split; [constructor|].
    refine (conj _ eq_refl). rewrite ?E1, ?E2, ?E3, ?E4, ?E5. reflexivity.
  - apply Hnext; [exact H|]. rewrite ?E1, ?E2, ?E3, ?E4, ?E5; reflexivity.
Qed.



Lemma set_slot_slots sc d s v d' s' :
  slots (set_slot sc d s v) d' s' =
  if (d' =? d) && shift_eqb s' s then v else slots sc d' s'.
Proof. reflexivity. Qed.

Lemma slot_key_ne d s d' s' :
  (d', s') <> (d, s) -> ((d' =? d) && shift_eqb s' s) = false.
Proof.
  intros Hne. destruct (d' =? d) eqn:E1; [|reflexivity].
  destruct (shift_eqb s' s) eqn:E2; [|reflexivity].
  apply Z.eqb_eq in E1; apply shift_eqb_eq in E2. subst. congruence.
Qed.

Lemma take_out_of_slot_other sc w d s t d' s' :
  (d', s') <> (d, s) -> slots (take_out_of_slot sc w d s t) d' s' = slots sc d' s'.
Proof.
  intros Hne. unfold take_out_of_slot.
  destruct (is_technologist w); [destruct (memZ _ _)|destruct (engineer t) as [e|];
    [destruct (e =? id w)|]]; try reflexivity;
    rewrite set_slot_slots, slot_key_ne by exact Hne; reflexivity.
Qed.

Lemma take_out_of_slot_bounds sc w d s t :
  start_date (take_out_of_slot sc w d s t) = start_date sc /\
  end_date (take_out_of_slot sc w d s t) = end_date sc.
Proof.
  unfold take_out_of_slot.
  destruct (is_technologist w); [destruct (memZ _ _)|destruct (engineer t) as [e|];
    [destruct (e =? id w)|]]; split; reflexivity.
Qed.

Lemma slot_key_eq d s : ((d =? d) && shift_eqb s s) = true.
Proof.
  rewrite Z.eqb_refl. replace (shift_eqb s s) with true by (symmetry; apply shift_eqb_eq; reflexivity).
  reflexivity.
Qed.

(** [schedule.assign_worker] on an in-range date: the worker gets the shift
    unless it is a technologist already listed in the slot; either way it is
    in the slot afterwards, and no other slot changes. *)
Lemma assign_worker_in_range st h w d s :
  store st !! h = Some w -> in_range (sched st) d = true ->
  exists w' sc',
    assign_worker st h d s =
      (negb (is_technologist w && memZ (id w) (technologists (slots (sched st) d s))),
       {| sched := sc'; store := <[h := w']> (store st) |}) /\
    (w' = add_shift w d s \/
     (w' = w /\ is_technologist w = true /\ In (id w) (technologists (slots (sched st) d s)))) /\
    in_slot (slots sc' d s) w = true /\
    start_date sc' = start_date (sched st) /\ end_date sc' = end_date (sched st) /\
    (forall d' s', (d', s') <> (d, s) -> slots sc' d' s' = slots (sched st) d' s').
Proof.
  intros Hw Hr. unfold assign_worker. rewrite Hw.
  unfold assign_worker_obj, day_cache. rewrite Hr.
  unfold in_slot.
  destruct (is_technologist w) eqn:Et; [destruct (memZ (id w) _) eqn:Em|].
  - eexists _, _. split; [reflexivity|]. split; [right; split; [reflexivity|];
      split; [reflexivity|apply memZ_In; exact Em]|].
    split; [exact Em|]. repeat split; reflexivity.
  - eexists _, _. split; [reflexivity|]. split; [left; reflexivity|].
    rewrite set_slot_slots, slot_key_eq. cbn [technologists].
    split; [apply memZ_In, in_or_app; right; left; reflexivity|].
    split; [reflexivity|]. split; [reflexivity|].
    intros d' s' Hne. rewrite set_slot_slots, slot_key_ne by exact Hne. reflexivity.
  - eexists _, _. split; [reflexivity|]. split; [left; reflexivity|].
    rewrite set_slot_slots, slot_key_eq. cbn [engineer].
    split; [apply Z.eqb_refl|].
    split; [reflexivity|]. split; [reflexivity|].
    intros d' s' Hne. rewrite set_slot_slots, slot_key_ne by exact Hne. reflexivity.
Qed.

(** The committed iteration of [transfer_premium_shift] on an in-range date. *)
Lemma commit_premium_transfer_spec st hf ht fw tw d s :
  hf <> ht -> store st !! hf = Some fw -> store st !! ht = Some tw ->
  in_range (sched st) d = true ->
  let st' := commit_premium_transfer st hf ht fw tw d s (slots (sched st) d s) in
  exists fw' tw',
    store st' !! hf = Some fw' /\ store st' !! ht = Some tw' /\
    shifts fw' = drop_shift d s (shifts fw) /\
    earnings fw' = earnings fw - calculate_compensation d s /\
    earnings tw' = earnings tw + calculate_compensation d s /\
    (forall p, In p (shifts tw') -> In p (shifts tw) \/ p = (d, s)) /\
    ((is_technologist tw = true -> ~ In (id tw) (technologists (slots (sched st) d s))) ->
       shifts tw' = shifts tw ++ [(d, s)]) /\
    in_slot (slots (sched st') d s) tw = true /\
    start_date (sched st') = start_date (sched st) /\
    end_date (sched st') = end_date (sched st) /\
    (forall d' s', (d', s') <> (d, s) -> slots (sched st') d' s' = slots (sched st) d' s') /\
    (forall h, h <> hf -> h <> ht -> store st' !! h = store st !! h).
Proof.
  intros Hne Hf Ht Hr. cbv zeta.
  assert (Lf : (hf < length (store st))%nat)
    by (apply lookup_lt_is_Some_1; rewrite Hf; eauto).
  assert (Lt : (ht < length (store st))%nat)
    by (apply lookup_lt_is_Some_1; rewrite Ht; eauto).
  unfold commit_premium_transfer.
  set (fw1 := set_shifts fw (drop_shift d s (shifts fw))).
  set (sc1 := take_out_of_slot (sched st) fw d s (slots (sched st) d s)).
  set (st1 := {| sched := sc1; store := <[hf := fw1]> (store st) |}).
  assert (Ht1 : store st1 !! ht = Some tw)
    by (cbn [store st1]; rewrite list_lookup_insert_ne by congruence; exact Ht).
  assert (Hr1 : in_range (sched st1) d = true)
    by (cbn [sched st1]; unfold sc1; rewrite take_out_of_slot_range; exact Hr).
  destruct (assign_worker_in_range st1 ht tw d s Ht1 Hr1)
    as (w' & sc2 & Ha & Hw' & Hin & Hs2 & He2 & Ho2).
  rewrite Ha. cbn [snd].
  unfold set_worker, worker_at. cbn [store sched].
  assert (Ls : length (store st1) = length (store st)) by apply length_insert.
  assert (A1 : <[ht:=w']> (store st1) !! hf = Some fw1).
  { rewrite list_lookup_insert_ne by congruence. cbn [store st1].
    apply list_lookup_insert_eq. exact Lf. }
  rewrite A1. cbn [default].
  assert (A2 : forall x, <[hf:=x]> (<[ht:=w']> (store st1)) !! ht = Some w').
  { intros x. rewrite list_lookup_insert_ne by congruence.
    apply list_lookup_insert_eq. rewrite Ls. exact Lt. }
  rewrite A2. cbn [default].
  eexists _, _.
  split; [rewrite list_lookup_insert_ne by congruence;
          apply list_lookup_insert_eq; rewrite !length_insert, Ls; exact Lf|].
  split; [apply list_lookup_insert_eq; rewrite !length_insert, Ls; exact Lt|].
  cbn [shifts earnings set_earnings fw1 set_shifts].
  split; [reflexivity|]. split; [reflexivity|]. split; [reflexivity|].
  split.
  { intros p Hp. destruct Hw' as [->|[-> _]]; [|left; exact Hp].
    cbn [shifts add_shift] in Hp. apply in_app_or in Hp as [Hp|[Hp|[]]]; auto. }
  split.
  { intros Hno. destruct Hw' as [->|(-> & Et & Hid)]; [reflexivity|].
    exfalso. apply (Hno Et). cbn [sched st1] in Hid. unfold sc1 in Hid.
    apply take_out_of_slot_techs in Hid. exact Hid. }
  split; [exact Hin|].
  split; [cbn [sched st1] in Hs2; rewrite Hs2; apply take_out_of_slot_bounds|].
  split; [cbn [sched st1] in He2; rewrite He2; apply take_out_of_slot_bounds|].
  split.
  { intros d' s' Hne'. rewrite (Ho2 d' s' Hne'). cbn [sched st1]. unfold sc1.
    apply take_out_of_slot_other. exact Hne'. }
  intros h H1 H2.
  rewrite !list_lookup_insert_ne by congruence. cbn [store st1].
  apply list_lookup_insert_ne. congruence.
Qed.

(** C9. A transfer executed by [transfer_premium_shift] moves a premium
    (weekend, Night or holiday) shift [(d, s)] of the donor: the donor's
    shifts lose exactly [(d, s)], the recipient gains no shift but [(d, s)]
    (and gains it whenever the slots agree with the workers' shift lists)
    and is in the slot afterwards, no other slot and no third worker
    changes. The recipient had no day off and no shift on [d] and passes
    the night-to-day and consecutive-shift checks (rest is not among the
    tests); every premium shift of the donor with a strictly higher
    compensation value was tried first and rejected; and after the transfer
    the donor's earnings are still at least the recipient's, so the gap
    strictly narrows and does not invert. *)
Theorem transfer_premium_shift_spec (st st' : State) (hf ht : WorkerRef)
  (fw tw : Worker) :
  store st !! hf = Some fw -> store st !! ht = Some tw ->
  transfer_premium_shift st hf ht = (true, st') ->
  exists (d : Date) (s : Shift) (fw' tw' : Worker),
    In (d, s) (shifts fw) /\ is_premium d s = true /\
    memZ d (days_off tw) = false /\
    (forall s', ~ In (d, s') (shifts tw)) /\
    check_night_to_day_transition tw d s = false /\
    check_consecutive_shifts tw d s = false /\
    (forall d' s', In (d', s') (shifts fw) -> is_premium d' s' = true ->
       calculate_compensation d s < calculate_compensation d' s' ->
       premium_transfer_guard st fw tw d' s' = false) /\
    hf <> ht /\
    store st' !! hf = Some fw' /\ store st' !! ht = Some tw' /\
    shifts fw' = drop_shift d s (shifts fw) /\
    (forall p, In p (shifts tw') -> In p (shifts tw) \/ p = (d, s)) /\
    (mirror_consistent st -> shifts tw' = shifts tw ++ [(d, s)]) /\
    in_slot (slots (sched st') d s) tw = true /\
    (forall d' s', (d', s') <> (d, s) -> slots (sched st') d' s' = slots (sched st) d' s') /\
    (forall h, h <> hf -> h <> ht -> store st' !! h = store st !! h) /\
    earnings fw' = earnings fw - calculate_compensation d s /\
    earnings tw' = earnings tw + calculate_compensation d s /\
    earnings tw' <= earnings fw' /\
    0 <= earnings fw' - earnings tw' < earnings fw - earnings tw.
Proof.
  intros Hf Ht H. unfold transfer_premium_shift in H. rewrite Hf, Ht in H.
  set (key := fun p : Date * Shift => let '(d, s) := p in - calculate_compensation d s) in H.
  set (prem := List.filter (fun '(d, s) => is_premium d s) (shifts fw)) in H.
  pose proof (sort_by_sorted key prem) as Hsorted.
  apply try_premium_transfers_success in H
    as (pre & d & s & post & Hl & Hpre & Hg & ->).
  assert (Hin : In (d, s) prem).
  { apply (sort_by_In key). rewrite Hl. apply in_or_app. right. left. reflexivity. }
  unfold prem in Hin. apply filter_In in Hin as [Hin Hprem].
  unfold premium_transfer_guard in Hg.
  apply andb_true_iff in Hg as [Hg Hrange].
  apply andb_true_iff in Hg as [Hg Hearn].
  apply andb_true_iff in Hg as [Hg Hchk].
  apply andb_true_iff in Hg as [Hoff Hsame].
  apply negb_true_iff in Hoff, Hsame, Hchk, Hearn.
  apply orb_false_iff in Hchk as [Hntd Hcons].
  apply Z.ltb_ge in Hearn.
  assert (Hnos : forall s', ~ In (d, s') (shifts tw)).
  { intros s' Hs'. assert (existsb (fun '(d0, _) => d0 =? d) (shifts tw) = true) as Hc.
    { apply existsb_exists. exists (d, s'). split; [exact Hs'|]. apply Z.eqb_refl. }
    congruence. }
  assert (Hne : hf <> ht).
  { intros ->. rewrite Hf in Ht. injection Ht as <-. exact (Hnos s Hin). }
  destruct (commit_premium_transfer_spec st hf ht fw tw d s Hne Hf Ht Hrange)
    as (fw' & tw' & Hf' & Ht' & Sf & Ef & Et & Hsub & Happ & Hslot & _ & _ & Hoth & Hthird).
  pose proof (calculate_compensation_pos d s).
  exists d, s, fw', tw'.
  split; [exact Hin|]. split; [exact Hprem|]. split; [exact Hoff|].
  split; [exact Hnos|].
  split; [exact Hntd|]. split; [exact Hcons|].
  split.
  { intros d' s' Hin' Hprem' Hlt.
    assert (Hx : In (d', s') (sort_by key prem))
      by (apply sort_by_In; unfold prem; apply filter_In; split; assumption).
    rewrite Hl in Hx. apply in_app_or in Hx as [Hx|[Hx|Hx]].
    - rewrite List.Forall_forall in Hpre. apply (Hpre _ Hx).
    - injection Hx as -> ->. lia.
    - rewrite Hl in Hsorted. pose proof (sorted_after key _ _ _ _ Hsorted Hx) as Hk.
      simpl in Hk. lia. }
  split; [exact Hne|]. split; [exact Hf'|]. split; [exact Ht'|].
  split; [exact Sf|]. split; [exact Hsub|].
  split.
  { intros Hm. apply Happ. intros Htech Hid.
    specialize (Hm ht tw d s Ht Hrange). rewrite Htech in Hm.
    apply (Hnos s), Hm, Hid. }
  split; [exact Hslot|]. split; [exact Hoth|]. split; [exact Hthird|].
  split; [exact Ef|]. split; [exact Et|]. lia.
Qed.

(** The transfer happens on [premium_state] (T1's 2025-01-01 Noche goes to
    T2 although T2 fails the rest check there): T1 loses that shift, T2
    gains it and the gap narrows. *)
Lemma transfer_premium_shift_spec_witness :
  exists st' fw tw,
    store premium_state !! 0%nat = Some fw /\
    store premium_state !! 1%nat = Some tw /\
    transfer_premium_shift premium_state 0 1 = (true, st') /\
    check_adequate_rest tw 0 Noche = false /\
    exists d s fw' tw',
      In (d, s) (shifts fw) /\ is_premium d s = true /\
      store st' !! 0%nat = Some fw' /\ store st' !! 1%nat = Some tw' /\
      shifts fw' = drop_shift d s (shifts fw) /\
      (mirror_consistent premium_state -> shifts tw' = shifts tw ++ [(d, s)]) /\
      earnings tw' <= earnings fw' /\
      0 <= earnings fw' - earnings tw' < earnings fw - earnings tw.
Proof.
  eexists _, _, _.
  split; [reflexivity|]. split; [reflexivity|]. split; [reflexivity|].
  split; [reflexivity|].
  destruct (transfer_premium_shift_spec premium_state _ 0 1 _ _ eq_refl eq_refl eq_refl)
    as (d & s & fw' & tw' & Hin & Hp & _ & _ & _ & _ & _ & _ & Hf & Ht & Sf & _ & Hm &
        _ & _ & _ & _ & _ & Hle & Hgap).
  exists d, s, fw', tw'. tauto.
Defined.

(** *** Day-off planner, phase 1 *)

(** C7 counterexample. T1 works the nights of 2025-01-06 and 2025-01-08 in
    the week 2025-01-06 .. 2025-01-12 and has no day off. The day after the
    latest night, 2025-01-09, is in the week and free, but phase 1 marks
    2025-01-07, the day after the earliest night. *)
Lemma phase1_marks_day_after_earliest_night :
  let st' := fst (ensure_weekly_days_off_phase1 night_week_state [0%nat]) in
  store night_week_state !! 0%nat = Some night_worker /\
  schedule_weeks (sched night_week_state) = [(5, 11, 5, 11)] /\
  option_map days_off (store st' !! 0%nat) = Some [6] /\
  ~ In 8 [6].
Proof.
  simpl. split; [reflexivity|]. split; [reflexivity|]. split; [reflexivity|].
  intros [H|[]]. discriminate H.
Qed.

Lemma free_day_iff (w : Worker) (es ee x : Date) :
  (es <=? x) && (x <=? ee) && negb (existsb (fun '(d, _) => d =? x) (shifts w)) = true <->
  es <= x <= ee /\ forall s, ~ In (x, s) (shifts w).
Proof.
  rewrite !andb_true_iff, negb_true_iff, Z.leb_le, Z.leb_le. split.
  - intros [[H1 H2] H3]. split; [lia|]. intros s Hin.
    assert (existsb (fun '(d, _) => d =? x) (shifts w) = true) as Hc
      by (apply existsb_exists; exists (x, s); split; [exact Hin|apply Z.eqb_refl]).
    congruence.
  - intros [[H1 H2] H3]. split; [lia|].
    destruct (existsb _ (shifts w)) eqn:E; [|reflexivity].
    apply existsb_exists in E as ([d s] & Hin & Hd). apply Z.eqb_eq in Hd; subst d.
    exfalso. exact (H3 s Hin).
Qed.

Lemma first_post_night_day_some (w : Worker) (es ee x : Date) (l : list (Date * Shift)) :
  first_post_night_day w es ee l = Some x ->
  exists pre n s post,
    l = pre ++ (n, s) :: post /\ x = n + 1 /\
    (es <=? n + 1) && (n + 1 <=? ee) &&
      negb (existsb (fun '(d, _) => d =? n + 1) (shifts w)) = true /\
    Forall (fun p => (es <=? fst p + 1) && (fst p + 1 <=? ee) &&
      negb (existsb (fun '(d, _) => d =? fst p + 1) (shifts w)) = false) pre.
Proof.
  induction l as [|[n s] l IH]; simpl; [discriminate|].
  destruct (_ && _ && _) eqn:E.
  - intros H. injection H as <-. exists [], n, s, l. repeat split; [exact E|constructor].
  - intros H. destruct (IH H) as (pre & n' & s' & post & -> & -> & Hf & Hpre).
    exists ((n, s) :: pre), n', s', post. repeat split; [exact Hf|].
    constructor; [exact E|exact Hpre].
Qed.

Lemma first_post_night_day_none (w : Worker) (es ee : Date) (l : list (Date * Shift)) :
  first_post_night_day w es ee l = None ->
  Forall (fun p => (es <=? fst p + 1) && (fst p + 1 <=? ee) &&
    negb (existsb (fun '(d, _) => d =? fst p + 1) (shifts w)) = false) l.
Proof.
  induction l as [|[n s] l IH]; simpl; [constructor|].
  destruct (_ && _ && _) eqn:E; [discriminate|].
  intros H. constructor; [exact E|exact (IH H)].
Qed.

(** C7 (amended). For a worker with no day off in the week's effective
    range [es, ee], phase 1 marks the day after the EARLIEST night shift of
    the week (in date order) whose next day lies in the range and has no
    shift: every earlier night of the week has an ineligible next day. When
    no night of the week has an eligible next day, nothing is marked. *)
Theorem phase1_week_earliest_night (w : Worker) (es ee : Date) :
  (forall d, In d (days_off w) -> ~ (es <= d <= ee)) ->
  let w' := fst (phase1_week w es ee) in
  (exists n,
     In (n, Noche) (shifts w) /\ es <= n <= ee /\
     es <= n + 1 <= ee /\ (forall s, ~ In (n + 1, s) (shifts w)) /\
     (forall n', In (n', Noche) (shifts w) -> es <= n' <= ee -> n' < n ->
        ~ (es <= n' + 1 <= ee /\ forall s, ~ In (n' + 1, s) (shifts w))) /\
     days_off w' = days_off w ++ [n + 1] /\
     shifts w' = shifts w /\ earnings w' = earnings w)
  \/
  (w' = w /\
   forall n, In (n, Noche) (shifts w) -> es <= n <= ee ->
     ~ (es <= n + 1 <= ee /\ forall s, ~ In (n + 1, s) (shifts w))).
Proof.
  intros Hoff w'. unfold w', phase1_week.
  assert (E0 : existsb (fun d => (es <=? d) && (d <=? ee)) (days_off w) = false).
  { destruct (existsb _ _) eqn:E; [|reflexivity].
    apply existsb_exists in E as (d & Hd & Hr).
    apply andb_true_iff in Hr as [H1 H2]. apply Z.leb_le in H1, H2.
    exfalso. exact (Hoff d Hd (conj H1 H2)). }
  rewrite E0.
  set (nights := List.filter (fun '(d, s) => shift_eqb s Noche && (es <=? d) &&
                                            (d <=? ee)) (shifts w)).
  assert (Hnight : forall n, In (n, Noche) (shifts w) -> es <= n <= ee ->
                             In (n, Noche) (sort_by fst nights)).
  { intros n Hn Hr. apply sort_by_In. unfold nights. apply filter_In.
    split; [exact Hn|]. simpl. apply andb_true_iff; split; [|apply Z.leb_le; lia].
    apply Z.leb_le; lia. }
  assert (Hsorted := sort_by_sorted fst nights).
  destruct nights as [|p ps] eqn:En.
  - simpl. right. split; [reflexivity|].
    intros n Hn Hr. specialize (Hnight n Hn Hr). simpl in Hnight. contradiction.
  - rewrite <- En in *.
    destruct (first_post_night_day w es ee (sort_by fst nights)) as [x|] eqn:Ef.
    + apply first_post_night_day_some in Ef as (pre & n & s & post & Hl & -> & Hf & Hpre).
      assert (Hin : In (n, s) nights).
      { apply (sort_by_In fst). rewrite Hl. apply in_or_app. right. left. reflexivity. }
      unfold nights in Hin. apply filter_In in Hin as [Hin Hc].
      apply andb_true_iff in Hc as [Hc H2]. apply andb_true_iff in Hc as [Hs H1].
      apply shift_eqb_eq in Hs; subst s. apply Z.leb_le in H1, H2.
      apply free_day_iff in Hf as [Hr Hfree].
      left. exists n. simpl.
      split; [exact Hin|]. split; [lia|]. split; [exact Hr|]. split; [exact Hfree|].
      split.
      { intros n' Hn' Hr' Hlt Helig. apply free_day_iff in Helig.
        specialize (Hnight n' Hn' Hr'). rewrite Hl in Hnight.
        apply in_app_or in Hnight as [Hx|[Hx|Hx]].
        - rewrite List.Forall_forall in Hpre. specialize (Hpre _ Hx). simpl in Hpre. congruence.
        - injection Hx as ->. lia.
        - rewrite Hl in Hsorted. pose proof (sorted_after fst _ _ _ _ Hsorted Hx) as Hk.
          simpl in Hk. lia. }
      unfold add_day_off.
      assert (Hm : memZ (n + 1) (days_off w) = false).
      { unfold memZ. destruct (existsb (Z.eqb (n + 1)) (days_off w)) eqn:Em; [|reflexivity].
        apply existsb_exists in Em as (d & Hd & Heq). apply Z.eqb_eq in Heq; subst d.
        exfalso. exact (Hoff _ Hd Hr). }
      rewrite Hm. simpl. auto.
    + apply first_post_night_day_none in Ef. simpl. right. split; [reflexivity|].
      intros n Hn Hr Helig. apply free_day_iff in Helig.
      specialize (Hnight n Hn Hr). rewrite List.Forall_forall in Ef.
      specialize (Ef _ Hnight). simpl in Ef. congruence.
Qed.

Lemma phase1_week_earliest_night_witness :
  (forall d, In d (days_off night_worker) -> ~ (5 <= d <= 11)) /\
  days_off (fst (phase1_week night_worker 5 11)) = [6].
Proof.
  assert (Hw : forall d, In d (days_off night_worker) -> ~ (5 <= d <= 11))
    by (intros d []).
  split; [exact Hw|].
  destruct (phase1_week_earliest_night night_worker 5 11 Hw) as [_|_];
    vm_compute; reflexivity.
Defined.

(** *** Inadequate-rest violations in the repair pass *)

Definition lacks (c : ascii) (s : string) : bool :=
  forallb (fun x => negb (Ascii.eqb x c)) (list_ascii_of_string s).

Lemma lacks_app c a b : lacks c (a ++ b) = lacks c a && lacks c b.
Proof.
  unfold lacks; induction a as [|x a IH]; simpl; [reflexivity|].
  rewrite IH; apply andb_assoc.
Qed.

Lemma lacks_In c s : lacks c s = true -> ~ In c (list_ascii_of_string s).
Proof.
  unfold lacks; intros H Hin.
  apply forallb_forall with (x := c) in H; [|exact Hin].
  rewrite Ascii.eqb_refl in H; discriminate.
Qed.

Lemma digit_char_lacks c n :
  (48 <= nat_of_ascii c -> 57 < nat_of_ascii c)%nat ->
  Ascii.eqb (digit_char (n mod 10)) c = false.
Proof.
  intros Hc. apply Ascii.eqb_neq. intros E.
  assert (Hr : 0 <= n mod 10 < 10) by (apply Z.mod_pos_bound; lia).
  unfold digit_char in E.
  assert (Hn : nat_of_ascii (ascii_of_nat (48 + Z.to_nat (n mod 10))) =
               (48 + Z.to_nat (n mod 10))%nat).
  { apply nat_ascii_embedding. lia. }
  rewrite E in Hn. lia.
Qed.

Lemma digits_aux_lacks c f n acc :
  (48 <= nat_of_ascii c -> 57 < nat_of_ascii c)%nat ->
  lacks c acc = true -> lacks c (digits_aux f n acc) = true.
Proof.
  intros Hc. revert n acc; induction f as [|f IH]; intros n acc Ha;
    cbn [digits_aux]; [exact Ha|].
  assert (Hs : lacks c (String (digit_char (n mod 10)) acc) = true).
  { unfold lacks in *; cbn [list_ascii_of_string forallb].
    rewrite digit_char_lacks by exact Hc. exact Ha. }
  destruct (n <? 10); [exact Hs | apply IH; exact Hs].
Qed.

Lemma str_of_Z_lacks c n :
  (48 <= nat_of_ascii c -> 57 < nat_of_ascii c)%nat -> c <> "-"%char ->
  lacks c (str_of_Z n) = true.
Proof.
  intros Hc Hm. unfold str_of_Z.
  destruct (n <? 0).
  - unfold lacks; cbn [list_ascii_of_string forallb].
    assert (E : Ascii.eqb "-" c = false) by (apply Ascii.eqb_neq; congruence).
    rewrite E; cbn [negb andb]. apply (digits_aux_lacks c _ _ EmptyString Hc); reflexivity.
  - apply (digits_aux_lacks c _ _ EmptyString Hc); reflexivity.
Qed.

Lemma fmt_date_lacks c n :
  (48 <= nat_of_ascii c -> 57 < nat_of_ascii c)%nat -> c <> "-"%char ->
  lacks c (fmt_date n) = true.
Proof.
  intros Hc Hm. unfold fmt_date.
  destruct (civil_from_days n) as [[y m] d].
  assert (Hd : Ascii.eqb "-" c = false) by (apply Ascii.eqb_neq; congruence).
  assert (H0 : Ascii.eqb "0" c = false).
  { apply Ascii.eqb_neq; intros <-.
    assert (Hz : nat_of_ascii "0" = 48%nat) by reflexivity.
    rewrite Hz in Hc; lia. }
  assert (Hp : forall k, lacks c (pad2 k) = true).
  { intros k; unfold pad2; destruct (k <? 10).
    - unfold lacks; cbn [list_ascii_of_string forallb]; rewrite H0; simpl.
      apply (str_of_Z_lacks c k Hc Hm).
    - apply (str_of_Z_lacks c k Hc Hm). }
  rewrite !lacks_app, (str_of_Z_lacks c y Hc Hm), !Hp.
  unfold lacks; cbn [list_ascii_of_string forallb]; rewrite Hd; reflexivity.
Qed.

Lemma word_run_app l : let '(w, r) := word_run l in l = w ++ r.
Proof.
  induction l as [|c l IH]; simpl; [reflexivity|].
  destruct (is_word c); [|reflexivity].
  destruct (word_run l) as [w r]; simpl; congruence.
Qed.

Lemma search_y_word_dot_In l g :
  search_y_word_dot l = Some g -> In "."%char l.
Proof.
  induction l as [|c l IH]; simpl; [discriminate|].
  intros H.
  destruct l as [|c2 rest]; [simpl in H; discriminate|].
  destruct (Ascii.eqb c "y" && Ascii.eqb c2 " ");
    [|right; apply IH; exact H].
  pose proof (word_run_app rest) as Hw.
  destruct (word_run rest) as [[|x w] [|d r]];
    try (right; apply IH; exact H).
  destruct (Ascii.eqb d ".") eqn:Ed; [|right; apply IH; exact H].
  apply Ascii.eqb_eq in Ed; subst d rest.
  right; right. apply in_or_app; right; left; reflexivity.
Qed.

Lemma re_y_word_dot_lacks s :
  lacks "." s = true -> re_y_word_dot s = None.
Proof.
  intros H. unfold re_y_word_dot.
  destruct (search_y_word_dot (list_ascii_of_string s)) eqn:E; [|reflexivity].
  exfalso. apply (lacks_In _ _ H). exact (search_y_word_dot_In _ _ E).
Qed.

Lemma rest_msg_lacks c w d1 s1 d2 s2 :
  c = "."%char \/ c = o_acute -> lacks c (rest_msg w d1 s1 d2 s2) = true.
Proof.
  intros Hc.
  assert (Hd : (48 <= nat_of_ascii c -> 57 < nat_of_ascii c)%nat).
  { destruct Hc; subst c; vm_compute; lia. }
  assert (Hm : c <> "-"%char) by (destruct Hc; subst c; discriminate).
  unfold rest_msg, get_formatted_id.
  rewrite !lacks_app, !(fmt_date_lacks c _ Hd Hm), (str_of_Z_lacks c _ Hd Hm).
  destruct Hc; subst c; destruct (is_technologist w), s1, s2; reflexivity.
Qed.

Lemma substring_In c m k s :
  In c (list_ascii_of_string (substring m k s)) -> In c (list_ascii_of_string s).
Proof.
  revert m k; induction s as [|x s IH]; intros m k H.
  - destruct m, k; simpl in H; contradiction.
  - destruct m as [|m], k as [|k]; cbn [substring list_ascii_of_string] in H |- *.
    + contradiction.
    + destruct H as [H|H]; [left; exact H | right; exact (IH 0%nat k H)].
    + right; exact (IH m 0%nat H).
    + right; exact (IH m (S k) H).
Qed.

Lemma str_contains_lacks c sub s :
  existsb (Ascii.eqb c) (list_ascii_of_string sub) = true ->
  lacks c s = true -> str_contains sub s = false.
Proof.
  intros Hsub Hs. unfold str_contains.
  destruct (String.index 0 sub s) as [m|] eqn:E; [|reflexivity].
  apply String.index_correct1 in E.
  apply existsb_exists in Hsub as [x [Hx Hcx]].
  apply Ascii.eqb_eq in Hcx; subst x.
  rewrite <- E in Hx. apply substring_In in Hx.
  exfalso; exact (lacks_In _ _ Hs Hx).
Qed.

Lemma string_app_assoc a b c : (a ++ b ++ c)%string = ((a ++ b) ++ c)%string.
Proof. induction a as [|x a IH]; simpl; [reflexivity | rewrite IH; reflexivity]. Qed.

Lemma substring_app_skip a b m k :
  substring (String.length a + m) k (a ++ b) = substring m k b.
Proof. induction a as [|x a IH]; [reflexivity | exact IH]. Qed.

Lemma substring_app_prefix sub b :
  substring 0 (String.length sub) (sub ++ b) = sub.
Proof.
  induction sub as [|x sub IH]; simpl; [destruct b; reflexivity|].
  rewrite IH; reflexivity.
Qed.

Lemma str_contains_app sub a b :
  sub <> EmptyString -> str_contains sub (a ++ sub ++ b) = true.
Proof.
  intros Hne. unfold str_contains.
  destruct (String.index 0 sub (a ++ sub ++ b)) eqn:E; [reflexivity|].
  exfalso. apply (String.index_correct3 0 (String.length a) sub _ E Hne (Nat.le_0_l _)).
  rewrite <- (Nat.add_0_r (String.length a)), substring_app_skip.
  apply substring_app_prefix.
Qed.

Lemma rest_msg_shape w d1 s1 d2 s2 :
  exists a b, rest_msg w d1 s1 d2 s2 = (a ++ key_rest ++ b)%string.
Proof.
  unfold rest_msg. eexists (get_formatted_id w ++ " ")%string, _.
  rewrite <- string_app_assoc. reflexivity.
Qed.

(** C8 (code bug). The repair pass never removes anyone for an
    inadequate-rest violation: for every message of that kind, the
    extraction [re.search(r'y (\w+)\.', violation).group(1)] finds no match
    (the message has no ["."]), the [AttributeError] is caught and the
    violation contributes no shift to [shifts_to_change]. On a schedule
    whose only constraint violation is T1's rest between 2025-01-01 Tarde
    and 2025-01-02 Mañana, [resolve_constraint_violations] returns the
    state unchanged, T1 still holding the later shift. *)
Theorem resolve_constraint_violations_keeps_rest_violation :
  (forall w d1 s1 d2 s2, violation_shifts (rest_msg w d1 s1 d2 s2) = []) /\
  resolve_constraint_violations rest_state [0%nat; 1%nat] [] = Some rest_state /\
  exists w, store rest_state !! 0%nat = Some w /\ In (1, Manana) (shifts w) /\
    List.filter is_constraint_violation (validate_schedule rest_state) =
      [rest_msg w 0 Tarde 1 Manana].
Proof.
  split; [|split].
  - intros w d1 s1 d2 s2. unfold violation_shifts.
    rewrite (str_contains_lacks o_acute) by
      (reflexivity || apply rest_msg_lacks; right; reflexivity).
    destruct (rest_msg_shape w d1 s1 d2 s2) as [a [b E]].
    rewrite E at 1. rewrite str_contains_app by discriminate.
    rewrite re_y_word_dot_lacks by (apply rest_msg_lacks; left; reflexivity).
    reflexivity.
  - vm_compute. reflexivity.
  - eexists; split; [reflexivity|]. split.
    + right; left; reflexivity.
    + vm_compute. reflexivity.
Qed.

(* ================================================================== *)
(** * Further properties of the code *)

(** *** Worker and constraint helpers *)


(** [Worker.can_work_shift] only needs its day-off test and
    [check_adequate_rest]: a consecutive shift on the same day or a night
    before a morning is at most two slots away, so the rest check alone
    already rejects them. *)
Lemma can_work_shift_rest_only w d s :
  can_work_shift w d s = negb (memZ d (days_off w)) && check_adequate_rest w d s.
Proof.
  unfold can_work_shift.
  destruct (memZ d (days_off w)); [reflexivity|]; cbn [negb andb].
  destruct (check_consecutive_shifts w d s) eqn:Ec.
  - symmetry. unfold check_consecutive_shifts in Ec.
    apply existsb_exists in Ec as [[wd ws] [Hin Hc]].
    apply andb_prop in Hc as [H1 H2]; apply Z.eqb_eq in H1, H2.
    unfold check_adequate_rest. apply not_true_iff_false; intros Hf.
    rewrite forallb_forall in Hf. specialize (Hf _ Hin). cbv beta iota in Hf.
    unfold position in Hf. subst wd.
    replace (Z.abs (d * 3 + shift_index s - (d * 3 + shift_index ws))) with 1 in Hf by lia.
    discriminate.
  - destruct (check_night_to_day_transition w d s) eqn:En;
      [|destruct (check_adequate_rest w d s); reflexivity].
    symmetry. unfold check_night_to_day_transition in En.
    destruct (shift_eqb s Manana) eqn:Es; [|discriminate].
    apply shift_eqb_eq in Es; subst s. cbn [negb] in En.
    apply existsb_exists in En as [[wd ws] [Hin Hc]].
    apply andb_prop in Hc as [H1 H2]; apply Z.eqb_eq in H1; apply shift_eqb_eq in H2.
    subst wd ws.
    unfold check_adequate_rest. apply not_true_iff_false; intros Hf.
    rewrite forallb_forall in Hf. specialize (Hf _ Hin). cbv beta iota in Hf.
    unfold position in Hf. cbn [shift_index] in Hf.
    replace (Z.abs (d * 3 + 0 - ((d - 1) * 3 + 2))) with 1 in Hf by lia.
    discriminate.
Qed.

(** Whatever [check_adequate_rest] accepts, [check_adequate_rest_relaxed]
    accepts too: the relaxed check only drops the rejection of shifts two
    slots away. *)
Lemma check_adequate_rest_relaxed_weaker w d s :
  check_adequate_rest w d s = true -> check_adequate_rest_relaxed w d s = true.
Proof.
  unfold check_adequate_rest, check_adequate_rest_relaxed.
  rewrite !forallb_forall. intros H [wd ws] Hin. specialize (H _ Hin).
  cbv beta iota in *.
  set (k := Z.abs (position d s - position wd ws)) in *.
  destruct (0 <? k) eqn:E1; destruct (k <=? 2) eqn:E2; try discriminate;
    rewrite ?Z.ltb_lt, ?Z.ltb_ge, ?Z.leb_le, ?Z.leb_gt in *;
    destruct (k =? 1) eqn:E3; try reflexivity; apply Z.eqb_eq in E3; lia.
Qed.

(** [Worker.add_day_off] keeps [days_off] free of duplicates, records the
    date, and adding the same date again changes nothing. *)
Lemma add_day_off_spec w d :
  List.NoDup (days_off w) ->
  List.NoDup (days_off (add_day_off w d)) /\ In d (days_off (add_day_off w d)) /\
  add_day_off (add_day_off w d) d = add_day_off w d.
Proof.
  intros Hnd. destruct (memZ d (days_off w)) eqn:E.
  - assert (Ha : add_day_off w d = w) by (unfold add_day_off; rewrite E; reflexivity).
    rewrite !Ha. split; [exact Hnd | split; [apply memZ_In; exact E | reflexivity]].
  - assert (Ha : add_day_off w d =
                 {| id := id w; is_technologist := is_technologist w;
                    shifts := shifts w; earnings := earnings w;
                    days_off := days_off w ++ [d] |})
      by (unfold add_day_off; rewrite E; reflexivity).
    rewrite Ha; cbn [days_off]. split; [|split].
    + apply List.NoDup_app; [exact Hnd | constructor; [intros [] | constructor] |].
      intros x Hx [Hx'|[]]. subst x.
      apply not_true_iff_false in E; apply E, memZ_In, Hx.
    + apply in_or_app; right; left; reflexivity.
    + unfold add_day_off; cbn [days_off].
      replace (memZ d (days_off w ++ [d])) with true; [reflexivity|].
      symmetry; apply memZ_In, in_or_app; right; left; reflexivity.
Qed.

Lemma add_day_off_spec_witness :
  List.NoDup (days_off night_worker) /\
  (List.NoDup (days_off (add_day_off night_worker 6)) /\
   In 6 (days_off (add_day_off night_worker 6)) /\
   add_day_off (add_day_off night_worker 6) 6 = add_day_off night_worker 6).
Proof.
  split; [constructor|]. apply add_day_off_spec. constructor.
Defined.

Lemma week_start_iff m d :
  weekday m = 0 -> (m <= d <= get_week_end m <-> m = get_week_start d).
Proof.
  unfold get_week_start, get_week_end, weekday. intros Hm.
  pose proof (Z.div_mod (m + 2) 7 ltac:(lia)) as Em.
  pose proof (Z.div_mod (d + 2) 7 ltac:(lia)) as Ed.
  pose proof (Z.mod_pos_bound (d + 2) 7 ltac:(lia)) as Bd.
  rewrite Hm in Em.
  set (a := (m + 2) / 7) in *. set (b := (d + 2) / 7) in *. set (r := (d + 2) mod 7) in *.
  lia.
Qed.

(** Among the weeks starting on a Monday, [get_shifts_in_week] lists a shift
    of the worker in exactly one: the week [get_week_start] gives for its
    date. The same holds for [get_days_off_in_week]. *)
Lemma get_in_week_partition w m :
  weekday m = 0 ->
  (forall d s, In (d, s) (shifts w) ->
     (In (d, s) (get_shifts_in_week w m) <-> m = get_week_start d)) /\
  (forall d, In d (days_off w) ->
     (In d (get_days_off_in_week w m) <-> m = get_week_start d)).
Proof.
  intros Hm. split.
  - intros d s Hin. unfold get_shifts_in_week.
    rewrite <- (week_start_iff m d Hm), filter_In.
    rewrite andb_true_iff, Z.leb_le, Z.leb_le. tauto.
  - intros d Hin. unfold get_days_off_in_week.
    rewrite <- (week_start_iff m d Hm), filter_In.
    rewrite andb_true_iff, Z.leb_le, Z.leb_le. tauto.
Qed.

Lemma get_in_week_partition_witness :
  weekday 5 = 0 /\
  ((forall d s, In (d, s) (shifts night_worker) ->
      (In (d, s) (get_shifts_in_week night_worker 5) <-> 5 = get_week_start d)) /\
   (forall d, In d (days_off night_worker) ->
      (In d (get_days_off_in_week night_worker 5) <-> 5 = get_week_start d))).
Proof.
  split; [reflexivity|]. apply get_in_week_partition. reflexivity.
Defined.

(** [calculate_compensation]: on any date the two day shifts pay the same
    and the night pays at least as much; every rate lies between 1.0 and
    3.125 (8 and 25 eighths). *)
Lemma calculate_compensation_order d :
  calculate_compensation d Manana = calculate_compensation d Tarde /\
  calculate_compensation d Manana <= calculate_compensation d Noche /\
  (forall s, 8 <= calculate_compensation d s <= 25).
Proof.
  unfold calculate_compensation, FIN_DE_SEMANA_NOCTURNO, FIN_DE_SEMANA_DIURNO,
    NOCTURNO, DIURNO; cbn [shift_eqb].
  destruct (5 <=? weekday d), (is_colombian_holiday d); cbn [andb];
    (split; [reflexivity | split; [apply Z.leb_le; reflexivity|]]);
    intros []; cbn [shift_eqb andb]; split; apply Z.leb_le; reflexivity.
Qed.

(** *** Python sets: critical days and duplicate technologists *)

Lemma Z_range_In a b x : In x (Z_range a b) <-> a <= x < b.
Proof.
  unfold Z_range. rewrite in_map_iff. split.
  - intros [k [<- Hk]]. apply in_seq in Hk. lia.
  - intros H. exists (Z.to_nat (x - a)). split; [lia|]. apply in_seq. lia.
Qed.

(** [identify_critical_days] returns each date of the period that is a
    Saturday, a Sunday or a holiday, each once, and nothing else. *)
Lemma identify_critical_days_spec set_list start_date end_date :
  is_set_list set_list ->
  List.NoDup (identify_critical_days set_list start_date end_date) /\
  (forall d, In d (identify_critical_days set_list start_date end_date) <->
             start_date <= d <= end_date /\
             (5 <= weekday d \/ is_colombian_holiday d = true)).
Proof.
  intros [Hnd Hin]. unfold identify_critical_days. split; [apply Hnd|].
  intros d. rewrite Hin, in_flat_map. unfold date_range. split.
  - intros [x [Hx Hd]]. apply Z_range_In in Hx.
    apply in_app_or in Hd as [Hd|Hd].
    + destruct (5 <=? weekday x) eqn:E; [|destruct Hd].
      destruct Hd as [<-|[]]. apply Z.leb_le in E. split; [lia | left; exact E].
    + destruct (is_colombian_holiday x) eqn:E; [|destruct Hd].
      destruct Hd as [<-|[]]. split; [lia | right; exact E].
  - intros [Hr Hc]. exists d. split; [apply Z_range_In; lia|].
    destruct Hc as [Hc|Hc].
    + apply in_or_app; left. apply Z.leb_le in Hc; rewrite Hc; left; reflexivity.
    + apply in_or_app; right. rewrite Hc; left; reflexivity.
Qed.

Lemma id_set_list_ok : forall l : list Z, List.NoDup (nodup Z.eq_dec l) /\
  (forall x, In x (nodup Z.eq_dec l) <-> In x l).
Proof. intros l; split; [apply NoDup_nodup | intros x; apply nodup_In]. Qed.

Lemma identify_critical_days_spec_witness :
  is_set_list (nodup Z.eq_dec) /\
  (List.NoDup (identify_critical_days (nodup Z.eq_dec) 0 12) /\
   (forall d, In d (identify_critical_days (nodup Z.eq_dec) 0 12) <->
              0 <= d <= 12 /\ (5 <= weekday d \/ is_colombian_holiday d = true))).
Proof.
  assert (H : is_set_list (nodup Z.eq_dec))
    by (split; intros; [apply NoDup_nodup | apply nodup_In]).
  split; [exact H|]. apply identify_critical_days_spec. exact H.
Defined.

Section UniqueTechs.
Variable set_list : list Z -> list Z.
Hypothesis set_list_ok : is_set_list set_list.

Lemma set_list_shorter l :
  (length (set_list l) <? length l)%nat = negb (if ListDec.NoDup_dec Z.eq_dec l then true else false).
Proof.
  destruct set_list_ok as [Hnd Hin].
  assert (Hinc : incl (set_list l) l) by (intros x; apply Hin).
  assert (Hinc' : incl l (set_list l)) by (intros x; apply Hin).
  destruct (ListDec.NoDup_dec Z.eq_dec l) as [Hl|Hl]; cbn [negb].
  - apply Nat.ltb_ge. apply NoDup_incl_length; assumption.
  - apply Nat.ltb_lt.
    pose proof (NoDup_incl_length (Hnd l) Hinc).
    destruct (Nat.eq_dec (length (set_list l)) (length l)) as [E|E]; [|lia].
    exfalso; apply Hl. eapply NoDup_incl_NoDup; [exact (Hnd l) | lia | exact Hinc].
Qed.

Lemma unique_fix_nodup t : List.NoDup (technologists t) -> unique_fix set_list t = t.
Proof.
  intros H. unfold unique_fix. rewrite set_list_shorter.
  destruct (ListDec.NoDup_dec Z.eq_dec (technologists t)) as [_|Hn]; [reflexivity|contradiction].
Qed.

Lemma unique_fix_spec t :
  List.NoDup (technologists (unique_fix set_list t)) /\
  (forall x, In x (technologists (unique_fix set_list t)) <-> In x (technologists t)) /\
  engineer (unique_fix set_list t) = engineer t.
Proof.
  destruct set_list_ok as [Hnd Hin]. unfold unique_fix. rewrite set_list_shorter.
  destruct (ListDec.NoDup_dec Z.eq_dec (technologists t)) as [H|H]; cbn [negb].
  - split; [exact H|split; [reflexivity|reflexivity]].
  - cbn [technologists engineer]. split; [apply Hnd|split; [apply Hin|reflexivity]].
Qed.

Lemma unique_fix_idem t : unique_fix set_list (unique_fix set_list t) = unique_fix set_list t.
Proof. apply unique_fix_nodup, unique_fix_spec. Qed.

Lemma verify_unique_step_slots errs sc d0 s0 :
  let '(errs1, sc1) := verify_unique_step set_list (errs, sc) (d0, s0) in
  start_date sc1 = start_date sc /\ end_date sc1 = end_date sc /\
  (forall d s, slots sc1 d s =
     if (d =? d0) && shift_eqb s s0 then unique_fix set_list (slots sc d0 s0) else slots sc d s) /\
  ((errs1 = errs /\ sc1 = sc /\ List.NoDup (technologists (slots sc d0 s0))) \/
   (exists m, errs1 = errs ++ [m] /\ ~ List.NoDup (technologists (slots sc d0 s0)))).
Proof.
  unfold verify_unique_step.
  destruct (length (set_list (technologists (slots sc d0 s0))) <?
            length (technologists (slots sc d0 s0)))%nat eqn:E.
  - split; [reflexivity|]; split; [reflexivity|]. split.
    + intros d s. cbn [slots set_slot].
      destruct ((d =? d0) && shift_eqb s s0); [|reflexivity].
      unfold unique_fix. rewrite E. reflexivity.
    + right. eexists; split; [reflexivity|].
      rewrite set_list_shorter in E.
      destruct (ListDec.NoDup_dec Z.eq_dec (technologists (slots sc d0 s0))); [discriminate|assumption].
  - split; [reflexivity|]; split; [reflexivity|]. split.
    + intros d s. destruct ((d =? d0) && shift_eqb s s0) eqn:F; [|reflexivity].
      apply andb_true_iff in F as [F1 F2]. apply Z.eqb_eq in F1. apply shift_eqb_eq in F2.
      subst. unfold unique_fix. rewrite E. reflexivity.
    + left. split; [reflexivity|]; split; [reflexivity|].
      rewrite set_list_shorter in E.
      destruct (ListDec.NoDup_dec Z.eq_dec (technologists (slots sc d0 s0))); [assumption|discriminate].
Qed.

Lemma verify_unique_fold (L : list (Date * Shift)) errs0 sc0 :
  let '(errs, sc') := fold_left (verify_unique_step set_list) L (errs0, sc0) in
  start_date sc' = start_date sc0 /\ end_date sc' = end_date sc0 /\
  (forall d s, slots sc' d s =
     if existsb (fun '(d', s') => (d =? d') && shift_eqb s s') L
     then unique_fix set_list (slots sc0 d s) else slots sc0 d s) /\
  (exists extra, errs = errs0 ++ extra /\
     (extra = [] <-> forall d s, In (d, s) L -> List.NoDup (technologists (slots sc0 d s)))).
Proof.
  revert errs0 sc0. induction L as [|[d0 s0] L IH]; intros errs0 sc0; cbn [fold_left].
  - split; [reflexivity|]; split; [reflexivity|]; split; [reflexivity|].
    exists []; split; [rewrite app_nil_r; reflexivity|]. split; [intros _ d s []|reflexivity].
  - pose proof (verify_unique_step_slots errs0 sc0 d0 s0) as Hs.
    destruct (verify_unique_step set_list (errs0, sc0) (d0, s0)) as [errs1 sc1].
    destruct Hs as [Hst [Hen [Hsl Hcase]]].
    specialize (IH errs1 sc1).
    destruct (fold_left (verify_unique_step set_list) L (errs1, sc1)) as [errs sc'].
    destruct IH as [Ist [Ien [Isl [extra [Ierr Iex]]]]].
    split; [congruence|]; split; [congruence|]. split.
    + intros d s. rewrite Isl, !Hsl. cbn [existsb].
      destruct ((d =? d0) && shift_eqb s s0) eqn:F; cbn [orb].
      * apply andb_true_iff in F as [F1 F2]. apply Z.eqb_eq in F1. apply shift_eqb_eq in F2.
        subst. destruct (existsb _ L); [apply unique_fix_idem|reflexivity].
      * reflexivity.
    + destruct Hcase as [[-> [-> Hnd]] | [m [-> Hnd]]].
      * exists extra. split; [exact Ierr|]. rewrite Iex. split.
        -- intros H d s [Heq|Hin]; [injection Heq as <- <-; exact Hnd | exact (H d s Hin)].
        -- intros H d s Hin. apply H. right; exact Hin.
      * exists (m :: extra). split; [rewrite Ierr, <- app_assoc; reflexivity|].
        split; [discriminate|]. intros H. exfalso. apply Hnd, H. left; reflexivity.
Qed.

End UniqueTechs.

Lemma schedule_dates_In sc d :
  In d (schedule_dates sc) <-> in_range sc d = true.
Proof.
  unfold schedule_dates, in_range. rewrite in_map_iff, andb_true_iff, !Z.leb_le. split.
  - intros [k [<- Hk]]. apply in_seq in Hk. lia.
  - intros H. exists (Z.to_nat (d - start_date sc)). split; [lia|]. apply in_seq. lia.
Qed.

Lemma mirror_check_sound st : mirror_check st = true -> mirror_consistent st.
Proof.
  unfold mirror_check, mirror_consistent. intros H h w d s Hw Hr.
  rewrite forallb_forall in H.
  specialize (H w (proj1 (list_elem_of_In _ _) (list_elem_of_lookup_2 _ _ _ Hw))).
  rewrite forallb_forall in H. specialize (H d (proj2 (schedule_dates_In _ _) Hr)).
  rewrite forallb_forall in H. specialize (H s ltac:(destruct s; cbn; tauto)).
  apply Bool.eqb_prop in H. unfold in_slot in H.
  assert (Hp : existsb (fun '(d', s') => (d' =? d) && shift_eqb s' s) (shifts w) = true
               <-> In (d, s) (shifts w)).
  { rewrite existsb_exists. split.
    - intros [[d' s'] [Hin E]]. apply andb_prop in E as [E1 E2].
      apply Z.eqb_eq in E1. apply shift_eqb_eq in E2. subst. exact Hin.
    - intros Hin. exists (d, s). split; [exact Hin|].
      rewrite Z.eqb_refl. apply shift_eqb_eq. reflexivity. }
  destruct (is_technologist w).
  - rewrite <- memZ_In, H. exact Hp.
  - destruct (engineer (slots (sched st) d s)) as [e|]; split; intros X.
    + injection X as ->. apply Hp. rewrite <- H. apply Z.eqb_refl.
    + apply Hp in X. rewrite <- H in X. apply Z.eqb_eq in X. subst. reflexivity.
    + discriminate.
    + apply Hp in X. congruence.
Qed.

Lemma schedule_slots_In sc d s :
  In (d, s) (schedule_slots sc) <-> in_range sc d = true.
Proof.
  unfold schedule_slots. rewrite in_flat_map. split.
  - intros [x [Hx Hm]]. apply in_map_iff in Hm as [s' [Heq _]]. injection Heq as <- <-.
    apply schedule_dates_In; exact Hx.
  - intros H. exists d. split; [apply schedule_dates_In; exact H|].
    apply in_map_iff. exists s. split; [reflexivity|]. destruct s; simpl; tauto.
Qed.

Lemma existsb_slot_In (L : list (Date * Shift)) d s :
  existsb (fun '(d', s') => (d =? d') && shift_eqb s s') L = true <-> In (d, s) L.
Proof.
  rewrite existsb_exists. split.
  - intros [[d' s'] [Hin E]]. apply andb_true_iff in E as [E1 E2].
    apply Z.eqb_eq in E1. apply shift_eqb_eq in E2. subst. exact Hin.
  - intros Hin. exists (d, s). split; [exact Hin|].
    apply andb_true_iff; split; [apply Z.eqb_refl | apply shift_eqb_eq; reflexivity].
Qed.

(** [verify_unique_assignments] leaves every slot of the period with its
    technologists listed once each (the same ones as before) and its engineer
    unchanged, touches no slot outside the period, keeps the period, and
    reports no error exactly when no slot of the period had a repeated
    technologist. *)
Theorem verify_unique_assignments_spec set_list sc :
  is_set_list set_list ->
  let '(errs, sc') := verify_unique_assignments set_list sc in
  start_date sc' = start_date sc /\ end_date sc' = end_date sc /\
  (forall d s, in_range sc d = true ->
     List.NoDup (technologists (slots sc' d s)) /\
     (forall x, In x (technologists (slots sc' d s)) <-> In x (technologists (slots sc d s))) /\
     engineer (slots sc' d s) = engineer (slots sc d s)) /\
  (forall d s, in_range sc d = false -> slots sc' d s = slots sc d s) /\
  (errs = [] <-> forall d s, in_range sc d = true -> List.NoDup (technologists (slots sc d s))).
Proof.
  intros Hok. unfold verify_unique_assignments.
  pose proof (verify_unique_fold set_list Hok (schedule_slots sc) [] sc) as H.
  destruct (fold_left _ _ _) as [errs sc'].
  destruct H as [Hst [Hen [Hsl [extra [-> Hex]]]]].
  split; [exact Hst|]; split; [exact Hen|]. split; [|split].
  - intros d s Hr. rewrite Hsl.
    assert (E : existsb (fun '(d', s') => (d =? d') && shift_eqb s s') (schedule_slots sc) = true)
      by (apply existsb_slot_In, schedule_slots_In; exact Hr).
    rewrite E. apply unique_fix_spec; exact Hok.
  - intros d s Hr. rewrite Hsl.
    destruct (existsb _ _) eqn:E; [|reflexivity].
    apply existsb_slot_In, schedule_slots_In in E. congruence.
  - rewrite app_nil_l, Hex. split.
    + intros Hall d s Hr. apply Hall. exact (proj2 (schedule_slots_In sc d s) Hr).
    + intros Hall d s Hin. apply Hall. exact (proj1 (schedule_slots_In sc d s) Hin).
Qed.

Lemma verify_unique_assignments_spec_witness :
  is_set_list (nodup Z.eq_dec) /\
  let '(errs, sc') := verify_unique_assignments (nodup Z.eq_dec) (sched rest_state) in
  start_date sc' = start_date (sched rest_state) /\ end_date sc' = end_date (sched rest_state) /\
  (forall d s, in_range (sched rest_state) d = true ->
     List.NoDup (technologists (slots sc' d s)) /\
     (forall x, In x (technologists (slots sc' d s)) <->
                In x (technologists (slots (sched rest_state) d s))) /\
     engineer (slots sc' d s) = engineer (slots (sched rest_state) d s)) /\
  (forall d s, in_range (sched rest_state) d = false ->
     slots sc' d s = slots (sched rest_state) d s) /\
  (errs = [] <-> forall d s, in_range (sched rest_state) d = true ->
     List.NoDup (technologists (slots (sched rest_state) d s))).
Proof.
  assert (H : is_set_list (nodup Z.eq_dec))
    by (split; intros; [apply NoDup_nodup | apply nodup_In]).
  split; [exact H|]. apply (verify_unique_assignments_spec (nodup Z.eq_dec) (sched rest_state) H).
Defined.

(** *** transfer_shift_safely *)

Lemma try_safe_transfers_spec st hf ht fw tw l :
  let '(b, st') := try_safe_transfers st hf ht fw tw l in
  (b = false /\ st' = st /\
   forall x, In x l -> safe_transfer_target st tw (fst x) (snd x) = false) \/
  (b = true /\ exists pre d s post, l = pre ++ (d, s) :: post /\
     (forall x, In x pre -> safe_transfer_target st tw (fst x) (snd x) = false) /\
     safe_transfer_target st tw d s = true /\
     st' = snd (assign_worker
                  {| sched := take_out_of_slot (sched st) fw d s (slots (sched st) d s);
                     store := <[hf := set_shifts fw (drop_shift d s (shifts fw))]> (store st) |}
                  ht d s)).
Proof.
  induction l as [|[d s] l IH]; cbn [try_safe_transfers].
  - left. split; [reflexivity|]. split; [reflexivity|]. intros x [].
  - assert (Hskip : safe_transfer_target st tw d s = false ->
      let '(b, st') := try_safe_transfers st hf ht fw tw l in
      (b = false /\ st' = st /\
       forall x, In x ((d, s) :: l) -> safe_transfer_target st tw (fst x) (snd x) = false) \/
      (b = true /\ exists pre d' s' post, (d, s) :: l = pre ++ (d', s') :: post /\
         (forall x, In x pre -> safe_transfer_target st tw (fst x) (snd x) = false) /\
         safe_transfer_target st tw d' s' = true /\
         st' = snd (assign_worker
                  {| sched := take_out_of_slot (sched st) fw d' s' (slots (sched st) d' s');
                     store := <[hf := set_shifts fw (drop_shift d' s' (shifts fw))]> (store st) |}
                  ht d' s'))).
    { intros Hf. destruct (try_safe_transfers st hf ht fw tw l) as [b st'].
      destruct IH as [[Hb [Hst Hall]] | [Hb [pre [d' [s' [post [Hl [Hpre [Hok Hst]]]]]]]]].
      - left. split; [exact Hb|]. split; [exact Hst|].
        intros x [<-|Hx]; [exact Hf | apply Hall, Hx].
      - right. split; [exact Hb|]. exists ((d, s) :: pre), d', s', post.
        split; [rewrite Hl; reflexivity|]. split; [|split; assumption].
        intros x [<-|Hx]; [exact Hf | apply Hpre, Hx]. }
    unfold safe_transfer_target in Hskip |- *.
    destruct (memZ d (days_off tw)) eqn:E1; [apply Hskip; reflexivity|].
    destruct (existsb (fun '(d0, _) => d0 =? d) (shifts tw)) eqn:E2;
      [apply Hskip; reflexivity|].
    destruct (check_night_to_day_transition tw d s || check_consecutive_shifts tw d s ||
              negb (check_adequate_rest tw d s)) eqn:E3; [apply Hskip; reflexivity|].
    unfold day_cache. destruct (in_range (sched st) d) eqn:E4; [|apply Hskip; reflexivity].
    right. split; [reflexivity|]. exists [], d, s, l.
    split; [reflexivity|]. split; [intros x []|].
    split; [rewrite E1, E2, E3, E4; reflexivity|reflexivity].
Qed.




(** [transfer_shift_safely] changes nothing when it returns [False]. When
    it returns [True] it has moved one shift [(d, s)] of [from_worker] to
    [to_worker]: [to_worker] had no day off and no shift on [d] and passed
    the three rule checks for it, [d] lies in the period, no later shift of
    [from_worker] passed these tests, [from_worker] lost [(d, s)] and
    [to_worker] gained it (given two distinct workers and a schedule whose
    slots agree with the workers' shift lists). *)
Theorem transfer_shift_safely_spec st hf ht fw tw :
  mirror_consistent st -> store st !! hf = Some fw -> store st !! ht = Some tw -> hf <> ht ->
  let '(b, st') := transfer_shift_safely st hf ht in
  (b = false -> st' = st) /\
  (b = true -> exists d s,
     In (d, s) (shifts fw) /\
     in_range (sched st) d = true /\
     ~ In d (days_off tw) /\
     (forall s', ~ In (d, s') (shifts tw)) /\
     check_night_to_day_transition tw d s = false /\
     check_consecutive_shifts tw d s = false /\
     check_adequate_rest tw d s = true /\
     (forall d' s', In (d', s') (shifts fw) -> d < d' ->
        safe_transfer_target st tw d' s' = false) /\
     store st' !! hf = Some (set_shifts fw (drop_shift d s (shifts fw))) /\
     store st' !! ht = Some (add_shift tw d s)).
Proof.
  intros Hm Hf Ht Hne. unfold transfer_shift_safely. rewrite Hf, Ht.
  set (l := sort_by (fun '(d, _) => - d) (shifts fw)).
  pose proof (try_safe_transfers_spec st hf ht fw tw l) as Hs.
  destruct (try_safe_transfers st hf ht fw tw l) as [b st'].
  destruct Hs as [[-> [-> _]] | [-> [pre [d [s [post [Hl [Hpre [Hok Hst]]]]]]]]].
  - split; [reflexivity | discriminate].
  - split; [discriminate|]. intros _. exists d, s.
    assert (Hin : In (d, s) (shifts fw)).
    { apply (sort_by_In (fun '(d, _) => - d)). fold l. rewrite Hl.
      apply in_or_app; right; left; reflexivity. }
    unfold safe_transfer_target in Hok.
    apply andb_true_iff in Hok as [Hok Hr]. apply andb_true_iff in Hok as [Hok Hc].
    apply andb_true_iff in Hok as [Hd Hsh].
    apply negb_true_iff in Hd, Hsh, Hc.
    apply orb_false_iff in Hc as [Hc Hrest]. apply orb_false_iff in Hc as [Hntd Hcons].
    apply negb_false_iff in Hrest.
    assert (Hnosh : forall s', ~ In (d, s') (shifts tw)).
    { intros s' Hs'. apply not_true_iff_false in Hsh. apply Hsh.
      apply existsb_exists. exists (d, s'). split; [exact Hs'|apply Z.eqb_refl]. }
    split; [exact Hin|]. split; [exact Hr|].
    split; [intros H; apply memZ_In in H; congruence|].
    split; [exact Hnosh|]. split; [exact Hntd|]. split; [exact Hcons|].
    split; [exact Hrest|]. split.
    + intros d' s' Hin' Hlt.
      assert (Hin'' : In (d', s') l) by (apply sort_by_In; exact Hin').
      rewrite Hl in Hin''. apply in_app_or in Hin'' as [Hp|[Heq|Hpost]].
      * apply (Hpre _ Hp).
      * injection Heq as -> ->. lia.
      * pose proof (sorted_after (fun '(d, _) => - d) pre post (d, s) (d', s')) as Ha.
        rewrite <- Hl in Ha. specialize (Ha (sort_by_sorted _ _) Hpost). lia.
    + subst st'. unfold assign_worker. cbn [store sched].
      assert (Hlen : (hf < length (store st))%nat) by (apply lookup_lt_Some in Hf; exact Hf).
      rewrite list_lookup_insert_ne by congruence. rewrite Ht.
      unfold assign_worker_obj, day_cache. rewrite take_out_of_slot_range, Hr.
      destruct (is_technologist tw) eqn:Etech.
      * assert (Hnm : memZ (id tw) (technologists
          (slots (take_out_of_slot (sched st) fw d s (slots (sched st) d s)) d s)) = false).
        { apply not_true_iff_false. intros Hmem. apply memZ_In in Hmem.
          apply take_out_of_slot_techs in Hmem.
          specialize (Hm ht tw d s Ht Hr). rewrite Etech in Hm.
          apply (Hnosh s), Hm, Hmem. }
        rewrite Hnm. cbn [snd store].
        split.
        -- rewrite list_lookup_insert_ne by congruence.
           rewrite list_lookup_insert_eq by exact Hlen. reflexivity.
        -- rewrite list_lookup_insert_eq; [reflexivity|].
           rewrite length_insert. apply lookup_lt_Some in Ht; exact Ht.
      * cbn [snd store]. split.
        -- rewrite list_lookup_insert_ne by congruence.
           rewrite list_lookup_insert_eq by exact Hlen. reflexivity.
        -- rewrite list_lookup_insert_eq; [reflexivity|].
           rewrite length_insert. apply lookup_lt_Some in Ht; exact Ht.
Qed.

(** *** Stable sort on a pair of keys *)
Section SortBy2.
Context {A : Type} (k1 k2 : A -> Z).

Local Abbreviation le2 := (lex_le k1 k2).

Lemma insert_by2_perm (x : A) (l : list A) : Permutation (insert_by2 k1 k2 x l) (x :: l).
Proof.
  induction l as [|y l IH]; simpl; [reflexivity|].
  destruct (_ || _); [reflexivity|].
  rewrite IH. apply perm_swap.
Qed.

Lemma sort_by2_In (x : A) (l : list A) : In x (sort_by2 k1 k2 l) <-> In x l.
Proof.
  unfold sort_by2.
  assert (H : forall acc, Permutation
            (fold_left (fun acc x => insert_by2 k1 k2 x acc) l acc) (l ++ acc)).
  { induction l as [|y l IH]; intros acc; simpl; [reflexivity|].
    rewrite IH, insert_by2_perm. apply Permutation_sym, Permutation_middle. }
  split; intros Hx.
  - eapply Permutation_in in Hx; [|apply H]. rewrite app_nil_r in Hx. exact Hx.
  - eapply Permutation_in; [apply Permutation_sym, H|]. rewrite app_nil_r. exact Hx.
Qed.

Lemma insert_by2_sorted (x : A) (l : list A) :
  StronglySorted le2 l -> StronglySorted le2 (insert_by2 k1 k2 x l).
Proof.
  induction l as [|y l IH]; intros Hs; simpl.
  - repeat constructor.
  - apply StronglySorted_inv in Hs as [Hl Hy].
    rewrite List.Forall_forall in Hy.
    destruct ((k1 x <? k1 y) || (k1 x =? k1 y) && (k2 x <? k2 y)) eqn:E.
    + assert (Hxy : le2 x y).
      { unfold lex_le. apply orb_true_iff in E as [E|E];
          [apply Z.ltb_lt in E; lia|].
        apply andb_true_iff in E as [E1 E2]. apply Z.eqb_eq in E1. apply Z.ltb_lt in E2. lia. }
      constructor; [constructor; [exact Hl|apply List.Forall_forall; exact Hy]|].
      constructor; [exact Hxy|]. apply List.Forall_forall. intros z Hz.
      specialize (Hy z Hz). unfold lex_le in *. lia.
    + assert (Hyx : le2 y x).
      { unfold lex_le. apply orb_false_iff in E as [E1 E2]. apply Z.ltb_ge in E1.
        destruct (k1 x =? k1 y) eqn:E3; cbn [andb] in E2.
        - apply Z.eqb_eq in E3. apply Z.ltb_ge in E2. lia.
        - apply Z.eqb_neq in E3. lia. }
      constructor; [apply IH, Hl|].
      apply List.Forall_forall. intros z Hz.
      eapply Permutation_in in Hz; [|apply insert_by2_perm].
      destruct Hz as [<-|Hz]; [exact Hyx | apply Hy, Hz].
Qed.

Lemma sort_by2_sorted (l : list A) : StronglySorted le2 (sort_by2 k1 k2 l).
Proof.
  unfold sort_by2. assert (H : StronglySorted le2 (@nil A)) by constructor.
  revert H. generalize (@nil A) as acc.
  induction l as [|x l IH]; intros acc Hacc; simpl; [exact Hacc|].
  apply IH, insert_by2_sorted, Hacc.
Qed.

Lemma sort_by2_head (l : list A) (x : A) (rest : list A) :
  sort_by2 k1 k2 l = x :: rest -> In x l /\ forall y, In y l -> le2 x y \/ x = y.
Proof.
  intros E. split; [apply sort_by2_In; rewrite E; left; reflexivity|].
  intros y Hy. apply sort_by2_In in Hy. rewrite E in Hy.
  destruct Hy as [<-|Hy]; [right; reflexivity|left].
  pose proof (sort_by2_sorted l) as Hs. rewrite E in Hs.
  apply StronglySorted_inv in Hs as [_ Hf]. rewrite List.Forall_forall in Hf. apply Hf, Hy.
Qed.
End SortBy2.

Lemma workers_of_In st hs h w :
  In (h, w) (workers_of st hs) <-> In h hs /\ store st !! h = Some w.
Proof.
  unfold workers_of. rewrite in_flat_map. split.
  - intros [h' [Hh Hw]]. destruct (store st !! h') eqn:E; [|destruct Hw].
    destruct Hw as [Heq|[]]. injection Heq as <- <-. split; assumption.
  - intros [Hh Hw]. exists h. split; [exact Hh|]. rewrite Hw. left; reflexivity.
Qed.

Lemma all_refs_In st h : In h (all_refs st) <-> is_Some (store st !! h).
Proof.
  unfold all_refs. rewrite in_seq, lookup_lt_is_Some. lia.
Qed.

(** *** liberate_day_for_worker *)



(** [liberate_day_for_worker] does nothing for a day outside the period;
    otherwise it always takes [(day, shift_type)] out of the worker's shifts.
    When it reports a replacement, the replacement is another worker of the
    same class (different handle and id) with no shift and no day off on
    that day, and no such worker has a smaller (total shifts, shifts of this
    type) pair; it then holds the shift (given slots that agree with the
    workers' shift lists), and no third worker is touched. Without a
    replacement only the worker itself changes. *)
Theorem liberate_day_for_worker_spec st h w day s :
  store st !! h = Some w ->
  let '(b, st') := liberate_day_for_worker st h day s in
  (in_range (sched st) day = false -> b = false /\ st' = st) /\
  (in_range (sched st) day = true ->
     store st' !! h = Some (set_shifts w (drop_shift day s (shifts w)))) /\
  (b = false -> forall h', h' <> h -> store st' !! h' = store st !! h') /\
  (b = true -> exists h' w',
     store st !! h' = Some w' /\ h' <> h /\
     is_technologist w' = is_technologist w /\ id w' <> id w /\
     (forall s', ~ In (day, s') (shifts w')) /\ ~ In day (days_off w') /\
     (forall h'' w'', store st !! h'' = Some w'' ->
        is_technologist w'' = is_technologist w -> id w'' <> id w ->
        (forall s', ~ In (day, s') (shifts w'')) -> ~ In day (days_off w'') ->
        get_shift_count w' < get_shift_count w'' \/
        (get_shift_count w' = get_shift_count w'' /\
         count_shift s (shifts w') <= count_shift s (shifts w''))) /\
     (mirror_consistent st -> store st' !! h' = Some (add_shift w' day s)) /\
     (forall h'', h'' <> h -> h'' <> h' -> store st' !! h'' = store st !! h'')).
Proof.
  intros Hw. unfold liberate_day_for_worker. rewrite Hw. unfold day_cache.
  destruct (in_range (sched st) day) eqn:Er.
  2:{ split; [intros _; split; reflexivity|]. split; [discriminate|].
      split; [intros _ h' _; reflexivity | discriminate]. }
  cbv zeta.
  set (w1 := set_shifts w (drop_shift day s (shifts w))).
  set (st1 := {| sched := take_out_of_slot (sched st) w day s (slots (sched st) day s);
                 store := <[h := w1]> (store st) |}).
  assert (Hlen : (h < length (store st))%nat) by (apply lookup_lt_Some in Hw; exact Hw).
  assert (H1h : store st1 !! h = Some w1) by (apply list_lookup_insert_eq; exact Hlen).
  assert (H1o : forall h', h' <> h -> store st1 !! h' = store st !! h')
    by (intros h' Hne; apply list_lookup_insert_ne; congruence).
  assert (Hpick : forall tech,
    tech = is_technologist w ->
    let '(b, st') :=
      match sort_by2 (fun hw => get_shift_count (snd hw))
                     (fun hw => count_shift s (shifts (snd hw)))
              (List.filter (fun hw => let t := snd hw in
                                      Bool.eqb (is_technologist t) tech &&
                                      negb (id t =? id w) &&
                                      negb (existsb (fun '(d, _) => d =? day) (shifts t)) &&
                                      negb (memZ day (days_off t)))
                           (workers_of st1 (all_refs st1))) with
      | (h', _) :: _ => (true, snd (assign_worker st1 h' day s))
      | [] => (false, st1)
      end in
    (true = false -> b = false /\ st' = st) /\
    (true = true -> store st' !! h = Some w1) /\
    (b = false -> forall h', h' <> h -> store st' !! h' = store st !! h') /\
    (b = true -> exists h' w',
       store st !! h' = Some w' /\ h' <> h /\
       is_technologist w' = is_technologist w /\ id w' <> id w /\
       (forall s', ~ In (day, s') (shifts w')) /\ ~ In day (days_off w') /\
       (forall h'' w'', store st !! h'' = Some w'' ->
          is_technologist w'' = is_technologist w -> id w'' <> id w ->
          (forall s', ~ In (day, s') (shifts w'')) -> ~ In day (days_off w'') ->
          get_shift_count w' < get_shift_count w'' \/
          (get_shift_count w' = get_shift_count w'' /\
           count_shift s (shifts w') <= count_shift s (shifts w''))) /\
       (mirror_consistent st -> store st' !! h' = Some (add_shift w' day s)) /\
       (forall h'', h'' <> h -> h'' <> h' -> store st' !! h'' = store st !! h''))).
  { intros tech Htech.
    destruct (sort_by2 _ _ _) as [|[h' w'] rest] eqn:Es; [split; [discriminate|]; split; [intros _; exact H1h|];
        split; [intros _; exact H1o|discriminate]|].
    apply sort_by2_head in Es as [Hin Hmin].
    apply filter_In in Hin as [Hin Hp]. apply workers_of_In in Hin as [_ Hw'].
    cbn [snd] in Hp.
    apply andb_true_iff in Hp as [Hp Hoff]. apply andb_true_iff in Hp as [Hp Hsh].
    apply andb_true_iff in Hp as [Hcl Hid].
    apply negb_true_iff in Hoff, Hsh, Hid. apply Z.eqb_neq in Hid.
    apply Bool.eqb_prop in Hcl.
    assert (Hne : h' <> h).
    { intros ->. rewrite H1h in Hw'. injection Hw' as <-. apply Hid. reflexivity. }
    rewrite H1o in Hw' by exact Hne.
    split; [discriminate|].
    split; [intros _; rewrite assign_worker_store_ne by congruence; exact H1h|].
    split; [discriminate|]. intros _. exists h', w'.
    split; [exact Hw'|]. split; [exact Hne|]. split; [congruence|]. split; [exact Hid|].
    assert (Hnosh : forall s', ~ In (day, s') (shifts w')).
    { intros s' Hs'. apply not_true_iff_false in Hsh. apply Hsh, existsb_exists.
      exists (day, s'). split; [exact Hs'|apply Z.eqb_refl]. }
    split; [exact Hnosh|].
    split; [intros Hm; apply memZ_In in Hm; congruence|]. split; [|split].
    - intros h'' w'' Hw'' Hcl'' Hid'' Hsh'' Hoff''.
      assert (Hne'' : h'' <> h).
      { intros ->. rewrite Hw in Hw''. injection Hw'' as <-. apply Hid''. reflexivity. }
      assert (Hin'' : In (h'', w'') (List.filter (fun hw => let t := snd hw in
                                      Bool.eqb (is_technologist t) tech &&
                                      negb (id t =? id w) &&
                                      negb (existsb (fun '(d, _) => d =? day) (shifts t)) &&
                                      negb (memZ day (days_off t)))
                           (workers_of st1 (all_refs st1)))).
      { apply filter_In. split.
        - apply workers_of_In. split; [|rewrite H1o by exact Hne''; exact Hw''].
          apply all_refs_In. rewrite H1o by exact Hne''. rewrite Hw''. eexists; reflexivity.
        - cbn [snd]. rewrite Hcl'', <- Htech, eqb_reflx. cbn [andb].
          apply andb_true_iff; split; [apply andb_true_iff; split|].
          + apply negb_true_iff, Z.eqb_neq; exact Hid''.
          + apply negb_true_iff, not_true_iff_false. intros Hex.
            apply existsb_exists in Hex as [[d0 s0] [Hd0 Ed]]. apply Z.eqb_eq in Ed. subst d0.
            exact (Hsh'' s0 Hd0).
          + apply negb_true_iff, not_true_iff_false. intros Hm. apply memZ_In in Hm. tauto. }
      destruct (Hmin _ Hin'') as [Hl|Heq]; [unfold lex_le in Hl; cbn [snd] in Hl; lia|].
      injection Heq as _ <-. right; split; [reflexivity|lia].
    - intros Hm. apply assign_worker_fresh_store.
      + rewrite H1o by exact Hne. exact Hw'.
      + cbn [sched st1]. rewrite take_out_of_slot_range. exact Er.
      + intros Ht Hin. cbn [sched st1] in Hin. apply take_out_of_slot_techs in Hin.
        specialize (Hm h' w' day s Hw' Er). rewrite Ht in Hm.
        exact (Hnosh s (proj1 Hm Hin)).
    - intros h'' Hh Hh'. rewrite assign_worker_store_ne by exact Hh'. apply H1o, Hh. }
  destruct (is_technologist w) eqn:Et.
  - destruct (_ <? TECHS_PER_SHIFT s); [apply Hpick; reflexivity | split; [discriminate|]; split; [intros _; exact H1h|];
        split; [intros _; exact H1o|discriminate]].
  - apply Hpick; reflexivity.
Qed.

(** *** verify_weekly_days_off *)

Lemma get_week_start_eq d : get_week_start d = 7 * ((d + 2) / 7) - 2.
Proof.
  unfold get_week_start, weekday.
  pose proof (Z.div_mod (d + 2) 7 ltac:(lia)). lia.
Qed.

Lemma weekday_monday q : weekday (7 * q - 2) = 0.
Proof.
  unfold weekday. replace (7 * q - 2 + 2) with (q * 7) by ring. apply Z.mod_mul. lia.
Qed.

Lemma weekday_range d : 0 <= weekday d < 7.
Proof. unfold weekday. apply Z.mod_pos_bound. lia. Qed.

Lemma back_to_monday_spec fuel d :
  (Z.to_nat (weekday d) <= fuel)%nat -> back_to_monday fuel d = get_week_start d.
Proof.
  unfold get_week_start.
  revert d. induction fuel as [|f IH]; intros d Hf; cbn [back_to_monday].
  - assert (weekday d = 0) by (pose proof (weekday_range d); lia). lia.
  - destruct (weekday d =? 0) eqn:E; [apply Z.eqb_eq in E; lia|].
    apply Z.eqb_neq in E.
    assert (Hp : weekday (d - 1) = weekday d - 1).
    { unfold weekday in *.
      pose proof (Z.div_mod (d + 2) 7 ltac:(lia)).
      pose proof (Z.mod_pos_bound (d + 2) 7 ltac:(lia)).
      pose proof (Z.div_mod (d - 1 + 2) 7 ltac:(lia)).
      pose proof (Z.mod_pos_bound (d - 1 + 2) 7 ltac:(lia)). lia. }
    rewrite IH by lia. lia.
Qed.

Lemma week_days_In m s e y :
  In y (List.filter (fun day => (s <=? day) && (day <=? e))
                    (map (fun i => m + Z.of_nat i) (seq 0 7))) <->
  s <= y <= e /\ m <= y <= m + 6.
Proof.
  rewrite filter_In, in_map_iff, andb_true_iff, !Z.leb_le. split.
  - intros [[i [<- Hi]] Hr]. apply in_seq in Hi. lia.
  - intros [Hr Hm]. split; [|exact Hr]. exists (Z.to_nat (y - m)).
    split; [lia|]. apply in_seq. lia.
Qed.

Lemma verify_weeks_In fuel m0 s e m wd :
  In (m, wd) (verify_weeks fuel m0 s e) <->
  exists k, (k < fuel)%nat /\ m = m0 + 7 * Z.of_nat k /\ m <= e /\
    wd = List.filter (fun day => (s <=? day) && (day <=? e))
                     (map (fun i => m + Z.of_nat i) (seq 0 7)) /\ wd <> [].
Proof.
  revert m0. induction fuel as [|f IH]; intros m0; cbn [verify_weeks].
  - split; [intros []|]. intros [k [Hk _]]. lia.
  - destruct (m0 <=? e) eqn:Ee.
    + apply Z.leb_le in Ee. rewrite in_app_iff, IH. split.
      * intros [H|[k [Hk [Hm [He [Hw Hn]]]]]].
        -- destruct (List.filter (fun day => (s <=? day) && (day <=? e))
                       (map (fun i => m0 + Z.of_nat i) (seq 0 7))) as [|y ys] eqn:Ew;
             [destruct H|].
           destruct H as [H|[]]. injection H as <- <-.
           exists 0%nat. split; [lia|]. split; [lia|]. split; [exact Ee|].
           split; [exact (eq_sym Ew) | discriminate].
        -- exists (S k). split; [lia|]. split; [lia|]. split; [exact He|]. split; assumption.
      * intros [k [Hk [Hm [He [Hw Hn]]]]]. destruct k as [|k].
        -- left. rewrite Z.add_0_r in Hm. subst m wd.
           destruct (List.filter (fun day => (s <=? day) && (day <=? e))
                       (map (fun i => m0 + Z.of_nat i) (seq 0 7))) as [|y ys] eqn:Ew;
             [congruence|]. cbv beta iota. left. reflexivity.
        -- right. exists k. split; [lia|]. split; [lia|]. split; [exact He|]. split; assumption.
    + apply Z.leb_gt in Ee. split; [intros []|]. intros [k [_ [Hm [He _]]]]. lia.
Qed.

Lemma weeks_check_iff (offs : list Date) s e :
  forallb (fun '(_, week_days) => existsb (fun day => memZ day week_days) offs)
    (verify_weeks (S (Z.to_nat ((e - back_to_monday 6 s) / 7))) (back_to_monday 6 s) s e)
  = true <->
  forall x, s <= x <= e ->
    exists y, In y offs /\ s <= y <= e /\ get_week_start y = get_week_start x.
Proof.
  rewrite back_to_monday_spec by (pose proof (weekday_range s); lia).
  rewrite get_week_start_eq.
  set (qs := (s + 2) / 7).
  rewrite forallb_forall. split.
  - intros H x Hx.
    set (q := (x + 2) / 7).
    assert (Hq : qs <= q) by (apply Z.div_le_mono; lia).
    assert (Hqe : q <= (e + 2) / 7) by (apply Z.div_le_mono; lia).
    assert (Hdiv : (e - (7 * qs - 2)) / 7 = (e + 2) / 7 - qs).
    { replace (e - (7 * qs - 2)) with (e + 2 + (- qs) * 7) by ring.
      rewrite Z.div_add by lia. ring. }
    assert (Hxm : get_week_start x = 7 * q - 2) by apply get_week_start_eq.
    pose proof (weekday_range x) as Hwx. unfold get_week_start in Hxm.
    set (wd := List.filter (fun day => (s <=? day) && (day <=? e))
                 (map (fun i => 7 * q - 2 + Z.of_nat i) (seq 0 7))).
    assert (Hin : In (7 * q - 2, wd)
                    (verify_weeks (S (Z.to_nat ((e - (7 * qs - 2)) / 7))) (7 * qs - 2) s e)).
    { apply verify_weeks_In. exists (Z.to_nat (q - qs)).
      split; [lia|]. split; [lia|]. split; [lia|]. split; [reflexivity|].
      intros Hn. assert (Hx' : In x wd) by (apply week_days_In; lia).
      rewrite Hn in Hx'. destruct Hx'. }
    specialize (H _ Hin). cbv beta iota in H.
    apply existsb_exists in H as [y [Hy Hm]]. apply memZ_In, week_days_In in Hm.
    exists y. split; [exact Hy|]. split; [lia|].
    unfold get_week_start. rewrite Hxm.
    symmetry. apply week_start_iff; [apply weekday_monday|]. unfold get_week_end. lia.
  - intros H [m wd] Hin. apply verify_weeks_In in Hin as [k [_ [Hm [_ [Hw Hn]]]]].
    assert (Hmon : weekday m = 0).
    { replace m with (7 * (qs + Z.of_nat k) - 2) by lia. apply weekday_monday. }
    destruct wd as [|x xs]; [congruence|].
    assert (Hx : In x (x :: xs)) by (left; reflexivity).
    rewrite Hw in Hx. apply week_days_In in Hx as [Hxr Hxm].
    destruct (H x Hxr) as [y [Hy [Hyr Hyw]]].
    assert (Hwx : m = get_week_start x)
      by (apply week_start_iff; [exact Hmon | unfold get_week_end; lia]).
    assert (Hwy : m <= y <= get_week_end m)
      by (apply week_start_iff; [exact Hmon | congruence]).
    apply existsb_exists. exists y. split; [exact Hy|].
    apply memZ_In. rewrite Hw. apply week_days_In. unfold get_week_end in Hwy. lia.
Qed.

(** [verify_weekly_days_off] returns [True] exactly when every listed
    worker, for every date of the period, has a day off inside the period
    in the same Monday-to-Sunday week. *)
Theorem verify_weekly_days_off_iff st techs engs :
  verify_weekly_days_off st techs engs = true <->
  forall h w, In h (techs ++ engs) -> store st !! h = Some w ->
    forall x, start_date (sched st) <= x <= end_date (sched st) ->
      exists y, In y (days_off w) /\
                start_date (sched st) <= y <= end_date (sched st) /\
                get_week_start y = get_week_start x.
Proof.
  unfold verify_weekly_days_off. rewrite forallb_forall. split.
  - intros H h w Hh Hw. apply weeks_check_iff.
    exact (H (h, w) (proj2 (workers_of_In _ _ _ _) (conj Hh Hw))).
  - intros H [h w] Hin. apply workers_of_In in Hin as [Hh Hw].
    cbn [snd]. apply weeks_check_iff. exact (H h w Hh Hw).
Qed.

(** *** find_additional_eligible_workers *)

Lemma classify_step_In date shift_type m l h w x :
  let r := classify_step date shift_type (m, l) (h, w) in
  In x (fst r ++ snd r) <->
  In x (m ++ l) \/ (x = (h, w) /\ classify_ok date shift_type (h, w) = true).
Proof.
  unfold classify_step, classify_ok; cbn [snd].
  destruct (memZ date (days_off w)), (existsb (fun '(d, _) => d =? date) (shifts w)),
    (check_night_to_day_transition w date shift_type), (shift_eqb shift_type Noche),
    (check_consecutive_shifts w date shift_type),
    (check_adequate_rest_relaxed w date shift_type);
    cbn [orb andb negb fst snd]; rewrite ?in_app_iff; cbn [In]; intuition congruence.
Qed.

Lemma classify_fold date shift_type (l : list (WorkerRef * Worker)) m0 l0 x :
  let r := fold_left (classify_step date shift_type) l (m0, l0) in
  In x (fst r ++ snd r) <->
  In x (m0 ++ l0) \/ (In x l /\ classify_ok date shift_type x = true).
Proof.
  revert m0 l0. induction l as [|[h w] l IH]; intros m0 l0; cbn [fold_left].
  - cbn [fst snd]. split; [tauto|]. intros [H|[[] _]]; exact H.
  - destruct (classify_step date shift_type (m0, l0) (h, w)) as [m1 l1] eqn:E.
    rewrite IH. pose proof (classify_step_In date shift_type m0 l0 h w x) as Hs.
    rewrite E in Hs. cbn [fst snd] in Hs. rewrite Hs. split.
    + intros [[H|[-> Hok]]|[H1 H2]]; [left; exact H| |right; split; [right|]; assumption].
      right; split; [left; reflexivity|exact Hok].
    + intros [H|[[<-|H1] H2]]; [left; left; exact H|left; right; split; [reflexivity|exact H2]|].
      right; split; assumption.
Qed.

(** [find_additional_eligible_workers] returns [already_eligible] followed
    by other handles only. Each added handle is one of [workers], not in
    [already_eligible], a worker with no shift on the date; a day off on the
    date or a night before a morning occur only for a night shift. Every
    worker of [workers] outside [already_eligible] with no day off and no
    shift on the date, and no night before a morning unless the shift is the
    night, is in the result. *)
Theorem find_additional_eligible_workers_spec st workers date s already :
  (exists rest,
     find_additional_eligible_workers st workers date s already = already ++ rest /\
     forall h, In h rest ->
       In h workers /\ ~ In h already /\
       exists w, store st !! h = Some w /\
         (forall s', ~ In (date, s') (shifts w)) /\
         (In date (days_off w) \/ check_night_to_day_transition w date s = true ->
          s = Noche)) /\
  (forall h w, In h workers -> ~ In h already -> store st !! h = Some w ->
     ~ In date (days_off w) -> (forall s', ~ In (date, s') (shifts w)) ->
     (check_night_to_day_transition w date s = true -> s = Noche) ->
     In h (find_additional_eligible_workers st workers date s already)).
Proof.
  unfold find_additional_eligible_workers.
  set (not_eligible := List.filter (fun hw => negb (existsb (Nat.eqb (fst hw)) already))
                                   (workers_of st workers)).
  set (k1 := fun hw : WorkerRef * Worker => get_shift_count (snd hw)).
  set (k2 := fun hw : WorkerRef * Worker => count_shift s (shifts (snd hw))).
  set (cl := fold_left (classify_step date s) not_eligible ([], [])).
  assert (Hne : forall h w, In (h, w) not_eligible <->
                  In h workers /\ store st !! h = Some w /\ ~ In h already).
  { intros h w. unfold not_eligible. rewrite filter_In, workers_of_In. cbn [fst].
    rewrite negb_true_iff, <- not_true_iff_false, existsb_exists. split.
    - intros [[Hh Hw] Hn]. split; [exact Hh|]. split; [exact Hw|].
      intros Ha. apply Hn. exists h. split; [exact Ha | apply Nat.eqb_refl].
    - intros [Hh [Hw Hn]]. split; [split; assumption|].
      intros [h' [Ha E]]. apply Nat.eqb_eq in E. subst h'. exact (Hn Ha). }
  assert (Hcl : forall x, In x (fst cl ++ snd cl) <->
                  In x not_eligible /\ classify_ok date s x = true).
  { intros x. unfold cl. rewrite classify_fold. cbn [app]. split; [|intros; right; assumption].
    intros [[]|H]; exact H. }
  assert (Hsorted : forall h, In h (map fst (sort_by2 k1 k2 (fst cl)) ++
                                    map fst (sort_by2 k1 k2 (snd cl))) <->
                     exists w, In (h, w) not_eligible /\ classify_ok date s (h, w) = true).
  { intros h. rewrite <- map_app, in_map_iff. split.
    - intros [[h' w] [Heq Hin]]. cbn [fst] in Heq. subst h'. exists w.
      apply Hcl. apply in_app_or in Hin as [Hin|Hin]; apply sort_by2_In in Hin;
        apply in_or_app; [left|right]; exact Hin.
    - intros [w Hw]. exists (h, w). split; [reflexivity|].
      apply Hcl, in_app_or in Hw as [Hin|Hin]; apply in_or_app; [left|right];
        apply sort_by2_In; exact Hin. }
  assert (Hok : forall h w, classify_ok date s (h, w) = true ->
     (forall s', ~ In (date, s') (shifts w)) /\
     (In date (days_off w) \/ check_night_to_day_transition w date s = true -> s = Noche)).
  { intros h w H. unfold classify_ok in H. cbn [snd] in H.
    apply andb_true_iff in H as [H H3]. apply andb_true_iff in H as [H1 H2].
    apply negb_true_iff in H1, H2. split.
    - intros s' Hs'. apply not_true_iff_false in H2. apply H2, existsb_exists.
      exists (date, s'). split; [exact Hs'|apply Z.eqb_refl].
    - intros [Hd|Hn].
      + apply memZ_In in Hd. congruence.
      + rewrite Hn in H3. cbn [negb orb] in H3. apply shift_eqb_eq. exact H3. }
  split.
  - destruct (shift_eqb s Noche && _) eqn:Eb.
    + eexists. split; [reflexivity|]. intros h Hin.
      rewrite app_assoc in Hin. apply in_app_or in Hin as [Hin|Hin].
      * apply Hsorted in Hin as [w [Hw Hc]]. apply Hne in Hw as [Hh [Hw Ha]].
        split; [exact Hh|]. split; [exact Ha|]. exists w. split; [exact Hw|]. exact (Hok h w Hc).
      * apply in_map_iff in Hin as [[h' w] [Heq Hin]]. cbn [fst] in Heq. subst h'.
        apply sort_by2_In, filter_In in Hin as [Hin Hf]. cbn [snd] in Hf.
        apply Hne in Hin as [Hh [Hw Ha]].
        apply andb_true_iff in Eb as [Eb _]. apply shift_eqb_eq in Eb.
        split; [exact Hh|]. split; [exact Ha|]. exists w. split; [exact Hw|]. split.
        -- apply andb_true_iff in Hf as [_ Hf]. apply negb_true_iff in Hf.
           intros s' Hs'. apply not_true_iff_false in Hf. apply Hf, existsb_exists.
           exists (date, s'). split; [exact Hs'|apply Z.eqb_refl].
        -- intros _. exact Eb.
    + eexists. split; [reflexivity|]. intros h Hin.
      apply Hsorted in Hin as [w [Hw Hc]]. apply Hne in Hw as [Hh [Hw Ha]].
      split; [exact Hh|]. split; [exact Ha|]. exists w. split; [exact Hw|]. exact (Hok h w Hc).
  - intros h w Hh Ha Hw Hd Hs Hn.
    assert (Hin : In h (map fst (sort_by2 k1 k2 (fst cl)) ++ map fst (sort_by2 k1 k2 (snd cl)))).
    { apply Hsorted. exists w. split; [apply Hne; tauto|].
      unfold classify_ok. cbn [snd].
      apply andb_true_iff; split; [apply andb_true_iff; split|].
      - apply negb_true_iff, not_true_iff_false. intros Hm. apply memZ_In in Hm. tauto.
      - apply negb_true_iff, not_true_iff_false. intros Hex.
        apply existsb_exists in Hex as [[d0 s0] [Hd0 E]]. apply Z.eqb_eq in E. subst d0.
        exact (Hs s0 Hd0).
      - destruct (check_night_to_day_transition w date s) eqn:En; [|reflexivity].
        rewrite (Hn eq_refl). reflexivity. }
    destruct (shift_eqb s Noche && _); apply in_or_app; right;
      [rewrite app_assoc; apply in_or_app; left|]; exact Hin.
Qed.

(** *** remove_assignments *)

Lemma drop_shift_In date s l x :
  In x (drop_shift date s l) <-> In x l /\ x <> (date, s).
Proof.
  unfold drop_shift. rewrite filter_In. destruct x as [d s'].
  rewrite negb_true_iff, <- not_true_iff_false, andb_true_iff, Z.eqb_eq, shift_eqb_eq.
  split; intros [H1 H2]; split; try exact H1.
  - intros Heq. injection Heq as -> ->. tauto.
  - intros [-> ->]. apply H2. reflexivity.
Qed.

Lemma drop_shift_idem date s l : drop_shift date s (drop_shift date s l) = drop_shift date s l.
Proof.
  unfold drop_shift. induction l as [|[d s'] l IH]; [reflexivity|]. cbn [List.filter].
  destruct (negb ((d =? date) && shift_eqb s' s)) eqn:E; [|exact IH].
  cbn [List.filter]. rewrite E, IH. reflexivity.
Qed.

Lemma remove_fold date s (L : list WorkerRef) st0 :
  let st' := fold_left (fun st h => match store st !! h with
                              | Some w => set_worker st h
                                            (set_shifts w (drop_shift date s (shifts w)))
                              | None => st end) L st0 in
  sched st' = sched st0 /\
  forall h, store st' !! h =
    if existsb (Nat.eqb h) L
    then option_map (fun w => set_shifts w (drop_shift date s (shifts w))) (store st0 !! h)
    else store st0 !! h.
Proof.
  revert st0. induction L as [|h0 L IH]; intros st0; cbn [fold_left existsb].
  - split; [reflexivity|]. intros h. reflexivity.
  - set (st1 := match store st0 !! h0 with
                | Some w => set_worker st0 h0 (set_shifts w (drop_shift date s (shifts w)))
                | None => st0 end).
    assert (H1s : sched st1 = sched st0) by (unfold st1; destruct (store st0 !! h0); reflexivity).
    assert (H1h : forall h, store st1 !! h =
      if Nat.eqb h h0
      then option_map (fun w => set_shifts w (drop_shift date s (shifts w))) (store st0 !! h)
      else store st0 !! h).
    { intros h. unfold st1. destruct (Nat.eqb h h0) eqn:E.
      - apply Nat.eqb_eq in E. subst h.
        destruct (store st0 !! h0) eqn:Ew; [|exact Ew].
        cbn [set_worker store]. apply list_lookup_insert_eq.
        apply lookup_lt_Some in Ew; exact Ew.
      - apply Nat.eqb_neq in E.
        destruct (store st0 !! h0); [|reflexivity].
        cbn [set_worker store]. apply list_lookup_insert_ne. congruence. }
    destruct (IH st1) as [Is Ih]. split; [congruence|]. intros h. rewrite Ih, H1h.
    destruct (Nat.eqb h h0) eqn:E; cbn [orb].
    + destruct (existsb (Nat.eqb h) L); [|reflexivity].
      destruct (store st0 !! h); [|reflexivity]. cbn [option_map].
      unfold set_shifts; cbn [shifts id is_technologist earnings days_off].
      rewrite drop_shift_idem. reflexivity.
    + destruct (existsb (Nat.eqb h) L); [|reflexivity].
      rewrite ?E. reflexivity.
Qed.

(** [remove_assignments] does nothing for a date outside the period.
    Otherwise it empties the slot, leaves every other slot and the period
    as they were, drops the slot from the shift list of exactly the workers
    [in_slot] picks (no other field of any worker changes, earnings
    included), and keeps the slots and the workers' shift lists in
    agreement. *)
Theorem remove_assignments_spec st date s :
  let st' := remove_assignments st date s in
  (in_range (sched st) date = false -> st' = st) /\
  (in_range (sched st) date = true ->
     start_date (sched st') = start_date (sched st) /\
     end_date (sched st') = end_date (sched st) /\
     slots (sched st') date s = {| technologists := []; engineer := None |} /\
     (forall d s', (d, s') <> (date, s) -> slots (sched st') d s' = slots (sched st) d s') /\
     (forall h, store st' !! h =
        option_map (fun w => if in_slot (slots (sched st) date s) w
                             then set_shifts w (drop_shift date s (shifts w)) else w)
                   (store st !! h))) /\
  (mirror_consistent st -> mirror_consistent st').
Proof.
  cbv zeta.
  assert (Hmain : in_range (sched st) date = true ->
     let st' := remove_assignments st date s in
     start_date (sched st') = start_date (sched st) /\
     end_date (sched st') = end_date (sched st) /\
     slots (sched st') date s = {| technologists := []; engineer := None |} /\
     (forall d s', (d, s') <> (date, s) -> slots (sched st') d s' = slots (sched st) d s') /\
     (forall h, store st' !! h =
        option_map (fun w => if in_slot (slots (sched st) date s) w
                             then set_shifts w (drop_shift date s (shifts w)) else w)
                   (store st !! h))).
  { intros Hr. cbv zeta. unfold remove_assignments, day_cache. rewrite Hr. cbv zeta.
    match goal with |- context [fold_left ?f ?L ?st1] =>
      pose proof (remove_fold date s L st1) as [Hs Hh] end.
    cbv zeta in Hs, Hh. rewrite Hs. cbn [sched set_slot start_date end_date slots].
    split; [reflexivity|]. split; [reflexivity|]. split.
    { rewrite Z.eqb_refl. replace (shift_eqb s s) with true
        by (symmetry; apply shift_eqb_eq; reflexivity). reflexivity. }
    split.
    { intros d s' Hne. destruct ((d =? date) && shift_eqb s' s) eqn:E; [|reflexivity].
      apply andb_true_iff in E as [E1 E2]. apply Z.eqb_eq in E1. apply shift_eqb_eq in E2.
      subst. contradiction. }
    intros h. rewrite Hh. cbn [store].
    destruct (store st !! h) as [w|] eqn:Ew;
      [|destruct (existsb _ _); reflexivity].
    cbn [option_map].
    assert (Hex : existsb (Nat.eqb h)
       (List.filter (fun h => match store st !! h with
                              | Some w => is_technologist w &&
                                          memZ (id w) (technologists (slots (sched st) date s))
                              | None => false end) (all_refs st) ++
        List.filter (fun h => match store st !! h with
                              | Some w => negb (is_technologist w) &&
                                          match engineer (slots (sched st) date s) with
                                          | Some e => id w =? e | None => false end
                              | None => false end) (all_refs st)) =
       in_slot (slots (sched st) date s) w).
    { assert (Hall : In h (all_refs st)) by (apply all_refs_In; rewrite Ew; eexists; reflexivity).
      unfold in_slot. destruct (existsb _ _) eqn:E.
      - apply existsb_exists in E as [h' [Hin E]]. apply Nat.eqb_eq in E. subst h'.
        apply in_app_or in Hin as [Hin|Hin]; apply filter_In in Hin as [_ Hp];
          rewrite Ew in Hp; destruct (is_technologist w); cbn [andb negb] in Hp;
          first [discriminate | symmetry; exact Hp].
      - symmetry. apply not_true_iff_false. intros Hp. apply not_true_iff_false in E.
        apply E, existsb_exists. exists h. split; [|apply Nat.eqb_refl].
        apply in_or_app. destruct (is_technologist w) eqn:Et; [left|right];
          apply filter_In; (split; [exact Hall|]); rewrite Ew, Et; exact Hp. }
    rewrite Hex. destruct (in_slot _ _); reflexivity. }
  split; [|split; [exact Hmain|]].
  - intros Hr. unfold remove_assignments, day_cache. rewrite Hr. reflexivity.
  - intros Hm. destruct (in_range (sched st) date) eqn:Hr.
    2:{ unfold remove_assignments, day_cache. rewrite Hr. exact Hm. }
    destruct (Hmain eq_refl) as [Hst [Hen [Hslot [Hoth Hh]]]].
    intros h w' d s' Hw' Hd.
    assert (Hd0 : in_range (sched st) d = true) by (unfold in_range in *; rewrite <- Hst, <- Hen; exact Hd).
    rewrite Hh in Hw'. destruct (store st !! h) as [w|] eqn:Ew; [|discriminate].
    cbn [option_map] in Hw'. injection Hw' as <-.
    pose proof (Hm h w d s' Ew Hd0) as Hmw.
    destruct (decide ((d, s') = (date, s))) as [Heq|Hne].
    + injection Heq as -> ->. rewrite Hslot. cbn [technologists engineer].
      unfold in_slot in *. destruct (is_technologist w) eqn:Et.
      * destruct (memZ (id w) (technologists (slots (sched st) date s))) eqn:Em;
          cbn [set_shifts is_technologist shifts]; rewrite Et.
        -- rewrite drop_shift_In. split; [intros []|]. intros [_ H]. exfalso; apply H; reflexivity.
        -- split; [intros []|]. intros Hin. apply Hmw, memZ_In in Hin. congruence.
      * destruct (engineer (slots (sched st) date s)) as [e|] eqn:Ee.
        -- destruct (id w =? e) eqn:Ei; cbn [set_shifts is_technologist shifts id]; rewrite Et.
           ++ rewrite drop_shift_In. split; [discriminate|]. intros [_ H]. exfalso; apply H; reflexivity.
           ++ split; [discriminate|]. intros Hin. apply Hmw in Hin. injection Hin as Hie. rewrite Hie in Ei.
              rewrite Z.eqb_refl in Ei. discriminate.
        -- rewrite Et. split; [discriminate|]. intros Hin. apply Hmw in Hin. discriminate.
    + rewrite (Hoth d s' Hne).
      assert (Hsh : In (d, s') (shifts (if in_slot (slots (sched st) date s) w
                                        then set_shifts w (drop_shift date s (shifts w)) else w))
                    <-> In (d, s') (shifts w)).
      { destruct (in_slot _ _); [|reflexivity]. cbn [set_shifts shifts].
        rewrite drop_shift_In. tauto. }
      assert (Hit : is_technologist (if in_slot (slots (sched st) date s) w
                                     then set_shifts w (drop_shift date s (shifts w)) else w)
                    = is_technologist w /\
                    id (if in_slot (slots (sched st) date s) w
                        then set_shifts w (drop_shift date s (shifts w)) else w) = id w)
        by (destruct (in_slot _ _); split; reflexivity).
      destruct Hit as [Hit Hid]. rewrite Hit, Hid.
      destruct (is_technologist w); rewrite Hsh; exact Hmw.
Qed.

Lemma transfer_shift_safely_spec_witness :
  exists fw tw,
  mirror_consistent engineer_shift_state /\
  store engineer_shift_state !! 1%nat = Some fw /\
  store engineer_shift_state !! 2%nat = Some tw /\ (1 <> 2)%nat /\
  shifts fw = [(2, Manana); (4, Tarde)] /\
  fst (transfer_shift_safely engineer_shift_state 1 2) = true /\
  let '(b, st') := transfer_shift_safely engineer_shift_state 1 2 in
  (b = false -> st' = engineer_shift_state) /\
  (b = true -> exists d s,
     In (d, s) (shifts fw) /\
     in_range (sched engineer_shift_state) d = true /\
     ~ In d (days_off tw) /\
     (forall s', ~ In (d, s') (shifts tw)) /\
     check_night_to_day_transition tw d s = false /\
     check_consecutive_shifts tw d s = false /\
     check_adequate_rest tw d s = true /\
     (forall d' s', In (d', s') (shifts fw) -> d < d' ->
        safe_transfer_target engineer_shift_state tw d' s' = false) /\
     store st' !! 1%nat = Some (set_shifts fw (drop_shift d s (shifts fw))) /\
     store st' !! 2%nat = Some (add_shift tw d s)).
Proof.
  assert (Hm : mirror_consistent engineer_shift_state)
    by (apply mirror_check_sound; vm_compute; reflexivity).
  eexists _, _.
  split; [exact Hm|]. split; [vm_compute; reflexivity|]. split; [vm_compute; reflexivity|].
  split; [lia|]. split; [vm_compute; reflexivity|]. split; [vm_compute; reflexivity|].
  apply (transfer_shift_safely_spec engineer_shift_state 1 2 _ _ Hm);
    [vm_compute; reflexivity | vm_compute; reflexivity | lia].
Defined.

Lemma liberate_day_for_worker_spec_witness :
  exists w,
  store engineer_shift_state !! 1%nat = Some w /\
  In (2, Manana) (shifts w) /\
  fst (liberate_day_for_worker engineer_shift_state 1 2 Manana) = true /\
  let '(b, st') := liberate_day_for_worker engineer_shift_state 1 2 Manana in
  (in_range (sched engineer_shift_state) 2 = false -> b = false /\ st' = engineer_shift_state) /\
  (in_range (sched engineer_shift_state) 2 = true ->
     store st' !! 1%nat = Some (set_shifts w (drop_shift 2 Manana (shifts w)))) /\
  (b = false -> forall h', h' <> 1%nat ->
     store st' !! h' = store engineer_shift_state !! h') /\
  (b = true -> exists h' w',
     store engineer_shift_state !! h' = Some w' /\ h' <> 1%nat /\
     is_technologist w' = is_technologist w /\ id w' <> id w /\
     (forall s', ~ In (2, s') (shifts w')) /\ ~ In 2 (days_off w') /\
     (forall h'' w'', store engineer_shift_state !! h'' = Some w'' ->
        is_technologist w'' = is_technologist w -> id w'' <> id w ->
        (forall s', ~ In (2, s') (shifts w'')) -> ~ In 2 (days_off w'') ->
        get_shift_count w' < get_shift_count w'' \/
        (get_shift_count w' = get_shift_count w'' /\
         count_shift Manana (shifts w') <= count_shift Manana (shifts w''))) /\
     (mirror_consistent engineer_shift_state -> store st' !! h' = Some (add_shift w' 2 Manana)) /\
     (forall h'', h'' <> 1%nat -> h'' <> h' ->
        store st' !! h'' = store engineer_shift_state !! h'')).
Proof.
  eexists.
  split; [vm_compute; reflexivity|]. split; [vm_compute; tauto|].
  split; [vm_compute; reflexivity|].
  apply (liberate_day_for_worker_spec engineer_shift_state 1 _ 2 Manana).
  vm_compute; reflexivity.
Defined.

(** *** extract_tech_count *)

Lemma list_ascii_of_string_app (a b : string) :
  list_ascii_of_string (a ++ b) = list_ascii_of_string a ++ list_ascii_of_string b.
Proof. induction a as [|c a IH]; cbn; [reflexivity|]. rewrite IH. reflexivity. Qed.

Lemma digit_run_digits (ds l : list ascii) :
  forallb is_digit ds = true -> (forall c l', l = c :: l' -> is_digit c = false) ->
  digit_run (ds ++ l) = (ds, l).
Proof.
  intros Hd Hl. induction ds as [|c ds IH]; cbn [app].
  - destruct l as [|c l']; [reflexivity|]. cbn [digit_run]. rewrite (Hl c l' eq_refl). reflexivity.
  - cbn [forallb] in Hd. apply andb_true_iff in Hd as [Hc Hd].
    cbn [digit_run]. rewrite Hc, IH by exact Hd. reflexivity.
Qed.

Lemma search_tech_count_nondigits (x l : list ascii) :
  forallb (fun c => negb (is_digit c)) x = true ->
  search_tech_count (x ++ l) = search_tech_count l.
Proof.
  induction x as [|c x IH]; intros H; [reflexivity|].
  cbn [forallb] in H. apply andb_true_iff in H as [Hc H]. apply negb_true_iff in Hc.
  cbn [app search_tech_count digit_run]. rewrite Hc. apply IH, H.
Qed.

Lemma digit_run_dash (x r : list ascii) :
  (forall c, In c x -> is_digit c = true \/ c = "-"%char) ->
  (forall c r', r = c :: r' -> is_digit c = false) ->
  snd (digit_run (x ++ r)) = r \/ exists t, snd (digit_run (x ++ r)) = "-"%char :: t.
Proof.
  intros Hx Hr. induction x as [|c x IH]; cbn [app].
  - left. destruct r as [|c r']; [reflexivity|]. cbn [digit_run]. rewrite (Hr c r' eq_refl).
    reflexivity.
  - cbn [digit_run]. destruct (is_digit c) eqn:Ec.
    + destruct (digit_run (x ++ r)) as [w rr] eqn:E. cbn [snd].
      exact (IH (fun c' Hc' => Hx c' (or_intror Hc'))).
    + right. exists (x ++ r). cbn [snd].
      destruct (Hx c (or_introl eq_refl)) as [H|H]; [congruence|]. rewrite H. reflexivity.
Qed.

Lemma search_tech_count_skip (x r : list ascii) :
  (forall c, In c x -> is_digit c = true \/ c = "-"%char) ->
  (forall c r', r = c :: r' -> is_digit c = false) ->
  list_prefix key_tech_count r = false ->
  search_tech_count (x ++ r) = search_tech_count r.
Proof.
  intros Hx Hr Hk. induction x as [|c x IH]; [reflexivity|].
  cbn [app search_tech_count].
  pose proof (digit_run_dash (c :: x) r Hx Hr) as Hd. cbn [app] in Hd.
  rewrite <- IH by (intros c' Hc'; apply Hx; right; exact Hc').
  destruct (digit_run (c :: x ++ r)) as [[|y ds] rest]; [reflexivity|].
  cbn [snd] in Hd. destruct Hd as [->|[t ->]]; rewrite ?Hk; reflexivity.
Qed.

Lemma digit_char_spec k :
  0 <= k < 10 -> is_digit (digit_char k) = true /\ digit_val (digit_char k) = k.
Proof.
  intros Hk. unfold is_digit, digit_val, digit_char.
  rewrite nat_ascii_embedding by lia. split; [apply andb_true_iff; split; apply Nat.leb_le; lia|].
  lia.
Qed.

Lemma digits_aux_S f n acc :
  digits_aux (S f) n acc =
  if n <? 10 then String (digit_char (n mod 10)) acc
  else digits_aux f (n / 10) (String (digit_char (n mod 10)) acc).
Proof. reflexivity. Qed.

Lemma digits_aux_spec fuel n acc :
  0 <= n < 10 ^ Z.of_nat (S fuel) ->
  exists L, list_ascii_of_string (digits_aux (S fuel) n acc) = L ++ list_ascii_of_string acc /\
    L <> [] /\ forallb is_digit L = true /\
    forall z, fold_left (fun acc c => acc * 10 + digit_val c) L z = z * 10 ^ Z.of_nat (length L) + n.
Proof.
  revert n acc. induction fuel as [|f IH]; intros n acc Hn; rewrite digits_aux_S;
    (assert (Hm : 0 <= n mod 10 < 10) by (apply Z.mod_pos_bound; lia));
    destruct (digit_char_spec (n mod 10) Hm) as [Hdig Hval];
    destruct (n <? 10) eqn:E.
  1, 3: apply Z.ltb_lt in E; exists [digit_char (n mod 10)];
      split; [reflexivity|]; split; [discriminate|]; split; [cbn; rewrite Hdig; reflexivity|];
      intros z; cbn [fold_left List.length]; rewrite Hval, Z.mod_small by lia; lia.
  - apply Z.ltb_ge in E. cbn in Hn. lia.
  - apply Z.ltb_ge in E.
    assert (Hn' : 0 <= n / 10 < 10 ^ Z.of_nat (S f)).
    { split; [apply Z.div_pos; lia|]. apply Z.div_lt_upper_bound; [lia|].
      rewrite (Nat2Z.inj_succ (S f)), Z.pow_succ_r in Hn by lia. lia. }
    destruct (IH (n / 10) (String (digit_char (n mod 10)) acc) Hn') as [L [HL [Hne [Hd Hf]]]].
    exists (L ++ [digit_char (n mod 10)]).
    split; [rewrite HL, <- app_assoc; reflexivity|].
    split; [destruct L; discriminate|].
    split; [rewrite forallb_app, Hd; cbn; rewrite Hdig; reflexivity|].
    intros z. rewrite fold_left_app, Hf. cbn [fold_left].
    rewrite length_app, Nat2Z.inj_add, Z.pow_add_r by lia. cbn [List.length].
    rewrite Hval. pose proof (Z.div_mod n 10 ltac:(lia)). cbn [Z.of_nat]. lia.
Qed.

Lemma str_of_Z_digits n :
  0 <= n ->
  exists L, list_ascii_of_string (str_of_Z n) = L /\ L <> [] /\ forallb is_digit L = true /\
    py_int L = n.
Proof.
  intros Hn. unfold str_of_Z. destruct (n <? 0) eqn:E; [apply Z.ltb_lt in E; lia|].
  assert (Hb : 0 <= n < 10 ^ Z.of_nat (S (Z.to_nat (Z.log2 (Z.abs n))))).
  { split; [exact Hn|]. rewrite Z.abs_eq by exact Hn.
    destruct (Z.eq_dec n 0) as [->|Hnz]; [cbn; lia|].
    pose proof (Z.log2_spec n ltac:(lia)) as [_ Hl].
    pose proof (Z.log2_nonneg n).
    rewrite Nat2Z.inj_succ, Z2Nat.id by lia.
    eapply Z.lt_le_trans; [exact Hl|]. apply Z.pow_le_mono_l. lia. }
  destruct (digits_aux_spec _ n EmptyString Hb) as [L [HL [Hne [Hd Hf]]]].
  exists L. rewrite HL, app_nil_r. split; [reflexivity|]. split; [exact Hne|].
  split; [exact Hd|]. unfold py_int. rewrite Hf. lia.
Qed.

Lemma fmt_date_chars d c :
  In c (list_ascii_of_string (fmt_date d)) -> is_digit c = true \/ c = "-"%char.
Proof.
  intros Hin. destruct (is_digit c) eqn:Ed; [left; reflexivity|right].
  destruct (Ascii.ascii_dec c "-") as [E|Hne]; [exact E|exfalso].
  apply (lacks_In c (fmt_date d)); [|exact Hin].
  apply fmt_date_lacks; [|exact Hne].
  unfold is_digit in Ed. intros H48. apply andb_false_iff in Ed as [E|E];
    [apply Nat.leb_gt in E | apply Nat.leb_gt in E]; lia.
Qed.

Lemma extract_tech_count_msg d s actual required :
  0 <= actual -> extract_tech_count (tech_count_msg d s actual required) = actual.
Proof.
  intros Ha. unfold extract_tech_count, tech_count_msg.
  destruct (str_of_Z_digits actual Ha) as [L [HL [Hne [Hd Hv]]]].
  rewrite !list_ascii_of_string_app, HL.
  change (list_ascii_of_string "Error en ") with
    ["E"; "r"; "r"; "o"; "r"; " "; "e"; "n"; " "]%char.
  change (["E"; "r"; "r"; "o"; "r"; " "; "e"; "n"; " "]%char ++ ?t) with
    (["E"; "r"; "r"; "o"; "r"; " "; "e"; "n"; " "]%char ++ t).
  rewrite search_tech_count_nondigits by reflexivity.
  rewrite search_tech_count_skip;
    [| apply fmt_date_chars
     | intros c r' E; cbn in E; injection E as <- _; reflexivity
     | destruct s; reflexivity].
  rewrite app_assoc.
  rewrite search_tech_count_nondigits by (destruct s; reflexivity).
  rewrite search_tech_count_nondigits by reflexivity.
  destruct L as [|x ds]; [congruence|].
  match goal with |- context [search_tech_count ((x :: ds) ++ ?t)] =>
    assert (Hr : digit_run ((x :: ds) ++ t) = (x :: ds, t))
      by (apply digit_run_digits; [exact Hd|];
          intros c r' E; cbn in E; injection E as <- _; reflexivity);
    assert (Hs : search_tech_count ((x :: ds) ++ t) =
                 match digit_run ((x :: ds) ++ t) with
                 | (y :: ys, rest) => if list_prefix key_tech_count rest then Some (y :: ys)
                                      else search_tech_count (ds ++ t)
                 | ([], _) => search_tech_count (ds ++ t)
                 end) by reflexivity;
    rewrite Hs, Hr end.
  replace (list_prefix key_tech_count _) with true by reflexivity. exact Hv.
Qed.

(** [extract_tech_count] reads back the actual count from the message
    [validate_schedule] writes for a wrong number of technologists. *)
Theorem extract_tech_count_roundtrip d s actual required :
  0 <= actual -> extract_tech_count (tech_count_msg d s actual required) = actual.
Proof. apply extract_tech_count_msg. Qed.

Lemma extract_tech_count_roundtrip_witness :
  0 <= 3 /\ extract_tech_count (tech_count_msg 0 Tarde 3 2) = 3.
Proof. split; [lia|]. apply (extract_tech_count_roundtrip 0 Tarde 3 2). lia. Defined.

(** *** validate_schedule: coverage *)

(** [validate_schedule] reports every slot of the period whose number of
    technologists differs from [TECHS_PER_SHIFT], with the message from which
    [extract_tech_count] reads that number back, and every slot of the
    period without an engineer. *)
Theorem validate_schedule_reports_coverage st d s :
  in_range (sched st) d = true ->
  let n := Z.of_nat (length (technologists (slots (sched st) d s))) in
  (n <> TECHS_PER_SHIFT s ->
     In (tech_count_msg d s n (TECHS_PER_SHIFT s)) (validate_schedule st) /\
     extract_tech_count (tech_count_msg d s n (TECHS_PER_SHIFT s)) = n) /\
  (engineer (slots (sched st) d s) = None ->
     In ("Error en " ++ fmt_date d ++ " " ++ shift_name s ++ ": Falta ingeniero asignado")%string
        (validate_schedule st)).
Proof.
  intros Hr. cbv zeta.
  assert (Hin : forall m, In m (coverage_msgs (sched st) d s) -> In m (validate_schedule st)).
  { intros m Hm. unfold validate_schedule. apply in_or_app. left.
    apply in_flat_map. exists d. split; [apply schedule_dates_In; exact Hr|].
    apply in_flat_map. exists s. split; [destruct s; cbn; tauto | exact Hm]. }
  split.
  - intros Hn. split; [|apply extract_tech_count_msg; lia].
    apply Hin. unfold coverage_msgs. apply in_or_app. left.
    apply Z.eqb_neq in Hn. rewrite Hn. left. reflexivity.
  - intros He. apply Hin. unfold coverage_msgs. apply in_or_app. right.
    rewrite He. left. reflexivity.
Qed.

Lemma validate_schedule_reports_coverage_witness :
  in_range (sched rest_state) 0 = true /\
  let n := Z.of_nat (length (technologists (slots (sched rest_state) 0 Tarde))) in
  (n <> TECHS_PER_SHIFT Tarde ->
     In (tech_count_msg 0 Tarde n (TECHS_PER_SHIFT Tarde)) (validate_schedule rest_state) /\
     extract_tech_count (tech_count_msg 0 Tarde n (TECHS_PER_SHIFT Tarde)) = n) /\
  (engineer (slots (sched rest_state) 0 Tarde) = None ->
     In ("Error en " ++ fmt_date 0 ++ " " ++ shift_name Tarde ++ ": Falta ingeniero asignado")%string
        (validate_schedule rest_state)).
Proof.
  split; [reflexivity|]. apply (validate_schedule_reports_coverage rest_state 0 Tarde).
  reflexivity.
Defined.

(** *** get_nearby_dates *)

(** [get_nearby_dates(date, days_before, days_after)] lists each date from
    [date - days_before] to [date + days_after] except [date] itself, each
    once. *)
Theorem get_nearby_dates_spec date days_before days_after :
  List.NoDup (get_nearby_dates date days_before days_after) /\
  (forall x, In x (get_nearby_dates date days_before days_after) <->
             date - days_before <= x <= date + days_after /\ x <> date).
Proof.
  unfold get_nearby_dates. split.
  - assert (Hr : List.NoDup (Z_range (- days_before) (days_after + 1))).
    { unfold Z_range. apply Finite.Injective_map_NoDup; [intros i j E; lia|apply seq_NoDup]. }
    induction Hr as [|i l Hi Hl IH]; cbn [flat_map]; [constructor|].
    destruct (i =? 0) eqn:E; [exact IH|]. cbn [app]. constructor; [|exact IH].
    rewrite in_flat_map. intros [j [Hj Hm]].
    destruct (j =? 0); [destruct Hm|]. destruct Hm as [Hm|[]].
    assert (i = j) by lia. subst j. contradiction.
  - intros x. rewrite in_flat_map. split.
    + intros [i [Hi Hm]]. apply Z_range_In in Hi.
      destruct (i =? 0) eqn:E; [destruct Hm|]. destruct Hm as [<-|[]].
      apply Z.eqb_neq in E. lia.
    + intros [Hx Hne]. exists (x - date). split; [apply Z_range_In; lia|].
      replace (x - date =? 0) with false by (symmetry; apply Z.eqb_neq; lia).
      left. lia.
Qed.

Lemma check_adequate_rest_relaxed_weaker_witness :
  check_adequate_rest (add_shift (new_worker 1 true) 0 Noche) 2 Tarde = true /\
  check_adequate_rest_relaxed (add_shift (new_worker 1 true) 0 Noche) 2 Tarde = true.
Proof.
  split; [reflexivity|]. apply check_adequate_rest_relaxed_weaker. reflexivity.
Defined.

(** *** predict_assignment_impact: normal return *)

(** When [predict_assignment_impact] returns normally (no exception) the
    whole state is the one before the call: the worker's shifts, days off
    and earnings, every other worker and every slot are unchanged. *)
Theorem predict_assignment_impact_return_unchanged (st st' : State) (h : WorkerRef)
  (date : Date) (s : Shift) (r : bool * list string * Score) :
  predict_assignment_impact st h date s = (inr r, st') -> st' = st.
Proof.
  unfold predict_assignment_impact.
  destruct (store st !! h) as [w0|] eqn:Hw; [|intros E; injection E as _ <-; reflexivity].
  cbv zeta.
  destruct (existsb _ (shifts w0)); [intros E; injection E as _ <-; reflexivity|].
  match goal with |- context [lookahead st h w0 date s ?i] =>
    destruct (lookahead st h w0 date s i) as [[e|[i3 fb]] st1] eqn:E end;
    [discriminate|].
  apply (lookahead_inr _ _ _ _ _ _ _ _ _ Hw) in E. subst st1.
  intros H.
  repeat match goal with H : context [if ?c then _ else _] |- _ => destruct c end;
    injection H as _ <-; reflexivity.
Qed.

(** With no day of the period after 2025-01-07, the call on T1 returns. *)
Lemma predict_assignment_impact_return_unchanged_witness :
  exists r st',
    predict_assignment_impact week_state 0 6 Tarde = (inr r, st') /\ st' = week_state.
Proof.
  eexists _, _. split; [reflexivity|].
  eapply (predict_assignment_impact_return_unchanged week_state _ 0 6 Tarde).
  reflexivity.
Defined.
